(** * cheribuild: argument lists, error reporting and instance sharing

    A shallow embedding of two project descriptions of cheribuild,

      - [pycheribuild/projects/cross/newlib_baremetal.py]
        (class [BuildNewlibBaremetal]) and
      - [pycheribuild/projects/run_fvp.py]
        (classes [InstallMorelloFVP] and [LaunchFVPBase]),

    together with the properties their specification states about them.

    Python lists are Rocq lists, [str] values are [string]s, [int]s are
    [Z], a [pathlib.Path] is the string [str(path)] in pathlib's normal
    form, a [dict] used as a map is a [gmap] and keyword arguments are an
    association list (a [dict] keeps insertion order and has no duplicate
    key).  Methods with effects run in a small state-and-exception monad:
    a run returns the trace of the calls it made on the process runner and
    on the logging helpers, the attributes it assigned, and its outcome. *)

From Stdlib Require Import ZArith String Ascii List Lia DecimalString.
From stdpp Require Import base option list strings gmap.

Open Scope string_scope.
Open Scope list_scope.

(** ** Python strings and integers *)

(** [str(n)] for an [int]. *)
Definition str_int (n : Z) : string := NilZero.string_of_int (Z.to_int n).

(** The double-quote character. *)
Definition dquote : string := String (ascii_of_nat 34) EmptyString.

(** The newline character. *)
Definition nl : string := String (ascii_of_nat 10) EmptyString.

(** [sep.join(parts)]. *)
Fixpoint join (sep : string) (parts : list string) : string :=
  match parts with
  | [] => EmptyString
  | [p] => p
  | p :: rest => p +:+ sep +:+ join sep rest
  end.

(** [needle in hay], on strings. *)
Fixpoint contains (needle hay : string) : bool :=
  String.prefix needle hay ||
  match hay with
  | EmptyString => false
  | String _ hay' => contains needle hay'
  end.

(** Python truthiness of an optional string option value: [None] and the
    empty string are false. *)
Definition truthy (o : option string) : bool :=
  match o with
  | None => false
  | Some EmptyString => false
  | Some _ => true
  end.

(** ** pathlib *)

Definition Path := string.

Definition slash : ascii := ascii_of_nat 47.
Definition dot : ascii := ascii_of_nat 46.

(** [rsplit c s] splits [s] at its last occurrence of [c]:
    [Some (before, after)], or [None] when [c] does not occur. *)
Fixpoint rsplit (c : ascii) (s : string) : option (string * string) :=
  match s with
  | EmptyString => None
  | String a s' =>
      match rsplit c s' with
      | Some (before, after) => Some (String a before, after)
      | None => if Ascii.eqb a c then Some (EmptyString, s') else None
      end
  end.

(** A path that ends with a slash: in normal form, a root. *)
Definition is_root (p : Path) : bool :=
  match rsplit slash p with
  | Some (_, EmptyString) => true
  | _ => false
  end.

(** [Path(p, q)] and [p / q], for [p] and [q] in normal form: an empty
    [q] and the current directory [.] add nothing, an absolute [q]
    replaces [p], the current directory disappears in front of [q], and a
    root takes no separator. *)
Definition path_join (p : Path) (q : string) : Path :=
  match q with
  | EmptyString => p
  | String c _ =>
      if String.eqb q "." then p
      else if Ascii.eqb c slash then q
      else if String.eqb p "." then q
      else if is_root p then p +:+ q
      else p +:+ "/" +:+ q
  end.

Infix "</>" := path_join (at level 40, left associativity).

(** [p.name]: the final component; a root and the current directory
    have none. *)
Definition path_name (p : Path) : string :=
  match rsplit slash p with
  | Some (_, name) => name
  | None => if String.eqb p "." then EmptyString else p
  end.

(** [p.parent]: the parent of a root is that root, and the parent of a
    single relative component is the current directory. *)
Definition path_parent (p : Path) : Path :=
  match rsplit slash p with
  | Some (EmptyString, _) => "/"
  | Some (dir, _) => if String.eqb dir "/" then "//" else dir
  | None => "."
  end.

(** [p.suffix]: with [i = name.rfind('.')], the text from the dot on when
    [0 < i < len(name) - 1], and the empty string otherwise. *)
Definition path_suffix (p : Path) : string :=
  match rsplit dot (path_name p) with
  | Some (String _ _, (String _ _) as ext) => String dot ext
  | _ => EmptyString
  end.

(** ** newlib_baremetal.py: class BuildNewlibBaremetal *)

Module Newlib.

(** A keyword-argument value: the callers pass [str] and [Path]
    objects. *)
Inductive value :=
| VStr (s : string)
| VPath (p : Path).

#[global] Instance value_eq_dec : EqDecision value.
Proof. solve_decision. Defined.

(** [str(v)]. *)
Definition str (v : value) : string :=
  match v with
  | VStr s => s
  | VPath p => p
  end.

(** [**kwargs]: the pairs in insertion order. *)
Definition kwargs := list (string * value).

(** The part of the project object the two methods touch.  [base] is
    whatever state the superclass keeps for itself. *)
Record Project (Base : Type) := mkProject {
  configureArgs : list string;
  make_env_vars : gmap string string;   (* self.make_args.env_vars *)
  triple : string;
  base : Base;
}.
Arguments mkProject {Base}.
Arguments configureArgs {Base}.
Arguments make_env_vars {Base}.
Arguments triple {Base}.
Arguments base {Base}.

(** [self.triple], as [__init__] sets it. *)
Definition init_triple : string := "mips64-qemu-elf".

Section Methods.
Context {Base : Type}.

(** The superclass methods, defined in [crosscompileproject]. *)
Variable super_add_configure_vars : kwargs -> Project Base -> Project Base.
Variable super_configure : Project Base -> Project Base.

Definition set_make_env (env : gmap string string) (p : Project Base)
  : Project Base :=
  mkProject (configureArgs p) env (triple p) (base p).

Definition set_configureArgs (args : list string) (p : Project Base)
  : Project Base :=
  mkProject args (make_env_vars p) (triple p) (base p).

(** The loop
    [for k, v in kwargs.items(): self.make_args.env_vars[k] = str(v)]. *)
Fixpoint mirror_into_env (kw : kwargs) (env : gmap string string)
  : gmap string string :=
  match kw with
  | [] => env
  | (k, v) :: rest => mirror_into_env rest (<[k := str v]> env)
  end.

Definition add_configure_vars (kw : kwargs) (p : Project Base)
  : Project Base :=
  let p1 := super_add_configure_vars kw p in
  set_make_env (mirror_into_env kw (make_env_vars p1)) p1.

(** The list literal passed to [configureArgs.extend].  Two adjacent
    string literals with no comma between them are one string in Python:
    the fifth element is the concatenation of the literals of lines 109
    and 111. *)
Definition configure_feature_flags : list string :=
  [ "--enable-malloc-debugging";
    "--enable-newlib-long-time_t";
    "--enable-newlib-io-c99-formats";
    "--enable-newlib-io-long-long";
    "--disable-newlib-io-long-double" +:+ "--disable-newlib-mb";
    "--disable-libstdcxx";
    "--disable-newlib-io-float";
    "--enable-newlib-global-atexit";
    "--enable-serial-build-configure";
    "--enable-serial-target-configure";
    "--enable-serial-host-configure" ].

(** [configure], up to the call of the superclass method: one [extend]
    and three [append]s. *)
Definition configure_own_args (p : Project Base) : Project Base :=
  let p1 := set_configureArgs (configureArgs p ++ configure_feature_flags) p in
  let p2 := set_configureArgs (configureArgs p1 ++ ["--target=" +:+ triple p1]) p1 in
  let p3 := set_configureArgs (configureArgs p2 ++ ["--disable-multilib"]) p2 in
  set_configureArgs (configureArgs p3 ++ ["--with-newlib"]) p3.

Definition configure (p : Project Base) : Project Base :=
  super_configure (configure_own_args p).

End Methods.

End Newlib.

(** ** run_fvp.py: the effects *)

Module FVP.

(** What a call can raise: an [Exception] [e], of which [str(e)] is
    kept, or [SystemExit].  [except Exception] catches the first kind
    only; [sys.exit], which [fatal] calls outside pretend mode, raises
    the second. *)
Inductive exn :=
| PyException (what : string)
| SystemExit.

Inductive result (A : Type) :=
| Ret (a : A)
| Raise (e : exn).
Arguments Ret {A} a.
Arguments Raise {A} e.

(** The calls a method makes on the process runner, on the file helpers
    and on the logging helpers of [SimpleProject], in the order made. *)
Inductive event :=
| EFatal (msg : string) (fixit_hint : option string)
| EWarning (msg : string) (fixit_hint : option string)
| EVerbosePrint (msg : string)
| ERunCmd (argv : list string) (cwd : option Path)
| EPopen (argv : list string)
| ETerminate
| EKill
| EMkTemp (td : Path)
| ERmTemp (td : Path)
| ECleanDirectory (dir : Path)
| EInstallFile (src dst : Path)
| EWriteFile (file : Path) (contents : string)
| ECopyRemoteFile (src : string) (dst : Path)
| ECheckSystemDependencies
| ESetEnv (name value : string)
| ERestoreEnv (name : string).

(** The attributes the methods assign: the two [cached_property] slots
    of the shared [InstallMorelloFVP] instance and [license_server] of the
    launcher. *)
Record State := mkState {
  fvp_revision_cache : option Z;
  docker_memory_size_cache : option Z;
  license_server : option string;
}.

Definition M (A : Type) : Type := State -> list event * State * result A.

Definition ret {A : Type} (a : A) : M A := fun s => ([], s, Ret a).

Definition bind {A B : Type} (m : M A) (k : A -> M B) : M B :=
  fun s =>
    match m s with
    | (t1, s1, Ret a) =>
        match k a s1 with
        | (t2, s2, r) => (t1 ++ t2, s2, r)
        end
    | (t1, s1, Raise e) => (t1, s1, Raise e)
    end.

Declare Scope fvp_scope.
Delimit Scope fvp_scope with fvp.
Notation "x <- m ;; k" := (bind m (fun x => k))
  (at level 100, m at next level, right associativity) : fvp_scope.
Notation "m ;; k" := (bind m (fun _ => k))
  (at level 100, right associativity) : fvp_scope.
Open Scope fvp_scope.

Definition emit (e : event) : M unit := fun s => ([e], s, Ret tt).

Definition raise {A : Type} (e : exn) : M A := fun s => ([], s, Raise e).

Definition gets {A : Type} (f : State -> A) : M A := fun s => ([], s, Ret (f s)).

Definition modify (f : State -> State) : M unit := fun s => ([], f s, Ret tt).

(** [if c: body] with no [else]. *)
Definition when (c : bool) (body : M unit) : M unit :=
  if c then body else ret tt.

(** [try: body finally: cleanup]: the cleanup runs however the body
    ends, and the body's outcome stands unless the cleanup itself
    raises. *)
Definition try_finally {A : Type} (body : M A) (cleanup : M unit) : M A :=
  fun s =>
    match body s with
    | (t1, s1, r) =>
        match cleanup s1 with
        | (t2, s2, Ret _) => (t1 ++ t2, s2, r)
        | (t2, s2, Raise e) => (t1 ++ t2, s2, Raise e)
        end
    end.

(** [try: body except Exception as e: handler(e)]. *)
Definition try_except {A : Type} (body : M A) (handler : string -> M A) : M A :=
  fun s =>
    match body s with
    | (t1, s1, Raise (PyException what)) =>
        match handler what s1 with
        | (t2, s2, r) => (t1 ++ t2, s2, r)
        end
    | other => other
    end.

(** [@cached_property]: the first access that returns stores the value
    in the instance, later ones read it back. *)
Definition cached_property (slot : State -> option Z)
    (store : Z -> State -> State) (compute : M Z) : M Z :=
  fun s =>
    match slot s with
    | Some v => ([], s, Ret v)
    | None => (v <- compute ;; modify (store v) ;; ret v) s
    end.

(** [assert c, msg]: the [AssertionError] has the text [msg], which is
    empty for an [assert] with no message. *)
Definition assert_ (c : bool) (msg : string) : M unit :=
  if c then ret tt else raise (PyException msg).

(** The events, the final state and the outcome of a run. *)
Definition events {A : Type} (r : list event * State * result A) : list event :=
  r.1.1.
Definition final {A : Type} (r : list event * State * result A) : State :=
  r.1.2.
Definition outcome {A : Type} (r : list event * State * result A) : result A :=
  r.2.

(** ** run_fvp.py: the environment *)

(** What running a command does: [run_cmd] returns the completed
    process, whose [stdout] is kept, or raises an [Exception]. *)
Inductive cmd_outcome :=
| Completed (stdout : string)
| Failed (what : string).

(** [self.config]. *)
Record CheriConfig := mkConfig {
  pretend : bool;
  morello_sdk_dir : Path;
  skip_update : bool;
  clean : bool;
}.

(** The host: [OSInfo], [os.getenv], the file system as the methods
    query it, the commands, and the Python built-ins applied to what the
    host returns. *)
Record Host := mkHost {
  IS_MAC : bool;
  DISPLAY : option string;                  (* os.getenv("DISPLAY") *)
  tmpdir : Path;                            (* tempfile.TemporaryDirectory() *)
  is_file : Path -> bool;
  path_exists : Path -> bool;
  is_dir : Path -> bool;
  glob_sh : Path -> list Path;              (* list(Path(d).glob("*.sh")) *)
  file_contents : Path -> option string;    (* read_file; None: it raises *)
  cmd_result : list string -> cmd_outcome;
  socat_spawns : bool;                      (* popen returns, or raises *)
  py_int : string -> option Z;              (* int(s); None: ValueError *)
  py_strip : string -> string;              (* s.strip() *)
  py_split : string -> list string;         (* s.split() *)
  pformat : list string -> string;          (* pprint.pformat *)
  option_name : string -> string;           (* get_config_option_name *)
  py_repr : string -> string;               (* repr(s) *)
  read_error : Path -> string;              (* str(e), when read_file raises e *)
  popen_error : list string -> string;      (* str(e), when popen raises e *)
}.

(** The options [InstallMorelloFVP.setup_config_options] declares. *)
Record InstallOptions := mkInstallOptions {
  installer_path : option Path;
  use_docker_container : bool;
  i_agree_to_the_contained_eula : bool;
}.

(** The options [LaunchFVPBase.setup_config_options] declares;
    [license_server] is in the [State], as [process] assigns it. *)
Record LaunchOptions := mkLaunchOptions {
  firmware_path : Path;
  remote_disk_image_path : option string;
  ssh_port : Z;
  use_architectureal_fvp : bool;
  arch_model_path : Path;
}.

(** What [LaunchFVPBase.process] reads from the instances of the
    projects it depends on. *)
Record Dependencies := mkDependencies {
  disk_image_path : Path;
  mcp_rom_bin : Path;
  scp_rom_bin : Path;
  uefi_bin : Path;
  scp_ap_ram_firmware_image : Path;
  mcp_ram_firmware_image : Path;
}.

(** ** run_fvp.py: the helpers of SimpleProject *)

Section Methods.
Variable cfg : CheriConfig.
Variable host : Host.

(** Modelled from the spec: [SimpleProject.fatal], which the sources call
    and do not define, with its positional arguments [args], [sep] and
    [fixit_hint].  The message is reported; outside pretend mode the
    program then exits, in pretend mode the call returns (which is why
    [process] has a [return] after one call and assigns a placeholder
    licence server before another). *)
Definition fatal (args : list string) (sep : string) (hint : option string)
  : M unit :=
  emit (EFatal (join sep args) hint) ;;
  if pretend cfg then ret tt else raise SystemExit.

(** [self.warning], with the same arguments. *)
Definition warning (args : list string) (sep : string) (hint : option string)
  : M unit :=
  emit (EWarning (join sep args) hint).

(** [self.verbose_print]. *)
Definition verbose_print (args : list string) : M unit :=
  emit (EVerbosePrint (join " " args)).

(** [self.run_cmd(argv, cwd=cwd)], the process runner of
    [SimpleProject]: the call is recorded, and it returns the [stdout] of
    the completed process or raises, as the host decides. *)
Definition run_cmd (argv : list string) (cwd : option Path) : M string :=
  emit (ERunCmd argv cwd) ;;
  match cmd_result host argv with
  | Completed out => ret out
  | Failed what => raise (PyException what)
  end.

(** [self.read_file(p)]. *)
Definition read_file (p : Path) : M string :=
  match file_contents host p with
  | Some text => ret text
  | None => raise (PyException (read_error host p))
  end.

(** The text of the [ValueError] of [int(s)]. *)
Definition invalid_literal (s : string) : string :=
  "invalid literal for int() with base 10: " +:+ py_repr host s.

(** [int(s)]. *)
Definition int_ (s : string) : M Z :=
  match py_int host s with
  | Some n => ret n
  | None => raise (PyException (invalid_literal s))
  end.

(** [popen(argv, stdin=subprocess.DEVNULL)]. *)
Definition popen (argv : list string) : M unit :=
  if socat_spawns host then emit (EPopen argv)
  else raise (PyException (popen_error host argv)).

(** Modelled from the spec: [SimpleProject.ensure_file_exists], which the
    sources call and do not define.  A required file that is missing is
    a fatal error with a descriptive message; the path is returned. *)
Definition ensure_file_exists (what : string) (p : Path) : M Path :=
  when (negb (path_exists host p)) (fatal [what; "not found:"; p] " " None) ;;
  ret p.

(** [with tempfile.TemporaryDirectory() as td: body(td)]. *)
Definition with_temporary_directory {A : Type} (body : Path -> M A) : M A :=
  let td := tmpdir host in
  emit (EMkTemp td) ;;
  try_finally (body td) (emit (ERmTemp td)).

(** [with set_env(name=value, print_verbose_only=False): body]. *)
Definition with_set_env {A : Type} (name value : string) (body : M A) : M A :=
  emit (ESetEnv name value) ;;
  try_finally body (emit (ERestoreEnv name)).

(** ** run_fvp.py: class InstallMorelloFVP *)

Variable iopts : InstallOptions.

Definition container_name : string := "morello-fvp".
Definition latest_known_fvp : Z := 345.
Definition min_ram_mb : Z := 4900.
Definition warn_ram_mb : Z := 7900.

Definition install_dir : Path := morello_sdk_dir cfg </> "FVP_Morello".

(** The Dockerfile [process] writes; a backslash at the end of a line of
    a Python string literal joins that line to the next one. *)
Definition dockerfile (installer_name : string) : string :=
  nl +:+
  "FROM opensuse/leap:15.2" +:+ nl +:+
  "RUN zypper in -y xterm gzip tar libdbus-1-3 libatomic1 telnet" +:+ nl +:+
  "COPY " +:+ installer_name +:+ " ." +:+ nl +:+
  "RUN ./" +:+ installer_name +:+
  " --i-agree-to-the-contained-eula --no-interactive --destination=/opt/FVP_Morello && " +:+
  "    rm ./" +:+ installer_name +:+ nl +:+
  "# Run as non-root user to allow X11 to work" +:+ nl +:+
  "RUN useradd fvp-user" +:+ nl +:+
  "USER fvp-user" +:+ nl +:+
  "VOLUME /diskimg" +:+ nl.

(** The installer [process] runs for an installer path [p] and a
    temporary directory [td] (lines 81 to 85, after the extraction). *)
Definition installer_sh_of (p td : Path) : Path :=
  if String.eqb (path_suffix p) ".tgz" then
    match glob_sh host td with
    | first :: _ => first
    | [] => td </> "FVP_Morello.sh"
    end
  else p.

Definition eula_args : list string :=
  if i_agree_to_the_contained_eula iopts
  then ["--i-agree-to-the-contained-eula"; "--no-interactive"]
  else ["--force"].

Definition build_flags : list string :=
  (if negb (skip_update cfg) then ["--pull"] else []) ++
  (if clean cfg then ["--no-cache"] else []).

(** The body of the [with] statement of [process]. *)
Definition install_from (p td : Path) : M unit :=
  when (String.eqb (path_suffix p) ".tgz")
    (run_cmd ["tar"; "xf"; p; "-C"; td] None ;; ret tt) ;;
  let installer_sh := installer_sh_of p td in
  when (negb (String.eqb (path_suffix installer_sh) ".sh"))
    (warning ["Incorrect path to installer? Expected installer to be a .sh file:";
              installer_sh] " " None) ;;
  emit (ECleanDirectory install_dir) ;;
  run_cmd ([installer_sh; "--destination"; install_dir] ++ eula_args) None ;;
  when (use_docker_container iopts)
    (when (negb (String.eqb (path_parent installer_sh) td))
       (emit (EInstallFile installer_sh (td </> path_name installer_sh))) ;;
     emit (EWriteFile (td </> "Dockerfile") (dockerfile (path_name installer_sh))) ;;
     run_cmd (["docker"; "build"] ++ build_flags ++ ["-t"; container_name; "."])
             (Some td) ;;
     ret tt).

Definition install_process : M unit :=
  match installer_path iopts with
  | None =>
      fatal ["Path to installer not known, set the";
             "--" +:+ option_name host "installer_path";
             "config option!"] " " None
      (* return *)
  | Some p =>
      when (negb (is_file host p))
        (fatal ["Specified path to installer does not exist:"; p] " " None) ;;
      with_temporary_directory (install_from p)
  end.

Definition revpath : string := "sw/ARM_Fast_Models_FVP_Morello/rev".

(** The body of [fvp_revision]. *)
Definition fvp_revision_body : M Z :=
  try_except
    (if use_docker_container iopts then
       rev <- run_cmd ["docker"; "run"; "-it"; "--rm"; container_name; "cat";
                       "/opt/FVP_Morello/" +:+ revpath] None ;;
       int_ (py_strip host rev)
     else
       text <- read_file (install_dir </> revpath) ;;
       int_ text)
    (fun e =>
       warning ["Could not determine FVP revision, assuming latest known (";
                str_int latest_known_fvp; "): "; e] EmptyString None ;;
       ret latest_known_fvp).

Definition store_fvp_revision (v : Z) (s : State) : State :=
  mkState (Some v) (docker_memory_size_cache s) (license_server s).

Definition fvp_revision : M Z :=
  cached_property fvp_revision_cache store_fvp_revision fvp_revision_body.

(** The body of [docker_memory_size]. *)
Definition docker_memory_size_body : M Z :=
  assert_ (use_docker_container iopts) EmptyString ;;
  memtotal <- run_cmd ["docker"; "run"; "-it"; "--rm"; container_name; "grep";
                       "MemTotal:"; "/proc/meminfo"] None ;;
  verbose_print ["Docker memory total:"; memtotal] ;;
  try_except
    (match py_split host memtotal with
     | _ :: field :: _ => n <- int_ field ;; ret (n * 1024)%Z
     | _ => raise (PyException "list index out of range")
     end)
    (fun e =>
       warning ["Could not determine memory available to docker container:"; e]
               " " None ;;
       ret 0%Z).

Definition store_docker_memory_size (v : Z) (s : State) : State :=
  mkState (fvp_revision_cache s) (Some v) (license_server s).

Definition docker_memory_size : M Z :=
  cached_property docker_memory_size_cache store_docker_memory_size
                  docker_memory_size_body.

Definition plugin_path : string := "plugins/Linux64_GCC-6.4/MorelloPlugin.so".

(** [_plugin_args]. *)
Definition plugin_args : M (list string) :=
  rev <- fvp_revision ;;
  if (rev >=? 312)%Z then ret []
  else if use_docker_container iopts
  then ret ["--plugin"; "/opt/FVP_Morello" </> plugin_path]
  else
    plugin <- ensure_file_exists "Morello FVP plugin" (install_dir </> plugin_path) ;;
    ret ["--plugin"; plugin].

Definition model_relpath : string := "models/Linux64_GCC-6.4/FVP_Morello".

Definition docker_settings_fixit : string :=
  if IS_MAC host
  then " This setting can be changed under " +:+ dquote +:+
       "Preferences > Resources > Advanced" +:+ dquote +:+ "."
  else EmptyString.

(** The check of the memory of the docker container (lines 146 to 155). *)
Definition check_docker_memory : M unit :=
  mem <- docker_memory_size ;;
  if (mem <? min_ram_mb * 1024 * 1024)%Z then
    mem' <- docker_memory_size ;;
    fatal ["Docker container has less than "; str_int min_ram_mb; "MB of RAM (";
           str_int (mem' / 1024 / 1024); "MB), this is not enough to run the FVP!"]
          EmptyString
          (Some ("Change the docker settings to allow at least 5GB (8GB recommended) of RAM for containers."
                 +:+ docker_settings_fixit))
  else
    mem1 <- docker_memory_size ;;
    when (mem1 <? warn_ram_mb * 1024 * 1024)%Z
      (mem' <- docker_memory_size ;;
       warning ["Docker container has less than "; str_int warn_ram_mb; "MB of RAM (";
                str_int (mem' / 1024 / 1024); "MB), this may not enough to run the FVP"]
               EmptyString
               (Some ("Change the docker settings to allow at least 8GB of RAM for containers."
                      +:+ docker_settings_fixit))).

(** [base_cmd], as the first [if] of [execute_fvp] builds it. *)
Definition base_cmd (disk_image_path firmware_path : option Path) (x11 : bool)
    (expose_telnet_ports : bool) (ssh_port : option Z) : M (list string) :=
  if use_docker_container iopts then
    let cmd0 := ["docker"; "run"; "-it"; "--rm"] in
    let cmd1 := cmd0 ++ (if expose_telnet_ports then ["-p"; "5000-5007:5000-5007"] else []) in
    let cmd2 := cmd1 ++ match ssh_port with
                        | Some port => ["-p"; str_int port +:+ ":" +:+ str_int port]
                        | None => []
                        end in
    cmd3 <- match disk_image_path with
            | Some img =>
                check_docker_memory ;;
                ret (cmd2 ++ ["-v"; img +:+ ":" +:+ img])
            | None => ret cmd2
            end ;;
    let cmd4 := cmd3 ++ match firmware_path with
                        | Some fw => ["-v"; fw +:+ ":" +:+ fw]
                        | None => []
                        end in
    let cmd5 := cmd4 ++ (if x11 then ["-e"; "DISPLAY=host.docker.internal:0"] else []) in
    ret (cmd5 ++ [container_name; "/opt/FVP_Morello" </> model_relpath])
  else ret [install_dir </> model_relpath].

(** The condition under which [execute_fvp] runs socat. *)
Definition needs_socat (x11 : bool) : bool :=
  use_docker_container iopts && x11 && IS_MAC host && truthy (DISPLAY host).

Definition socat_argv : list string :=
  ["socat"; "TCP-LISTEN:6000,reuseaddr,fork";
   "UNIX-CLIENT:" +:+ dquote +:+ default EmptyString (DISPLAY host) +:+ dquote].

(** [self.run_cmd(base_cmd + self._plugin_args() + args)]. *)
Definition run_simulator (cmd args : list string) : M unit :=
  plugin <- plugin_args ;;
  run_cmd (cmd ++ plugin ++ args) None ;;
  ret tt.

Definition execute_fvp (args : list string)
    (disk_image_path firmware_path : option Path) (x11 : bool)
    (expose_telnet_ports : bool) (ssh_port : option Z) : M unit :=
  cmd <- base_cmd disk_image_path firmware_path x11 expose_telnet_ports ssh_port ;;
  if needs_socat x11 then
    popen socat_argv ;;
    try_finally (run_simulator cmd args) (emit ETerminate ;; emit EKill)
  else run_simulator cmd args.

(** ** run_fvp.py: class LaunchFVPBase *)

Variable lopts : LaunchOptions.
Variable deps : Dependencies.

(** [default_ssh_port], for the user id [uid]. *)
Definition default_ssh_port (uid : Z) : Z := (12345 + ((uid - 1000) mod 10000))%Z.

(** The property [use_virtio_net]. *)
Definition use_virtio_net : bool := false.

Definition board_prefix : string :=
  if use_architectureal_fvp lopts then "bp." else "board.".

(** The nested function [add_board_params]: what [model_params] is after
    the call. *)
Definition add_board_params (params : list string) (model_params : list string)
  : list string :=
  model_params ++ map (fun p => board_prefix +:+ p) params.

Definition hostbridge_prefix : string :=
  (if use_virtio_net then "virtio_net." else EmptyString) +:+ "hostbridge.".

(** The nested function [add_hostbridge_params]. *)
Definition add_hostbridge_params (params : list string) (model_params : list string)
  : list string :=
  add_board_params (map (fun p => hostbridge_prefix +:+ p) params) model_params.

(** [model_params] after lines 264 to 290. *)
Definition board_model_params (disk_image : Path) : list string :=
  let mp0 := [] in
  let mp1 := if use_virtio_net
             then add_board_params ["virtio_net.enabled=1"] mp0
             else add_board_params ["smsc_91c111.enabled=1"] mp0 in
  let mp2 := add_hostbridge_params
               ["userNetworking=true";
                "userNetPorts=" +:+ str_int (ssh_port lopts) +:+ "=22";
                "interfaceName=ARM0"] mp1 in
  add_board_params
    ["virtio_net.transport=legacy";
     "virtio_rng.transport=legacy";
     "virtioblockdevice.image_path=" +:+ disk_image] mp2.

(** [[x for param in model_params for x in ("-C", param)]]. *)
Definition prepend_C (model_params : list string) : list string :=
  flat_map (fun param => ["-C"; param]) model_params.

Definition set_license_server (v : string) (s : State) : State :=
  mkState (fvp_revision_cache s) (docker_memory_size_cache s) (Some v).

(** [model_params] of the architectural branch after lines 311 to 318. *)
Definition architectural_model_params (model_params : list string)
    (fip_bin bl1_bin : Path) : list string :=
  model_params ++
  ["pctl.startup=0.0.0.0";
   "bp.secure_memory=0";
   "cache_state_modelled=0";
   "cluster0.NUM_CORES=1";
   "bp.flashloader0.fname=" +:+ fip_bin;
   "bp.secureflashloader.fname=" +:+ bl1_bin].

(** The branch of [process] for the architectural FVP. *)
Definition launch_architectural (model_params : list string) : M unit :=
  ls <- gets license_server ;;
  when (negb (truthy ls))
    (modify (set_license_server "unknown.license.server") ;;
     fatal ["License server info unknown, set the";
            "--" +:+ option_name host "license_server";
            "config option!"] " " None) ;;
  when (negb (is_dir host (arch_model_path lopts)))
    (fatal ["FVP path"; arch_model_path lopts; "does not exist, set the";
            "--" +:+ option_name host "simulator_path"; "config option!"] " " None) ;;
  ls' <- gets license_server ;;
  with_set_env "ARMLMD_LICENSE_FILE" (default EmptyString ls')
    (sim_binary <- ensure_file_exists "Model binary"
         (arch_model_path lopts </> "models/Linux64_GCC-6.4/FVP_Base_RevC-Rainier") ;;
     plugin <- ensure_file_exists "Morello FVP plugin"
         (arch_model_path lopts </> "plugins/Linux64_GCC-6.4/MorelloPlugin.so") ;;
     bl1_bin <- ensure_file_exists "bl1.bin firmware" (firmware_path lopts </> "bl1.bin") ;;
     fip_bin <- ensure_file_exists "fip.bin firmware" (firmware_path lopts </> "fip.bin") ;;
     let model_params' := architectural_model_params model_params fip_bin bl1_bin in
     let fvp_args := prepend_C model_params' in
     run_cmd ([sim_binary; "--plugin"; plugin; "--print-port-number"] ++ fvp_args) None ;;
     ret tt).

(** [model_params] of the other branch, for the revision [rev] of the
    installed FVP (lines 324 to 336). *)
Definition morello_model_params (model_params : list string) (rev : Z)
  : list string :=
  let mp := model_params ++ ["displayController=0"] in
  if (rev >? 255)%Z
  then mp ++ ["board.virtio_rng.enabled=1";
              "board.virtio_rng.seed=0";
              "board.virtio_rng.generator=2"]
  else mp.

(** The branch of [process] for the Morello FVP that
    [InstallMorelloFVP] installs. *)
Definition launch_morello (model_params : list string) (disk_image : Path) : M unit :=
  emit ECheckSystemDependencies ;;
  rev <- fvp_revision ;;
  let model_params' := morello_model_params model_params rev in
  rev' <- fvp_revision ;;
  when (rev' <? 312)%Z
    (fatal ["FVP is too old, please update to latest version"] " " None) ;;
  let fvp_args := prepend_C model_params' in
  mcp_rom <- ensure_file_exists "MCP ROM ELF firmware" (mcp_rom_bin deps) ;;
  scp_rom <- ensure_file_exists "SCP ROM ELF firmware" (scp_rom_bin deps) ;;
  uefi <- ensure_file_exists "UEFI firmware" (uefi_bin deps) ;;
  scp_fw <- ensure_file_exists "SCP/AP firmware" (scp_ap_ram_firmware_image deps) ;;
  mcp_fw <- ensure_file_exists "MCP firmware" (mcp_ram_firmware_image deps) ;;
  assert_ (String.eqb (path_parent uefi) (path_parent scp_fw) &&
           String.eqb (path_parent scp_fw) (path_parent scp_rom)) "Different dirs?" ;;
  let fvp_args1 :=
    fvp_args ++
    ["--data"; "Morello_Top.css.scp.armcortexm7ct=" +:+ scp_rom +:+ "@0x0";
     "--data"; "Morello_Top.css.mcp.armcortexm7ct=" +:+ mcp_rom +:+ "@0x0";
     "-C"; "css.scp.armcortexm7ct.INITVTOR=0x0";
     "-C"; "css.mcp.armcortexm7ct.INITVTOR=0x0";
     "--data"; uefi +:+ "@0x14200000";
     "-C"; "soc.scp_qspi_loader.fname=" +:+ scp_fw;
     "-C"; "soc.mcp_qspi_loader.fname=" +:+ mcp_fw;
     "-C"; "css.pl011_uart_ap.unbuffered_output=1"] in
  let fvp_args2 := fvp_args1 ++ ["-C"; "css.scp.CS_Counter.use_real_time=1"] in
  verbose_print ["FVP args:" +:+ nl; pformat host fvp_args2] ;;
  execute_fvp (fvp_args2 ++ ["--print-port-number"])
              (Some disk_image) (Some (path_parent uefi)) true true
              (Some (ssh_port lopts)).

Definition launch_process : M unit :=
  when (negb (path_exists host (firmware_path lopts)))
    (fatal ["Firmware path"; firmware_path lopts; " is invalid, set the";
            "--" +:+ option_name host "firmware_path"; "config option!"] " " None) ;;
  when (truthy (remote_disk_image_path lopts))
    (emit (ECopyRemoteFile (default EmptyString (remote_disk_image_path lopts))
                           (disk_image_path deps))) ;;
  disk_image <- ensure_file_exists "disk image" (disk_image_path deps) ;;
  let model_params := board_model_params disk_image in
  if use_architectureal_fvp lopts
  then launch_architectural model_params
  else launch_morello model_params disk_image.

End Methods.

End FVP.

(** ** Project instances *)

Module Instances.

(** A project class is named by its [target] attribute and a
    cross-compilation target by its name. *)
Definition project_class := string.
Definition cross_target := string.

(** A constructed project instance: the class and target it was built
    for and the order in which it was constructed. *)
Record instance := mkInstance {
  inst_class : project_class;
  inst_target : cross_target;
  inst_serial : nat;
}.

(** The instances constructed so far, keyed by class and target. *)
Record Registry := mkRegistry {
  table : gmap (project_class * cross_target) instance;
  constructed : nat;
}.

Definition empty_registry : Registry := mkRegistry ∅ 0.

(** Modelled from the spec: [get_instance], a class method of [SimpleProject]
    that the sources call and do not define.  Instances are resolved lazily
    and shared, keyed by target: the first call for a class and a target
    constructs the instance, later calls return that same instance. *)
Definition get_instance (cls : project_class) (tgt : cross_target) (r : Registry)
  : instance * Registry :=
  match table r !! (cls, tgt) with
  | Some i => (i, r)
  | None =>
      let i := mkInstance cls tgt (constructed r) in
      (i, mkRegistry (<[(cls, tgt) := i]> (table r)) (S (constructed r)))
  end.

(** A sequence of [get_instance] calls, the registry threaded through. *)
Fixpoint get_instances (calls : list (project_class * cross_target)) (r : Registry)
  : Registry :=
  match calls with
  | [] => r
  | (cls, tgt) :: rest => get_instances rest (get_instance cls tgt r).2
  end.

End Instances.

(** ** Vocabulary of the properties of run_fvp.py *)

Module FVPSpec.
Import FVP.

(** Every event of every run of [m] satisfies [P]. *)
Definition always {A : Type} (P : event -> Prop) (m : M A) : Prop :=
  forall s, Forall P (events (m s)).

(** A computation that assigns no attribute. *)
Definition keeps_state {A : Type} (m : M A) : Prop :=
  forall s, final (m s) = s.

(** A fatal error whose message names the option [opt]. *)
Definition names_option (opt : string) (e : event) : bool :=
  match e with
  | EFatal msg _ => contains ("--" +:+ opt) msg
  | _ => false
  end.

Definition reports_option (opt : string) (t : list event) : bool :=
  existsb (names_option opt) t.

(** The fatal errors of the two [process] methods. *)
Definition installer_unknown (host : Host) : event :=
  EFatal (join " " ["Path to installer not known, set the";
                    "--" +:+ option_name host "installer_path";
                    "config option!"]) None.

Definition installer_missing (p : Path) : event :=
  EFatal (join " " ["Specified path to installer does not exist:"; p]) None.

Definition firmware_invalid (host : Host) (lopts : LaunchOptions) : event :=
  EFatal (join " " ["Firmware path"; firmware_path lopts; " is invalid, set the";
                    "--" +:+ option_name host "firmware_path"; "config option!"])
         None.

Definition license_unknown (host : Host) : event :=
  EFatal (join " " ["License server info unknown, set the";
                    "--" +:+ option_name host "license_server";
                    "config option!"]) None.

Definition model_missing (host : Host) (lopts : LaunchOptions) : event :=
  EFatal (join " " ["FVP path"; arch_model_path lopts; "does not exist, set the";
                    "--" +:+ option_name host "simulator_path"; "config option!"])
         None.

Definition too_old : event :=
  EFatal "FVP is too old, please update to latest version" None.

(** Any event but that fatal error. *)
Definition recent (e : event) : Prop := e <> too_old.

(** The events on the socat process. *)
Definition socat_event (e : event) : bool :=
  match e with
  | EPopen _ | ETerminate | EKill => true
  | _ => false
  end.

Definition is_run_cmd (e : event) : bool :=
  match e with
  | ERunCmd _ _ => true
  | _ => false
  end.

(** A command that runs the model inside the container. *)
Definition runs_model (e : event) : bool :=
  match e with
  | ERunCmd argv _ => bool_decide (("/opt/FVP_Morello" </> model_relpath) ∈ argv)
  | _ => false
  end.

(** What may happen in [execute_fvp] before socat is spawned. *)
Definition before_spawn (e : event) : Prop :=
  socat_event e = false /\ runs_model e = false.

(** The two commands of [InstallMorelloFVP.process] that matter. *)
Definition tar_run (host : Host) (p : Path) : event :=
  ERunCmd ["tar"; "xf"; p; "-C"; tmpdir host] None.

Definition installer_run (cfg : CheriConfig) (iopts : InstallOptions)
    (installer_sh : Path) : event :=
  ERunCmd ([installer_sh; "--destination"; install_dir cfg] ++ eula_args iopts) None.

(** The command [fvp_revision] runs in the container. *)
Definition revision_query : list string :=
  ["docker"; "run"; "-it"; "--rm"; container_name; "cat";
   "/opt/FVP_Morello/" +:+ revpath].

(** The text [fvp_revision] hands to [int], when it can be read. *)
Definition revision_text (cfg : CheriConfig) (host : Host) (iopts : InstallOptions)
  : option string :=
  if use_docker_container iopts then
    match cmd_result host revision_query with
    | Completed out => Some (py_strip host out)
    | Failed _ => None
    end
  else file_contents host (install_dir cfg </> revpath).

(** Reading or parsing the revision fails. *)
Definition revision_unreadable (cfg : CheriConfig) (host : Host)
    (iopts : InstallOptions) : bool :=
  match revision_text cfg host iopts with
  | Some text => bool_decide (py_int host text = None)
  | None => true
  end.

(** The warning of [fvp_revision], for the exception text [e]. *)
Definition revision_warning (e : string) : event :=
  EWarning (join EmptyString
              ["Could not determine FVP revision, assuming latest known (";
               str_int latest_known_fvp; "): "; e]) None.

(** The arguments of a command that launches a simulator: both branches
    of [LaunchFVPBase.process] pass [--print-port-number], the queries
    sent to the container do not. *)
Definition launches_simulator (argv : list string) : Prop :=
  In "--print-port-number" argv.

(** The revision [fvp_revision] gives for an instance in the state [s].
    The access always returns; the second case is never taken. *)
Definition revision_in (cfg : CheriConfig) (host : Host) (iopts : InstallOptions)
    (s : State) : Z :=
  match outcome (fvp_revision cfg host iopts s) with
  | Ret rev => rev
  | Raise _ => latest_known_fvp
  end.

(** [model_params] when [fvp_args] is computed, in the run of
    [LaunchFVPBase.process] that starts in the state [s]: the board
    parameters, then those of the branch taken. *)
Definition final_model_params (cfg : CheriConfig) (host : Host)
    (iopts : InstallOptions) (lopts : LaunchOptions) (deps : Dependencies)
    (s : State) : list string :=
  let board := board_model_params lopts (disk_image_path deps) in
  if use_architectureal_fvp lopts
  then architectural_model_params board (firmware_path lopts </> "fip.bin")
                                  (firmware_path lopts </> "bl1.bin")
  else morello_model_params board (revision_in cfg host iopts s).

(** A launch of a simulator passes the consecutive arguments [args]. *)
Definition passes_args (args : list string) (e : event) : Prop :=
  match e with
  | ERunCmd argv _ =>
      launches_simulator argv -> exists pre post, argv = pre ++ args ++ post
  | _ => True
  end.

(** The command [e] launches a simulator and has the consecutive
    arguments [args]. *)
Definition launch_with (args : list string) (e : event) : Prop :=
  match e with
  | ERunCmd argv _ =>
      launches_simulator argv /\ exists pre post, argv = pre ++ args ++ post
  | _ => False
  end.

(** Every run of [m] that returns has an event that satisfies [P]. *)
Definition returns_after {A : Type} (P : event -> Prop) (m : M A) : Prop :=
  forall s a, outcome (m s) = Ret a -> Exists P (events (m s)).

(** Nothing the architectural branch of [LaunchFVPBase.process] checks
    is missing, for a launcher in the state [s]. *)
Definition architectural_ready (host : Host) (lopts : LaunchOptions)
    (deps : Dependencies) (s : State) : bool :=
  path_exists host (firmware_path lopts) &&
  path_exists host (disk_image_path deps) &&
  truthy (license_server s) &&
  is_dir host (arch_model_path lopts) &&
  path_exists host
    (arch_model_path lopts </> "models/Linux64_GCC-6.4/FVP_Base_RevC-Rainier") &&
  path_exists host
    (arch_model_path lopts </> "plugins/Linux64_GCC-6.4/MorelloPlugin.so") &&
  path_exists host (firmware_path lopts </> "bl1.bin") &&
  path_exists host (firmware_path lopts </> "fip.bin").

(** The arguments the three hostbridge parameters become. *)
Definition hostbridge_args (lopts : LaunchOptions) : list string :=
  ["-C"; board_prefix lopts +:+ "hostbridge.userNetworking=true";
   "-C"; board_prefix lopts +:+ "hostbridge.userNetPorts=" +:+
           str_int (ssh_port lopts) +:+ "=22";
   "-C"; board_prefix lopts +:+ "hostbridge.interfaceName=ARM0"].

End FVPSpec.

(** ** Example projects, hosts and configurations *)

Module Examples.
Import Newlib FVP.

(** A superclass handler: the variables go on the configure command
    line as [KEY=value]. *)
Definition cmdline_configure_vars (kw : kwargs) (p : Project unit) : Project unit :=
  set_configureArgs
    (configureArgs p ++ map (fun kv => kv.1 +:+ "=" +:+ str kv.2) kw) p.

Definition sample_project : Project unit :=
  mkProject [] {[ "MAKEFLAGS" := "-j4" ]} init_triple tt.

Definition sample_kwargs : kwargs :=
  [("CC", VPath "/sdk/bin/clang"); ("newlib_cv_ldbl_eq_dbl", VStr "yes")].

(** Option names: the attribute name with dashes for underscores. *)
Fixpoint dashes (s : string) : string :=
  match s with
  | EmptyString => EmptyString
  | String c s' =>
      String (if Ascii.eqb c (ascii_of_nat 95) then ascii_of_nat 45 else c) (dashes s')
  end.

(** [int] on plain decimal literals. *)
Definition decimal_int (s : string) : option Z :=
  option_map Z.of_int (NilZero.int_of_string s).

(** [repr] of a string with no quote, backslash or control character. *)
Definition quoted (s : string) : string := "'" +:+ s +:+ "'".

Definition no_such_file (p : Path) : string :=
  "[Errno 2] No such file or directory: " +:+ quoted p.

(** A macOS host with an X server, on which the files [files] exist and
    commands do what [commands] says. *)
Definition mac_host (files : Path -> bool) (commands : list string -> cmd_outcome)
  : Host :=
  mkHost true (Some ":0") "/tmp/tmpfvp" files files files
         (fun td => [td </> "FVP_Morello_0.11.sh"])
         (fun _ => None) commands true decimal_int (fun s => s) (fun s => [s])
         (join ", ") dashes quoted no_such_file (fun _ => no_such_file "socat").

Definition no_file : Path -> bool := fun _ => false.
Definition every_file : Path -> bool := fun _ => true.
Definition failing : list string -> cmd_outcome := fun _ => Failed "exit status 1".
Definition succeeding : list string -> cmd_outcome := fun _ => Completed EmptyString.

Definition building : CheriConfig := mkConfig false "/sdk" false false.
Definition pretending : CheriConfig := mkConfig true "/sdk" false false.

Definition fresh : State := mkState None None None.
Definition licensed : State := mkState None None (Some "27000@license").

(** Every file exists and every command succeeds; every file exists and
    every command fails; no file exists and every command fails. *)
Definition working_host : Host := mac_host every_file succeeding.
Definition broken_host : Host := mac_host every_file failing.
Definition bare_host : Host := mac_host no_file failing.

(** Every file exists and every command succeeds, and no path is a
    directory. *)
Definition modelless_host : Host :=
  mkHost true (Some ":0") "/tmp/tmpfvp" every_file every_file no_file
         (fun td => [td </> "FVP_Morello_0.11.sh"])
         (fun _ => None) succeeding true decimal_int (fun s => s) (fun s => [s])
         (join ", ") dashes quoted no_such_file (fun _ => no_such_file "socat").

Definition installer_unset : InstallOptions := mkInstallOptions None true false.
Definition installer_sh : InstallOptions :=
  mkInstallOptions (Some "/dl/FVP_Morello.sh") true false.
Definition installer_tgz : InstallOptions :=
  mkInstallOptions (Some "/dl/FVP_Morello_0.11.tgz") true true.

(** An installation that does not use the docker container. *)
Definition native_install : InstallOptions :=
  mkInstallOptions (Some "/dl/FVP_Morello.sh") false false.

(** A Linux host with no X server on which every file exists and holds
    [text], and every command succeeds. *)
Definition linux_host (text : string) : Host :=
  mkHost false None "/tmp/tmpfvp" every_file every_file every_file
         (fun td => [td </> "FVP_Morello_0.11.sh"])
         (fun _ => Some text) succeeding true decimal_int (fun s => s)
         (fun s => [s]) (join ", ") dashes quoted no_such_file
         (fun _ => no_such_file "socat").

Definition architectural : LaunchOptions :=
  mkLaunchOptions "/sdk/firmware/morello-fvp" None 12345 true
                  "/usr/local/FVP_Base_RevC-Rainier".
Definition morello : LaunchOptions :=
  mkLaunchOptions "/sdk/firmware/morello-fvp" None 12345 false
                  "/usr/local/FVP_Base_RevC-Rainier".

Definition images : Dependencies :=
  mkDependencies "/out/cheribsd.img" "/out/fw/mcp_romfw.bin" "/out/fw/scp_romfw.bin"
                 "/out/fw/uefi.bin" "/out/fw/scp_fw.bin" "/out/fw/mcp_fw.bin".

End Examples.

(** ** More of run_fvp.py: run_tests, the required tools, and vocabulary *)

Module More.
Import FVP FVPSpec.

Section Methods.
Variable cfg : CheriConfig.
Variable host : Host.
Variable iopts : InstallOptions.

(** [InstallMorelloFVP.run_tests]. *)
Definition run_tests : M unit :=
  execute_fvp cfg host iopts ["--help"] None None false false None ;;
  execute_fvp cfg host iopts ["--cyclelimit"; "1000"] None None false false None.

(** The calls of [add_required_system_tool] in [InstallMorelloFVP.__init__]:
    the tools and the homebrew packages that provide them, in the order
    added. *)
Definition required_system_tools : list (string * string) :=
  if use_docker_container iopts then
    [("docker", "homebrew/cask/docker"); ("socat", "socat")] ++
    (if IS_MAC host then [("Xquartz", "homebrew/cask/xquartz")] else [])
  else [].

End Methods.

(** The command [docker_memory_size] runs in the container. *)
Definition memory_query : list string :=
  ["docker"; "run"; "-it"; "--rm"; container_name; "grep"; "MemTotal:";
   "/proc/meminfo"].

(** The fatal error and the warning of [execute_fvp] about a container
    with [mem] bytes of memory. *)
Definition memory_fatal (host : Host) (mem : Z) : event :=
  EFatal ("Docker container has less than " +:+ str_int min_ram_mb +:+
          "MB of RAM (" +:+ str_int (mem / 1024 / 1024) +:+
          "MB), this is not enough to run the FVP!")
         (Some ("Change the docker settings to allow at least 5GB (8GB recommended) of RAM for containers."
                +:+ docker_settings_fixit host)).

Definition memory_warning (host : Host) (mem : Z) : event :=
  EWarning ("Docker container has less than " +:+ str_int warn_ram_mb +:+
            "MB of RAM (" +:+ str_int (mem / 1024 / 1024) +:+
            "MB), this may not enough to run the FVP")
           (Some ("Change the docker settings to allow at least 8GB of RAM for containers."
                  +:+ docker_settings_fixit host)).

(** The warning of [docker_memory_size], for the exception text [e]. *)
Definition memory_unknown (e : string) : event :=
  EWarning (join " " ["Could not determine memory available to docker container:"; e])
           None.

(** What [docker_memory_size] makes of the output of the query: the
    second field times 1024, or the text of the exception. *)
Definition parse_memtotal (host : Host) (out : string) : Z + string :=
  match py_split host out with
  | _ :: field :: _ =>
      match py_int host field with
      | Some n => inl (n * 1024)%Z
      | None => inr (invalid_literal host field)
      end
  | _ => inr "list index out of range"
  end.

Definition is_fatal (e : event) : bool :=
  match e with
  | EFatal _ _ => true
  | _ => false
  end.

(** A run does not end by [sys.exit]. *)
Definition no_exit {A : Type} (m : M A) : Prop :=
  forall s, outcome (m s) <> Raise SystemExit.

(** The events of the [finally] clauses and of the exits of the [with]
    statements. *)
Definition cleanup_event (e : event) : bool :=
  match e with
  | ERmTemp _ | ERestoreEnv _ | ETerminate | EKill => true
  | _ => false
  end.

(** A run reports no fatal error and does not exit, or it reports one
    fatal error, exits, and does nothing after the error but clean up. *)
Definition fails_fast_run {A : Type} (r : list event * State * result A) : Prop :=
  (Forall (fun e => is_fatal e = false) (events r) /\ outcome r <> Raise SystemExit)
  \/
  (outcome r = Raise SystemExit /\
   exists pre msg hint post,
     events r = pre ++ EFatal msg hint :: post /\
     Forall (fun e => is_fatal e = false) pre /\
     Forall (fun e => cleanup_event e = true) post).

Definition fails_fast {A : Type} (m : M A) : Prop :=
  forall s, fails_fast_run (m s).

(** A [finally] clause, or the exit of a [with] statement: it returns
    and only cleans up. *)
Definition tidy (cleanup : M unit) : Prop :=
  forall s, outcome (cleanup s) = Ret tt /\
            Forall (fun e => cleanup_event e = true) (events (cleanup s)).

End More.

(** ** Vocabulary of the further properties *)

Module MoreSpec.
Import FVP FVPSpec.

(** The creation and the removal of the temporary directory. *)
Definition temp_event (e : event) : bool :=
  match e with
  | EMkTemp _ | ERmTemp _ => true
  | _ => false
  end.

Definition is_warning (e : event) : bool :=
  match e with
  | EWarning _ _ => true
  | _ => false
  end.

(** The warning of [InstallMorelloFVP.process] about the installer. *)
Definition installer_warning (installer_sh : Path) : event :=
  EWarning (join " " ["Incorrect path to installer? Expected installer to be a .sh file:";
                      installer_sh]) None.

(** What [InstallMorelloFVP.process] does to build the docker image:
    copy the installer, write the Dockerfile, run [docker build]. *)
Definition image_event (e : event) : bool :=
  match e with
  | EInstallFile _ _ | EWriteFile _ _ => true
  | ERunCmd (program :: verb :: _) _ =>
      String.eqb verb "build" && String.eqb program "docker"
  | _ => false
  end.

Definition docker_build_run (cfg : CheriConfig) (td : Path) : event :=
  ERunCmd (["docker"; "build"] ++ build_flags cfg ++ ["-t"; container_name; "."])
          (Some td).

(** A command run through docker, and the socat process. *)
Definition docker_or_socat (e : event) : bool :=
  match e with
  | ERunCmd (program :: _) _ => String.eqb program "docker"
  | EPopen _ | ETerminate | EKill => true
  | _ => false
  end.

(** The licence server [LaunchFVPBase.process] hands to the model: the
    configured one, or the placeholder it assigns when none is
    configured. *)
Definition license_value (s : State) : string :=
  if truthy (license_server s) then default EmptyString (license_server s)
  else "unknown.license.server".

Definition env_event (e : event) : bool :=
  match e with
  | ESetEnv _ _ | ERestoreEnv _ => true
  | _ => false
  end.

(** What [LaunchFVPBase.process] does before it branches on the kind
    of FVP: fatal errors and the copy of the remote disk image. *)
Definition preamble_event (e : event) : bool :=
  match e with
  | EFatal _ _ | ECopyRemoteFile _ _ => true
  | _ => false
  end.

(** The branch of [LaunchFVPBase.process] that is taken. *)
Definition launch_branch (cfg : CheriConfig) (host : Host) (iopts : InstallOptions)
    (lopts : LaunchOptions) (deps : Dependencies) : M unit :=
  if use_architectureal_fvp lopts
  then launch_architectural cfg host lopts
         (board_model_params lopts (disk_image_path deps))
  else launch_morello cfg host iopts lopts deps
         (board_model_params lopts (disk_image_path deps)) (disk_image_path deps).

(** An event that launches no simulator. *)
Definition no_launch (e : event) : Prop :=
  match e with
  | ERunCmd argv _ => ~ launches_simulator argv
  | _ => True
  end.

(** The arguments that enable the random number generator. *)
Definition virtio_rng_args : list string :=
  ["-C"; "board.virtio_rng.enabled=1";
   "-C"; "board.virtio_rng.seed=0";
   "-C"; "board.virtio_rng.generator=2"].

(** The command line of the model when [execute_fvp] is given no disk
    image, no firmware, no X11, no telnet ports and no ssh port. *)
Definition plain_model_cmd (cfg : CheriConfig) (iopts : InstallOptions)
  : list string :=
  if use_docker_container iopts
  then ["docker"; "run"; "-it"; "--rm"; container_name;
        "/opt/FVP_Morello" </> model_relpath]
  else [install_dir cfg </> model_relpath].

(** What [run_tests] may do: no event on socat, and no command but the
    query of the revision and the model with one of the two argument
    lists of the tests. *)
Definition test_event (cfg : CheriConfig) (iopts : InstallOptions) (e : event)
  : Prop :=
  socat_event e = false /\
  match e with
  | ERunCmd argv cwd =>
      cwd = None /\
      (argv = revision_query \/
       exists plugin args,
         argv = plain_model_cmd cfg iopts ++ plugin ++ args /\
         (args = ["--help"] \/ args = ["--cyclelimit"; "1000"]))
  | _ => True
  end.

End MoreSpec.

(** ** More of newlib_baremetal.py: __init__ *)

Module NewlibInit.
Import Newlib.

(** The members of [CrossCompileTarget] the class mentions. *)
Inductive CrossCompileTarget :=
| NATIVE
| MIPS
| CHERI.

(** The property [targetTripleWithVersion]. *)
Definition targetTripleWithVersion : string := "mips64-unknown-elf".

(** [self.target_cflags]. *)
Definition target_cflags : string :=
  " -target " +:+ targetTripleWithVersion +:+ " -integrated-as -mabi=n64 -mcpu=mips4".

(** The keyword arguments of the call of [add_configure_vars] in
    [__init__], for [self.sdkBinDir], [config.clangPath] and
    [config.clangPlusPlusPath]. *)
Definition init_configure_vars (sdkBinDir clangPath clangPlusPlusPath : Path)
  : kwargs :=
  [ ("AS_FOR_TARGET", VStr (sdkBinDir </> "clang"));
    ("CC_FOR_TARGET", VStr (sdkBinDir </> "clang"));
    ("CXX_FOR_TARGET", VStr (sdkBinDir </> "clang++"));
    ("LD_FOR_TARGET", VStr (sdkBinDir </> "ld.bfd"));
    ("LDFLAGS_FOR_TARGET", VStr "-fuse-ld=bfd");
    ("AR", VPath (sdkBinDir </> "ar"));
    ("STRIP", VPath (sdkBinDir </> "strip"));
    ("AR_FOR_TARGET", VPath (sdkBinDir </> "ar"));
    ("STRIP_FOR_TARGET", VPath (sdkBinDir </> "strip"));
    ("OBJCOPY", VPath (sdkBinDir </> "objcopy"));
    ("RANLIB", VPath (sdkBinDir </> "ranlib"));
    ("OBJCOPY_FOR_TARGET", VPath (sdkBinDir </> "objcopy"));
    ("RANLIB_FOR_TARGET", VPath (sdkBinDir </> "ranlib"));
    ("OBJDUMP_FOR_TARGET", VPath (sdkBinDir </> "llvm-objdump"));
    ("READELF", VPath (sdkBinDir </> "readelf"));
    ("NM", VPath (sdkBinDir </> "nm"));
    ("READELF_FOR_TARGET", VPath (sdkBinDir </> "readelf"));
    ("NM_FOR_TARGET", VPath (sdkBinDir </> "nm"));
    ("CC_FOR_BUILD", VPath clangPath);
    ("CXX_FOR_BUILD", VPath clangPlusPlusPath);
    ("CC", VPath clangPath);
    ("CXX", VPath clangPlusPlusPath);
    ("newlib_cv_ldbl_eq_dbl", VStr "yes");
    ("CFLAGS_FOR_TARGET", VStr target_cflags);
    ("CCASFLAGS_FOR_TARGET", VStr target_cflags);
    ("FLAGS_FOR_TARGET", VStr target_cflags) ].

(** The instance after [__init__]: the project, the attributes
    [__init__] assigns, and the messages of [statusUpdate]. *)
Record Instance (Base : Type) := mkInstance {
  project : Project Base;
  crossCompileTarget : CrossCompileTarget;
  configureCommand : Path;
  COMMON_FLAGS : list string;
  status : list string;
}.
Arguments mkInstance {Base}.
Arguments project {Base}.
Arguments crossCompileTarget {Base}.
Arguments configureCommand {Base}.
Arguments COMMON_FLAGS {Base}.
Arguments status {Base}.

Section Init.
Context {Base : Type}.

(** [super().__init__(config)], which sees the target [__init__] has
    assigned, and the superclass [add_configure_vars]. *)
Variable super_init : CrossCompileTarget -> Project Base.
Variable super_add_configure_vars : kwargs -> Project Base -> Project Base.

Definition set_triple (t : string) (p : Project Base) : Project Base :=
  mkProject (configureArgs p) (make_env_vars p) t (base p).

(** [__init__], for the target [requested] of the class and the
    directories of the project and of the configuration. *)
Definition init (requested : CrossCompileTarget)
    (sourceDir sdkBinDir clangPath clangPlusPlusPath : Path) : Instance Base :=
  let status :=
    match requested with
    | CHERI => ["Cannot compile newlib in purecap mode, building mips instead"]
    | _ => []
    end in
  let target := NATIVE in
  let p0 := super_init target in
  let p1 := set_triple "mips64-qemu-elf" p0 in
  let p2 := add_configure_vars super_add_configure_vars
              (init_configure_vars sdkBinDir clangPath clangPlusPlusPath) p1 in
  mkInstance p2 target (sourceDir </> "configure") [] status.

End Init.

End NewlibInit.

(** * Properties *)


(** ** BuildNewlibBaremetal *)

Module NewlibProps.
Import Newlib Examples.

Lemma mirror_into_env_other (kw : kwargs) (env : gmap string string) (k : string) :
  k ∉ kw.*1 → mirror_into_env kw env !! k = env !! k.
Proof.
  revert env. induction kw as [|[k' v'] kw IH]; intros env Hk; simpl in *.
  - reflexivity.
  - apply not_elem_of_cons in Hk as [Hne Hk].
    rewrite IH by assumption. by rewrite lookup_insert_ne.
Qed.

Lemma mirror_into_env_key (kw : kwargs) (env : gmap string string)
    (k : string) (v : value) :
  NoDup kw.*1 → (k, v) ∈ kw → mirror_into_env kw env !! k = Some (str v).
Proof.
  revert env. induction kw as [|[k' v'] kw IH]; intros env Hnd Hin; simpl in *.
  - by apply elem_of_nil in Hin.
  - apply NoDup_cons in Hnd as [Hfresh Hnd].
    apply elem_of_cons in Hin as [Heq|Hin].
    + injection Heq as -> ->.
      rewrite mirror_into_env_other by assumption.
      by rewrite lookup_insert_eq.
    + by apply IH.
Qed.

Section Props.
Context {Base : Type}.
Variable super_add_configure_vars : kwargs -> Project Base -> Project Base.

(** C10.  [add_configure_vars] mirrors every keyword argument into the
    make environment.  For keyword arguments [kw] (the keys of a [dict] are
    distinct) and a superclass handler that leaves the make environment of
    [p] alone, after the call [make_args.env_vars] maps every key passed
    to the string form of its value, every other entry of the make
    environment is what it was, and the rest of the project is what the
    superclass handler made of it when given all the pairs. *)
Theorem add_configure_vars_mirrors (kw : kwargs) (p : Project Base)
    (Hkeys : NoDup kw.*1)
    (Hsuper : make_env_vars (super_add_configure_vars kw p) = make_env_vars p) :
  let p' := add_configure_vars super_add_configure_vars kw p in
  (∀ k v, (k, v) ∈ kw → make_env_vars p' !! k = Some (str v)) ∧
  (∀ k, k ∉ kw.*1 → make_env_vars p' !! k = make_env_vars p !! k) ∧
  p' = set_make_env (make_env_vars p') (super_add_configure_vars kw p).
Proof.
  cbn zeta. unfold add_configure_vars. cbn [set_make_env make_env_vars].
  repeat split.
  - intros k v Hin. by apply mirror_into_env_key.
  - intros k Hk. rewrite mirror_into_env_other by assumption. by rewrite Hsuper.
Qed.

End Props.

Lemma add_configure_vars_mirrors_witness :
  make_env_vars (add_configure_vars cmdline_configure_vars sample_kwargs sample_project)
    !! "CC" = Some "/sdk/bin/clang" /\
  make_env_vars (add_configure_vars cmdline_configure_vars sample_kwargs sample_project)
    !! "newlib_cv_ldbl_eq_dbl" = Some "yes" /\
  make_env_vars (add_configure_vars cmdline_configure_vars sample_kwargs sample_project)
    !! "MAKEFLAGS" = Some "-j4" /\
  configureArgs (add_configure_vars cmdline_configure_vars sample_kwargs sample_project)
    = ["CC=/sdk/bin/clang"; "newlib_cv_ldbl_eq_dbl=yes"].
Proof.
  assert (Hkeys : NoDup sample_kwargs.*1).
  { apply (bool_decide_unpack _). vm_compute. exact I. }
  assert (Hsuper : make_env_vars (cmdline_configure_vars sample_kwargs sample_project)
                   = make_env_vars sample_project) by reflexivity.
  destruct (add_configure_vars_mirrors cmdline_configure_vars
              sample_kwargs sample_project Hkeys Hsuper) as (Hin & Hout & Hrest).
  split; [|split; [|split]].
  - apply (Hin "CC" (VPath "/sdk/bin/clang")).
    apply (bool_decide_unpack _). vm_compute. exact I.
  - apply (Hin "newlib_cv_ldbl_eq_dbl" (VStr "yes")).
    apply (bool_decide_unpack _). vm_compute. exact I.
  - rewrite (Hout "MAKEFLAGS"); [reflexivity|].
    apply (bool_decide_unpack _). vm_compute. exact I.
  - rewrite Hrest. reflexivity.
Defined.

(** C2.  What [configure] appends to [configureArgs] before it calls the
    superclass method: fourteen arguments, the fifth of which is the two
    flags [--disable-newlib-io-long-double] and [--disable-newlib-mb] run
    together, as the list literal has no comma between them; neither flag
    is an argument of its own.  The three arguments [--target=],
    [--disable-multilib] and [--with-newlib] come last. *)
Theorem configure_merges_two_flags {Base : Type} (p : Project Base) :
  let appended :=
    [ "--enable-malloc-debugging";
      "--enable-newlib-long-time_t";
      "--enable-newlib-io-c99-formats";
      "--enable-newlib-io-long-long";
      "--disable-newlib-io-long-double--disable-newlib-mb";
      "--disable-libstdcxx";
      "--disable-newlib-io-float";
      "--enable-newlib-global-atexit";
      "--enable-serial-build-configure";
      "--enable-serial-target-configure";
      "--enable-serial-host-configure";
      "--target=" +:+ triple p;
      "--disable-multilib";
      "--with-newlib" ] in
  configureArgs (configure_own_args p) = configureArgs p ++ appended ∧
  ("--disable-newlib-io-long-double" ∉ take 11 appended) ∧
  ("--disable-newlib-mb" ∉ take 11 appended) ∧
  (configureArgs (configure_own_args (mkProject [] ∅ init_triple tt))
     !! 4%nat = Some "--disable-newlib-io-long-double--disable-newlib-mb") ∧
  ("--disable-newlib-io-long-double"
     ∉ configureArgs (configure_own_args (mkProject [] ∅ init_triple tt))) ∧
  ("--disable-newlib-mb"
     ∉ configureArgs (configure_own_args (mkProject [] ∅ init_triple tt))).
Proof.
  cbn zeta. split; [|repeat split].
  - unfold configure_own_args, configure_feature_flags.
    cbn [set_configureArgs configureArgs triple].
    rewrite <- !app_assoc. reflexivity.
  - apply (bool_decide_unpack _). vm_compute. exact I.
  - apply (bool_decide_unpack _). vm_compute. exact I.
  - apply (bool_decide_unpack _). vm_compute. exact I.
  - apply (bool_decide_unpack _). vm_compute. exact I.
Qed.

End NewlibProps.

(** ** Project instances *)

Module InstancesProps.
Import Instances.

Lemma get_instance_hit (cls : project_class) (tgt : cross_target)
    (r : Registry) (i : instance) :
  table r !! (cls, tgt) = Some i → get_instance cls tgt r = (i, r).
Proof. intros H. unfold get_instance. by rewrite H. Qed.

Lemma get_instance_registers (cls : project_class) (tgt : cross_target) (r : Registry) :
  table (get_instance cls tgt r).2 !! (cls, tgt) = Some (get_instance cls tgt r).1.
Proof.
  unfold get_instance. destruct (table r !! (cls, tgt)) eqn:E; simpl.
  - exact E.
  - by rewrite lookup_insert_eq.
Qed.

Lemma get_instance_keeps (cls cls' : project_class) (tgt tgt' : cross_target)
    (r : Registry) (i : instance) :
  table r !! (cls, tgt) = Some i →
  table (get_instance cls' tgt' r).2 !! (cls, tgt) = Some i.
Proof.
  intros H. unfold get_instance.
  destruct (table r !! (cls', tgt')) eqn:E; simpl; [exact H|].
  rewrite lookup_insert_ne; [exact H|]. intros Heq. congruence.
Qed.

Lemma get_instances_keeps (calls : list (project_class * cross_target))
    (cls : project_class) (tgt : cross_target) (r : Registry) (i : instance) :
  table r !! (cls, tgt) = Some i →
  table (get_instances calls r) !! (cls, tgt) = Some i.
Proof.
  revert r. induction calls as [|[cls' tgt'] calls IH]; intros r H; simpl.
  - exact H.
  - apply IH. by apply get_instance_keeps.
Qed.

(** C7.  Instances are shared, keyed by class and target.  Once
    [get_instance] has been called for a class and a target, then after
    any further [get_instance] calls, for any classes and targets, a
    repeated call for that class and target returns the instance of the
    first call and constructs nothing: the registry is left as it was. *)
Theorem get_instance_shared (cls : project_class) (tgt : cross_target)
    (calls : list (project_class * cross_target)) (r : Registry) :
  let first := get_instance cls tgt r in
  let r' := get_instances calls first.2 in
  get_instance cls tgt r' = (first.1, r') ∧
  constructed (get_instance cls tgt r').2 = constructed r'.
Proof.
  cbn zeta.
  assert (H : get_instance cls tgt (get_instances calls (get_instance cls tgt r).2)
              = ((get_instance cls tgt r).1,
                 get_instances calls (get_instance cls tgt r).2)).
  { apply get_instance_hit, get_instances_keeps, get_instance_registers. }
  split; [exact H|]. by rewrite H.
Qed.

End InstancesProps.

(** ** The monad of run_fvp.py *)

Module FVPProps.
Import FVP FVPSpec Examples.

Section Monad.
Context {A B : Type}.

Lemma events_bind (m : M A) (k : A -> M B) (s : State) :
  events (bind m k s) =
  events (m s) ++ match outcome (m s) with
                  | Ret a => events (k a (final (m s)))
                  | Raise _ => []
                  end.
Proof.
  unfold bind, events, outcome, final.
  destruct (m s) as [[t1 s1] [a|e]]; simpl.
  - by destruct (k a s1) as [[t2 s2] r].
  - by rewrite app_nil_r.
Qed.

Lemma outcome_bind (m : M A) (k : A -> M B) (s : State) :
  outcome (bind m k s) =
  match outcome (m s) with
  | Ret a => outcome (k a (final (m s)))
  | Raise e => Raise e
  end.
Proof.
  unfold bind, events, outcome, final.
  destruct (m s) as [[t1 s1] [a|e]]; simpl; [|done].
  by destruct (k a s1) as [[t2 s2] r].
Qed.

Lemma events_try_finally (body : M A) (cleanup : M unit) (s : State) :
  events (try_finally body cleanup s) =
  events (body s) ++ events (cleanup (final (body s))).
Proof.
  unfold try_finally, events, final.
  destruct (body s) as [[t1 s1] r]; simpl.
  by destruct (cleanup s1) as [[t2 s2] [u|e]].
Qed.

Lemma outcome_try_finally (body : M A) (cleanup : M unit) (s : State) :
  outcome (try_finally body cleanup s) =
  match outcome (cleanup (final (body s))) with
  | Ret _ => outcome (body s)
  | Raise e => Raise e
  end.
Proof.
  unfold try_finally, outcome, final.
  destruct (body s) as [[t1 s1] r]; simpl.
  by destruct (cleanup s1) as [[t2 s2] [u|e]].
Qed.

(** A sequence that returns: both parts returned. *)
Lemma bind_returns (m : M A) (k : A -> M B) (s : State) (b : B) :
  outcome (bind m k s) = Ret b ->
  exists a, outcome (m s) = Ret a /\
            outcome (k a (final (m s))) = Ret b /\
            events (bind m k s) = events (m s) ++ events (k a (final (m s))).
Proof.
  rewrite outcome_bind, events_bind.
  destruct (outcome (m s)) as [a|e]; [|discriminate].
  intros H. by exists a.
Qed.

Lemma try_finally_returns (body : M A) (cleanup : M unit) (s : State) (a : A) :
  outcome (try_finally body cleanup s) = Ret a -> outcome (body s) = Ret a.
Proof.
  rewrite outcome_try_finally.
  by destruct (outcome (cleanup (final (body s)))).
Qed.

End Monad.

(** *** Invariants of the trace *)

Section Always.
Context (P : event -> Prop).

Lemma always_at {A : Type} (m : M A) (s : State) :
  always P m -> Forall P (events (m s)).
Proof. intros H. apply H. Qed.

Lemma always_ret {A : Type} (a : A) : always P (ret a).
Proof. intros s. constructor. Qed.

Lemma always_raise {A : Type} (e : exn) : always P (@raise A e).
Proof. intros s. constructor. Qed.

Lemma always_gets {A : Type} (f : State -> A) : always P (gets f).
Proof. intros s. constructor. Qed.

Lemma always_modify (f : State -> State) : always P (modify f).
Proof. intros s. constructor. Qed.

Lemma always_emit (e : event) : P e -> always P (emit e).
Proof. intros H s. by constructor. Qed.

Lemma always_bind {A B : Type} (m : M A) (k : A -> M B) :
  always P m -> (forall a, always P (k a)) -> always P (bind m k).
Proof.
  intros Hm Hk s. rewrite events_bind. apply Forall_app. split; [apply Hm|].
  destruct (outcome (m s)); [apply Hk|constructor].
Qed.

Lemma always_when (c : bool) (body : M unit) :
  always P body -> always P (when c body).
Proof. intros H. destruct c; [exact H|apply always_ret]. Qed.

Lemma always_try_finally {A : Type} (body : M A) (cleanup : M unit) :
  always P body -> always P cleanup -> always P (try_finally body cleanup).
Proof.
  intros Hb Hc s. rewrite events_try_finally.
  apply Forall_app. split; [apply Hb|apply Hc].
Qed.

Lemma always_try_except {A : Type} (body : M A) (handler : string -> M A) :
  always P body -> (forall e, always P (handler e)) ->
  always P (try_except body handler).
Proof.
  intros Hb Hh s. specialize (Hb s). unfold try_except, events in *.
  destruct (body s) as [[t1 s1] [a|[what|]]]; simpl in *; try exact Hb.
  specialize (Hh what s1). unfold events in Hh.
  destruct (handler what s1) as [[t2 s2] r]; simpl in *. by apply Forall_app.
Qed.

Lemma always_cached_property (slot : State -> option Z)
    (store : Z -> State -> State) (compute : M Z) :
  always P compute -> always P (cached_property slot store compute).
Proof.
  intros Hc s. unfold cached_property. destruct (slot s); [constructor|].
  apply always_bind; [exact Hc|]. intros v.
  apply always_bind; [apply always_modify|]. intros _. apply always_ret.
Qed.

Lemma always_assert (c : bool) (what : string) : always P (assert_ c what).
Proof. destruct c; [apply always_ret|apply always_raise]. Qed.

(** When a computation assigns nothing, what follows it runs in the
    state it started in. *)
Lemma Forall_events_bind_keeps {A B : Type} (m : M A) (k : A -> M B) (s : State) :
  keeps_state m -> Forall P (events (m s)) ->
  (forall a, outcome (m s) = Ret a -> Forall P (events (k a s))) ->
  Forall P (events (bind m k s)).
Proof.
  intros Hkeep Hm Hk. rewrite events_bind. apply Forall_app. split; [exact Hm|].
  destruct (outcome (m s)) as [a|e] eqn:E; [|constructor].
  rewrite Hkeep. by apply Hk.
Qed.

Lemma Forall_events_bind {A B : Type} (m : M A) (k : A -> M B) (s : State) :
  Forall P (events (m s)) ->
  (forall a, outcome (m s) = Ret a -> Forall P (events (k a (final (m s))))) ->
  Forall P (events (bind m k s)).
Proof.
  intros Hm Hk. rewrite events_bind. apply Forall_app. split; [exact Hm|].
  destruct (outcome (m s)) as [a|e] eqn:E; [|constructor].
  by apply Hk.
Qed.

End Always.

(** *** What a run that returns has done *)

Section Returns.
Context (P : event -> Prop).

Lemma returns_after_bind_l {A B : Type} (m : M A) (k : A -> M B) :
  returns_after P m -> returns_after P (bind m k).
Proof.
  intros Hm s b H. apply bind_returns in H as (a & Ha & _ & ->).
  apply Exists_app. left. by eapply Hm.
Qed.

Lemma returns_after_bind_r {A B : Type} (m : M A) (k : A -> M B) :
  (forall a, returns_after P (k a)) -> returns_after P (bind m k).
Proof.
  intros Hk s b H. apply bind_returns in H as (a & _ & Hb & ->).
  apply Exists_app. right. by eapply Hk.
Qed.

Lemma returns_after_try_finally {A : Type} (body : M A) (cleanup : M unit) :
  returns_after P body -> returns_after P (try_finally body cleanup).
Proof.
  intros Hb s a H. apply try_finally_returns in H.
  rewrite events_try_finally. apply Exists_app. left. by eapply Hb.
Qed.

Lemma bind_returns_keeps {A B : Type} (m : M A) (k : A -> M B) (s : State) (b : B) :
  keeps_state m -> outcome (bind m k s) = Ret b ->
  exists a, outcome (m s) = Ret a /\ outcome (k a s) = Ret b /\
            events (bind m k s) = events (m s) ++ events (k a s).
Proof.
  intros Hkeep H. apply bind_returns in H as (a & Ha & Hb & Hev).
  rewrite Hkeep in Hb, Hev. by exists a.
Qed.

End Returns.

(** *** The helpers *)

Section Helpers.
Variable cfg : CheriConfig.
Variable host : Host.

Lemma fatal_pretend (args : list string) (sep : string) (hint : option string)
    (s : State) :
  pretend cfg = true ->
  fatal cfg args sep hint s = ([EFatal (join sep args) hint], s, Ret tt).
Proof. intros H. unfold fatal, bind, emit, ret. by rewrite H. Qed.

Lemma fatal_exits (args : list string) (sep : string) (hint : option string)
    (s : State) :
  pretend cfg = false ->
  fatal cfg args sep hint s = ([EFatal (join sep args) hint], s, Raise SystemExit).
Proof. intros H. unfold fatal, bind, emit, raise. by rewrite H. Qed.

Lemma run_cmd_completed (argv : list string) (cwd : option Path) (out : string)
    (s : State) :
  cmd_result host argv = Completed out ->
  run_cmd host argv cwd s = ([ERunCmd argv cwd], s, Ret out).
Proof. intros H. unfold run_cmd, bind, emit, ret. by rewrite H. Qed.

Lemma events_run_cmd (argv : list string) (cwd : option Path) (s : State) :
  events (run_cmd host argv cwd s) = [ERunCmd argv cwd].
Proof. unfold run_cmd, bind, emit, ret, raise. by destruct (cmd_result host argv). Qed.

Lemma popen_spawns (argv : list string) (s : State) :
  socat_spawns host = true -> popen host argv s = ([EPopen argv], s, Ret tt).
Proof. intros H. unfold popen. by rewrite H. Qed.

Lemma popen_fails (argv : list string) (s : State) :
  socat_spawns host = false ->
  popen host argv s =
  ([], s, Raise (PyException (popen_error host argv))).
Proof. intros H. unfold popen. by rewrite H. Qed.

(** [ensure_file_exists] returns the path it was given. *)
Lemma ensure_file_exists_returns (what : string) (p a : Path) (s : State) :
  outcome (ensure_file_exists cfg host what p s) = Ret a -> a = p.
Proof.
  unfold ensure_file_exists, when, fatal, bind, emit, ret, raise, outcome.
  destruct (negb _), (pretend cfg); simpl; congruence.
Qed.

(** A required file that exists, or pretend mode: the check returns. *)
Lemma ensure_file_exists_run (what : string) (p : Path) (s : State) :
  path_exists host p = true \/ pretend cfg = true ->
  exists t, ensure_file_exists cfg host what p s = (t, s, Ret p) /\
            Forall (fun e => is_run_cmd e = false) t.
Proof.
  intros H. unfold ensure_file_exists, when, bind.
  destruct (path_exists host p) eqn:E; cbn [negb].
  - exists []. split; [reflexivity|constructor].
  - destruct H as [H|H]; [discriminate H|].
    rewrite fatal_pretend by assumption. eexists. split; [reflexivity|].
    by repeat constructor.
Qed.

Lemma always_bind_ensure (P : event -> Prop) {B : Type}
    (what : string) (p : Path) (k : Path -> M B) :
  always P (ensure_file_exists cfg host what p) -> always P (k p) ->
  always P (bind (ensure_file_exists cfg host what p) k).
Proof.
  intros Hm Hk s. rewrite events_bind. apply Forall_app. split; [apply Hm|].
  destruct (outcome (ensure_file_exists cfg host what p s)) as [a|e] eqn:E;
    [|constructor].
  apply ensure_file_exists_returns in E as ->. apply Hk.
Qed.

Lemma keeps_state_fatal (args : list string) (sep : string) (hint : option string) :
  keeps_state (fatal cfg args sep hint).
Proof.
  intros s. unfold fatal, bind, emit, ret, raise, final. by destruct (pretend cfg).
Qed.

Lemma keeps_state_when (c : bool) (m : M unit) :
  keeps_state m -> keeps_state (when c m).
Proof. intros H s. destruct c; [apply H|reflexivity]. Qed.

Lemma keeps_state_emit (e : event) : keeps_state (emit e).
Proof. by intros s. Qed.

Lemma keeps_state_ensure (what : string) (p : Path) :
  keeps_state (ensure_file_exists cfg host what p).
Proof.
  intros s. unfold ensure_file_exists, when, fatal, bind, emit, ret, raise, final.
  by destruct (negb _), (pretend cfg).
Qed.

Lemma returns_after_run_cmd (P : event -> Prop) (argv : list string)
    (cwd : option Path) :
  P (ERunCmd argv cwd) -> returns_after P (run_cmd host argv cwd).
Proof. intros H s a _. rewrite events_run_cmd. by constructor. Qed.

Lemma returns_after_bind_ensure (P : event -> Prop) {B : Type}
    (what : string) (p : Path) (k : Path -> M B) :
  returns_after P (k p) ->
  returns_after P (bind (ensure_file_exists cfg host what p) k).
Proof.
  intros Hk s b H. apply bind_returns in H as (a & Ha & Hb & ->).
  apply ensure_file_exists_returns in Ha as ->.
  apply Exists_app. right. by eapply Hk.
Qed.

End Helpers.

Create HintDb fvp_unfold.
#[global] Hint Unfold fatal warning verbose_print run_cmd read_file int_ popen
  with_temporary_directory with_set_env
  install_from install_process fvp_revision_body fvp_revision
  docker_memory_size_body docker_memory_size plugin_args check_docker_memory
  base_cmd run_simulator execute_fvp launch_architectural launch_morello
  launch_process : fvp_unfold.

(** One step of a proof that a computation always satisfies a predicate
    on events: the rule for the construct at its head. *)
Ltac always_step :=
  lazymatch goal with
  | |- always _ (bind (ensure_file_exists _ _ _ _) _) =>
      apply always_bind_ensure
  | |- always _ (bind _ _) => apply always_bind; [|intros ?]
  | |- always _ (ret _) => apply always_ret
  | |- always _ (raise _) => apply always_raise
  | |- always _ (gets _) => apply always_gets
  | |- always _ (modify _) => apply always_modify
  | |- always _ (emit _) => apply always_emit
  | |- always _ (when _ _) => apply always_when
  | |- always _ (try_finally _ _) => apply always_try_finally
  | |- always _ (try_except _ _) => apply always_try_except; [|intros ?]
  | |- always _ (cached_property _ _ _) => apply always_cached_property
  | |- always _ (assert_ _ _) => apply always_assert
  | |- always _ (ensure_file_exists _ _ _ _) => unfold ensure_file_exists
  | |- always _ (if ?c then _ else _) => destruct c
  | |- always _ (match ?x with _ => _ end) => destruct x
  | |- always _ _ =>
      first [progress lazy zeta | progress autounfold with fvp_unfold]
  end.

(** A closed argument list does not launch a simulator. *)
Ltac not_a_launch :=
  let H := fresh in
  intros H; exfalso; cbv in H;
  repeat (destruct H as [H|H]; [discriminate H|]); exact H.

(** A fatal error with another message is not the one about the age of
    the FVP. *)
Ltac not_too_old :=
  let H := fresh in
  unfold too_old; intros H; injection H; clear H; cbn; intros; discriminate.

(** Membership in a list given by its elements. *)
Ltac in_cases H :=
  repeat (destruct H as [H|H]; [try discriminate H|]); try destruct H.

(** ** LaunchFVPBase.process: the arguments of the simulator *)

Lemma prepend_C_app (xs ys : list string) :
  prepend_C (xs ++ ys) = prepend_C xs ++ prepend_C ys.
Proof. unfold prepend_C. apply flat_map_app. Qed.

Lemma prepend_C_length (mp : list string) :
  length (prepend_C mp) = 2 * length mp.
Proof. induction mp as [|p mp IH]; simpl; [reflexivity|]. rewrite IH. lia. Qed.

Lemma prepend_C_lookup (mp : list string) (i : nat) :
  prepend_C mp !! (2 * i) = (fun _ => "-C") <$> mp !! i /\
  prepend_C mp !! (2 * i + 1) = mp !! i.
Proof.
  revert i. induction mp as [|p mp IH]; intros i.
  - split; reflexivity.
  - destruct i as [|i].
    + split; reflexivity.
    + replace (2 * S i) with (S (S (2 * i))) by lia.
      replace (S (S (2 * i)) + 1) with (S (S (2 * i + 1))) by lia.
      simpl. apply IH.
Qed.

Lemma board_model_params_eq (lopts : LaunchOptions) (disk_image : Path) :
  board_model_params lopts disk_image =
  map (fun p => board_prefix lopts +:+ p)
    ["smsc_91c111.enabled=1";
     "hostbridge.userNetworking=true";
     "hostbridge.userNetPorts=" +:+ str_int (ssh_port lopts) +:+ "=22";
     "hostbridge.interfaceName=ARM0";
     "virtio_net.transport=legacy";
     "virtio_rng.transport=legacy";
     "virtioblockdevice.image_path=" +:+ disk_image].
Proof. reflexivity. Qed.

(** ** InstallMorelloFVP.fvp_revision *)

Section Revision.
Variable cfg : CheriConfig.
Variable host : Host.
Variable iopts : InstallOptions.

Lemma fvp_revision_cached (s : State) (v : Z) :
  fvp_revision_cache s = Some v ->
  fvp_revision cfg host iopts s = ([], s, Ret v).
Proof. intros H. unfold fvp_revision, cached_property. by rewrite H. Qed.

Lemma fvp_revision_body_total (s : State) :
  exists n, outcome (fvp_revision_body cfg host iopts s) = Ret n.
Proof.
  unfold fvp_revision_body, try_except, run_cmd, read_file, int_, warning,
    bind, emit, ret, raise, outcome.
  destruct (use_docker_container iopts); simpl.
  - destruct (cmd_result host _) as [out|what]; simpl; [|by eexists].
    destruct (py_int host _); simpl; by eexists.
  - destruct (file_contents host _) as [text|]; simpl; [|by eexists].
    destruct (py_int host _); simpl; by eexists.
Qed.

Lemma fvp_revision_total (s : State) :
  exists n, outcome (fvp_revision cfg host iopts s) = Ret n.
Proof.
  unfold fvp_revision, cached_property.
  destruct (fvp_revision_cache s) as [v|]; [by eexists|].
  rewrite outcome_bind.
  destruct (fvp_revision_body_total s) as [n ->].
  by exists n.
Qed.

Lemma fvp_revision_body_run (s : State) :
  exists t n, fvp_revision_body cfg host iopts s = (t, s, Ret n).
Proof.
  unfold fvp_revision_body, try_except, run_cmd, read_file, int_, warning,
    bind, emit, ret, raise.
  destruct (use_docker_container iopts); simpl.
  - destruct (cmd_result host _) as [out|what]; simpl; [|by eexists _, _].
    destruct (py_int host _); simpl; by eexists _, _.
  - destruct (file_contents host _) as [text|]; simpl; [|by eexists _, _].
    destruct (py_int host _); simpl; by eexists _, _.
Qed.

(** An access to [fvp_revision] returns, and afterwards the value is
    cached. *)
Lemma fvp_revision_run (s : State) :
  exists t n,
    fvp_revision cfg host iopts s =
    (t, (match fvp_revision_cache s with Some _ => s | None => store_fvp_revision n s end), Ret n) /\
    fvp_revision_cache
      (match fvp_revision_cache s with Some _ => s | None => store_fvp_revision n s end) = Some n.
Proof.
  unfold fvp_revision, cached_property.
  destruct (fvp_revision_cache s) as [v|] eqn:Hc.
  - exists [], v. by split.
  - destruct (fvp_revision_body_run s) as (t & n & Hbody).
    exists t, n. split; [|reflexivity].
    unfold bind at 1. rewrite Hbody. unfold bind, modify, ret; simpl.
    by rewrite !app_nil_r.
Qed.

Lemma fvp_revision_body_unreadable (s : State) :
  revision_unreadable cfg host iopts = true ->
  exists e,
    fvp_revision_body cfg host iopts s =
    ((if use_docker_container iopts then [ERunCmd revision_query None] else [])
       ++ [revision_warning e], s, Ret latest_known_fvp).
Proof.
  unfold revision_unreadable, revision_text, fvp_revision_body, try_except,
    run_cmd, read_file, int_, warning, bind, emit, ret, raise, revision_query,
    revision_warning.
  destruct (use_docker_container iopts); simpl.
  - destruct (cmd_result host _) as [out|what]; simpl; [|by eexists].
    destruct (py_int host _); simpl; [intros H; discriminate H|by eexists].
  - destruct (file_contents host _) as [text|]; simpl; [|by eexists].
    destruct (py_int host _); simpl; [intros H; discriminate H|by eexists].
Qed.

Lemma fvp_revision_unreadable (s : State) :
  fvp_revision_cache s = None ->
  revision_unreadable cfg host iopts = true ->
  exists e,
    fvp_revision cfg host iopts s =
    ((if use_docker_container iopts then [ERunCmd revision_query None] else [])
       ++ [revision_warning e],
     store_fvp_revision latest_known_fvp s, Ret latest_known_fvp).
Proof.
  intros Hcache Hbad.
  destruct (fvp_revision_body_unreadable s Hbad) as [e He]. exists e.
  unfold fvp_revision, cached_property. rewrite Hcache.
  unfold bind at 1. rewrite He. unfold bind, modify, ret; simpl.
  by rewrite !app_nil_r.
Qed.

Lemma plugin_args_recent (s : State) (t : list event) (s' : State) (rev : Z) :
  fvp_revision cfg host iopts s = (t, s', Ret rev) -> (312 <= rev)%Z ->
  plugin_args cfg host iopts s = (t, s', Ret []).
Proof.
  intros Hrev Hge. unfold plugin_args, bind. rewrite Hrev.
  destruct (rev >=? 312)%Z eqn:E; [|lia].
  unfold ret. by rewrite app_nil_r.
Qed.

Variable lopts : LaunchOptions.
Variable deps : Dependencies.

Lemma execute_fvp_never_too_old args d f x t p :
  always recent (execute_fvp cfg host iopts args d f x t p).
Proof.
  repeat always_step.
  all: unfold recent; try discriminate. all: not_too_old.
Qed.

Lemma launch_architectural_never_too_old mp :
  always recent (launch_architectural cfg host lopts mp).
Proof.
  repeat always_step.
  all: unfold recent; try discriminate. all: not_too_old.
Qed.

Lemma launch_morello_not_too_old mp disk (s : State) :
  fvp_revision_cache s = None ->
  revision_unreadable cfg host iopts = true ->
  Forall recent (events (launch_morello cfg host iopts lopts deps mp disk s)).
Proof.
  intros Hcache Hbad.
  destruct (fvp_revision_unreadable s Hcache Hbad) as [e He].
  unfold launch_morello.
  rewrite events_bind. apply Forall_app. split; [by repeat constructor|].
  cbn [emit outcome final fst snd].
  rewrite events_bind. rewrite He. cbn [events outcome final fst snd].
  apply Forall_app. split.
  { apply Forall_app. split; [destruct (use_docker_container iopts)|];
      by repeat constructor. }
  rewrite events_bind.
  rewrite (fvp_revision_cached _ latest_known_fvp) by reflexivity.
  cbn [events outcome final fst snd app].
  rewrite events_bind.
  change (latest_known_fvp <? 312)%Z with false.
  cbn [when ret events outcome final fst snd app].
  apply always_at.
  repeat lazymatch goal with
  | |- always _ (execute_fvp _ _ _ _ _ _ _ _ _) => apply execute_fvp_never_too_old
  | |- _ => always_step
  end.
  all: unfold recent; try discriminate. all: not_too_old.
Qed.

Lemma launch_process_not_too_old (s : State) :
  fvp_revision_cache s = None ->
  revision_unreadable cfg host iopts = true ->
  Forall recent (events (launch_process cfg host iopts lopts deps s)).
Proof.
  intros Hcache Hbad. unfold launch_process.
  apply Forall_events_bind_keeps.
  { apply keeps_state_when, keeps_state_fatal. }
  { apply always_at. repeat always_step. unfold recent. not_too_old. }
  intros _ _.
  apply Forall_events_bind_keeps.
  { apply keeps_state_when, keeps_state_emit. }
  { apply always_at. repeat always_step. unfold recent. discriminate. }
  intros _ _.
  apply Forall_events_bind_keeps.
  { apply keeps_state_ensure. }
  { apply always_at. repeat always_step. unfold recent. not_too_old. }
  intros disk Hdisk. apply ensure_file_exists_returns in Hdisk as ->.
  destruct (use_architectureal_fvp lopts).
  - apply always_at, launch_architectural_never_too_old.
  - by apply launch_morello_not_too_old.
Qed.

End Revision.

(** C9.  [fvp_revision] always returns an integer.  On its first access,
    when the revision cannot be read or parsed, it warns and returns
    [latest_known_fvp], which is 345 and so at least 312, and caches it;
    [_plugin_args] then returns no argument, and no run of
    [LaunchFVPBase.process] reports that the FVP is too old. *)
Theorem fvp_revision_falls_back (cfg : CheriConfig) (host : Host)
    (iopts : InstallOptions) (s : State) :
  (exists n, outcome (fvp_revision cfg host iopts s) = Ret n) /\
  (fvp_revision_cache s = None ->
   revision_unreadable cfg host iopts = true ->
   let r := fvp_revision cfg host iopts s in
   outcome r = Ret latest_known_fvp /\
   latest_known_fvp = 345%Z /\
   (312 <= latest_known_fvp)%Z /\
   (exists pre e, events r = pre ++ [revision_warning e] /\
                  Forall (fun e => is_run_cmd e = true) pre) /\
   fvp_revision_cache (final r) = Some 345%Z /\
   outcome (plugin_args cfg host iopts s) = Ret [] /\
   forall lopts deps,
     ~ In too_old (events (launch_process cfg host iopts lopts deps s))).
Proof.
  split; [apply fvp_revision_total|].
  intros Hcache Hbad. cbn zeta.
  destruct (fvp_revision_unreadable cfg host iopts s Hcache Hbad) as [e He].
  rewrite He. cbn [events outcome final fst snd].
  split; [reflexivity|]. split; [reflexivity|]. split; [discriminate|].
  split; [|split; [reflexivity|split]].
  - eexists _, e. split; [reflexivity|].
    destruct (use_docker_container iopts); by repeat constructor.
  - rewrite (plugin_args_recent cfg host iopts s _ _ _ He); [reflexivity|discriminate].
  - intros lopts deps Hin.
    pose proof (launch_process_not_too_old cfg host iopts lopts deps s Hcache Hbad)
      as Hall.
    rewrite Forall_forall in Hall. apply list_elem_of_In in Hin.
    by apply Hall in Hin.
Qed.

Lemma fvp_revision_falls_back_witness :
  outcome (fvp_revision building broken_host installer_sh fresh) = Ret 345%Z /\
  outcome (plugin_args building broken_host installer_sh fresh) = Ret [] /\
  ~ In too_old
       (events (launch_process building broken_host installer_sh morello images fresh)).
Proof.
  destruct (fvp_revision_falls_back building broken_host installer_sh fresh)
    as (_ & H).
  destruct H as (Hret & _ & _ & _ & _ & Hplugin & Hlaunch).
  - reflexivity.
  - vm_compute. reflexivity.
  - split; [exact Hret|]. split; [exact Hplugin|]. apply Hlaunch.
Defined.

(** ** InstallMorelloFVP.execute_fvp: the socat process *)

Section Socat.
Variable cfg : CheriConfig.
Variable host : Host.
Variable iopts : InstallOptions.

Lemma base_cmd_before_spawn d f x t p :
  always before_spawn (base_cmd cfg host iopts d f x t p).
Proof. repeat always_step. all: split; reflexivity. Qed.

Lemma run_simulator_no_socat cmd args :
  always (fun e => socat_event e = false) (run_simulator cfg host iopts cmd args).
Proof. repeat always_step. all: reflexivity. Qed.

Lemma no_socat_not_in (t : list event) (argv : list string) :
  Forall (fun e => socat_event e = false) t -> ~ In (EPopen argv) t.
Proof.
  intros Hall Hin. rewrite Forall_forall in Hall.
  apply list_elem_of_In, Hall in Hin. discriminate Hin.
Qed.

(** C4.  In a run of [execute_fvp] in which socat is spawned, the trace
    is: events that neither touch socat nor run the model; the spawn of
    socat; what running the simulator command does, with no event on
    socat; and then [terminate] and [kill] on socat, as the last two
    events, however the simulator command ended.  Socat is spawned
    whenever the docker container is in use, x11 is on, the host is a Mac
    with [DISPLAY] set, the command line could be built and [popen]
    succeeds. *)
Theorem socat_is_scoped (args : list string) (d f : option Path) (x11 t : bool)
    (p : option Z) (s : State) :
  let r := execute_fvp cfg host iopts args d f x11 t p s in
  (forall argv, In (EPopen argv) (events r) ->
     exists pre mid,
       events r = pre ++ EPopen (socat_argv host) :: mid ++ [ETerminate; EKill] /\
       Forall before_spawn pre /\
       Forall (fun e => socat_event e = false) mid) /\
  (needs_socat host iopts x11 = true -> socat_spawns host = true ->
   (exists cmd, outcome (base_cmd cfg host iopts d f x11 t p s) = Ret cmd) ->
   In (EPopen (socat_argv host)) (events r)).
Proof.
  cbn zeta. unfold execute_fvp. rewrite events_bind.
  pose proof (base_cmd_before_spawn d f x11 t p s) as Hpre.
  set (pre := events (base_cmd cfg host iopts d f x11 t p s)) in *.
  assert (Hpre' : Forall (fun e => socat_event e = false) pre).
  { eapply Forall_impl; [exact Hpre|]. by intros e [? _]. }
  destruct (outcome (base_cmd cfg host iopts d f x11 t p s)) as [cmd|e] eqn:Hout.
  - set (s1 := final (base_cmd cfg host iopts d f x11 t p s)).
    pose proof (run_simulator_no_socat cmd args s1) as Hmid.
    destruct (needs_socat host iopts x11) eqn:Hneed.
    + rewrite events_bind.
      destruct (socat_spawns host) eqn:Hspawn.
      * rewrite popen_spawns by assumption.
        cbn [events outcome final fst snd].
        rewrite events_try_finally.
        change (events ((emit ETerminate ;; emit EKill) _)) with [ETerminate; EKill].
        split.
        -- intros argv _.
           exists pre, (events (run_simulator cfg host iopts cmd args s1)).
           split; [reflexivity|]. split; assumption.
        -- intros _ _ _. apply in_or_app. right. left. reflexivity.
      * rewrite popen_fails by assumption.
        cbn [events outcome final fst snd]. rewrite !app_nil_r.
        split; [|intros _ H; discriminate H].
        intros argv Hin. by apply no_socat_not_in in Hin.
    + split; [|intros H; discriminate H].
      intros argv Hin. exfalso. revert Hin. apply no_socat_not_in.
      apply Forall_app. split; assumption.
  - rewrite app_nil_r. split.
    + intros argv Hin. by apply no_socat_not_in in Hin.
    + intros _ _ [cmd Hcmd]. discriminate Hcmd.
Qed.

End Socat.

(** A run in which the simulator command raises: socat is terminated
    and killed all the same, and the exception goes on to the caller. *)
Lemma socat_is_scoped_witness :
  (exists pre mid,
     events (execute_fvp building broken_host installer_sh
               ["--help"] None None true false None fresh)
     = pre ++ EPopen (socat_argv broken_host) :: mid ++ [ETerminate; EKill] /\
     Forall before_spawn pre /\
     Forall (fun e => socat_event e = false) mid) /\
  outcome (execute_fvp building broken_host installer_sh
             ["--help"] None None true false None fresh)
  = Raise (PyException "exit status 1").
Proof.
  split; [|reflexivity].
  apply (proj1 (socat_is_scoped building broken_host installer_sh
                  ["--help"] None None true false None fresh)
               (socat_argv broken_host)).
  vm_compute. left. reflexivity.
Defined.

(** ** InstallMorelloFVP.process: the installer that is run *)

Section Install.
Variable cfg : CheriConfig.
Variable host : Host.
Variable iopts : InstallOptions.

Lemma install_from_events (p : Path) (s : State) :
  (String.eqb (path_suffix p) ".tgz" = true ->
   exists out, cmd_result host ["tar"; "xf"; p; "-C"; tmpdir host] = Completed out) ->
  exists mid post,
    events (install_from cfg host iopts p (tmpdir host) s) =
    (if String.eqb (path_suffix p) ".tgz" then [tar_run host p] else []) ++
    mid ++ installer_run cfg iopts (installer_sh_of host p (tmpdir host)) :: post /\
    Forall (fun e => is_run_cmd e = false) mid.
Proof.
  intros Htar. unfold install_from. rewrite events_bind.
  assert (Hfirst :
    when (String.eqb (path_suffix p) ".tgz")
         (run_cmd host ["tar"; "xf"; p; "-C"; tmpdir host] None ;; ret tt) s =
    (if String.eqb (path_suffix p) ".tgz" then [tar_run host p] else [], s, Ret tt)).
  { destruct (String.eqb (path_suffix p) ".tgz"); [|reflexivity].
    destruct Htar as [out Hout]; [reflexivity|].
    unfold when, bind at 1. by rewrite (run_cmd_completed host _ _ out). }
  rewrite Hfirst. cbn [events outcome final fst snd]. cbn zeta.
  set (sh := installer_sh_of host p (tmpdir host)).
  rewrite events_bind.
  assert (Hwarn : exists w,
    when (negb (String.eqb (path_suffix sh) ".sh"))
      (warning ["Incorrect path to installer? Expected installer to be a .sh file:"; sh]
               " " None) s = (w, s, Ret tt) /\
    Forall (fun e => is_run_cmd e = false) w).
  { destruct (negb _); eexists; (split; [reflexivity|]); by repeat constructor. }
  destruct Hwarn as (w & -> & Hw). cbn [events outcome final fst snd].
  rewrite events_bind. cbn [emit events outcome final fst snd].
  rewrite events_bind, events_run_cmd.
  eexists (w ++ [ECleanDirectory (install_dir cfg)]), _. split.
  - f_equal. rewrite <- !app_assoc. reflexivity.
  - apply Forall_app. split; [exact Hw|by repeat constructor].
Qed.

(** C5.  For an installer path [p] that is a file (or in pretend mode,
    where [process] goes on after the fatal error): if [p] has the
    suffix [.tgz] and the extraction succeeds, the first command run is
    the extraction of [p] into the temporary directory just created, and
    the next command run is the installer, which is the first [*.sh] file
    found in that directory, or [FVP_Morello.sh] in that directory when
    there is none; for every other suffix no archive is extracted and the
    first command run is the installer [p] itself. *)
Theorem installer_selected (p : Path) (s : State) :
  installer_path iopts = Some p ->
  is_file host p = true \/ pretend cfg = true ->
  let r := install_process cfg host iopts s in
  let td := tmpdir host in
  (path_suffix p = ".tgz" ->
   (exists out, cmd_result host ["tar"; "xf"; p; "-C"; td] = Completed out) ->
   exists pre mid post,
     events r = pre ++ [EMkTemp td; tar_run host p] ++ mid ++
                installer_run cfg iopts
                  (hd (td </> "FVP_Morello.sh") (glob_sh host td)) :: post /\
     Forall (fun e => is_run_cmd e = false) pre /\
     Forall (fun e => is_run_cmd e = false) mid) /\
  (path_suffix p <> ".tgz" ->
   exists pre post,
     events r = pre ++ installer_run cfg iopts p :: post /\
     Forall (fun e => is_run_cmd e = false) pre).
Proof.
  intros Hp Hreach. cbn zeta. unfold install_process. rewrite Hp.
  rewrite events_bind.
  assert (Hcheck : exists w,
    when (negb (is_file host p))
      (fatal cfg ["Specified path to installer does not exist:"; p] " " None) s
    = (w, s, Ret tt) /\ Forall (fun e => is_run_cmd e = false) w).
  { destruct (is_file host p); cbn [negb when].
    - exists []. split; [reflexivity|constructor].
    - destruct Hreach as [H|H]; [discriminate H|].
      rewrite fatal_pretend by assumption. eexists. split; [reflexivity|].
      by repeat constructor. }
  destruct Hcheck as (w & -> & Hw). cbn [events outcome final fst snd].
  unfold with_temporary_directory. cbn zeta.
  rewrite events_bind. cbn [emit events outcome final fst snd].
  rewrite events_try_finally.
  split.
  - intros Hsuf Htar.
    destruct (install_from_events p s) as (mid & post & Hev & Hmid).
    { intros _. exact Htar. }
    rewrite Hev. unfold installer_sh_of. rewrite Hsuf.
    change (String.eqb ".tgz" ".tgz") with true. cbn match.
    exists w, mid,
      (post ++ events (emit (ERmTemp (tmpdir host))
                         (final (install_from cfg host iopts p (tmpdir host) s)))).
    split; [|split; assumption].
    replace (hd (tmpdir host </> "FVP_Morello.sh") (glob_sh host (tmpdir host)))
      with (match glob_sh host (tmpdir host) with
            | first :: _ => first
            | [] => tmpdir host </> "FVP_Morello.sh"
            end) by (by destruct (glob_sh host (tmpdir host))).
    f_equal. cbn [app]. do 2 f_equal. by rewrite <- app_assoc.
  - intros Hsuf.
    assert (Hne : String.eqb (path_suffix p) ".tgz" = false).
    { by apply String.eqb_neq. }
    destruct (install_from_events p s) as (mid & post & Hev & Hmid).
    { rewrite Hne. intros H. discriminate H. }
    rewrite Hev. unfold installer_sh_of. rewrite Hne. cbn [app].
    exists (w ++ [EMkTemp (tmpdir host)] ++ mid),
      (post ++ events (emit (ERmTemp (tmpdir host))
                         (final (install_from cfg host iopts p (tmpdir host) s)))).
    split.
    + rewrite <- !app_assoc. reflexivity.
    + apply Forall_app. split; [exact Hw|].
      apply Forall_app. split; [by repeat constructor|exact Hmid].
Qed.

End Install.

Lemma installer_selected_witness :
  exists pre mid post,
    events (install_process building working_host installer_tgz fresh) =
    pre ++ [EMkTemp "/tmp/tmpfvp";
            ERunCmd ["tar"; "xf"; "/dl/FVP_Morello_0.11.tgz"; "-C"; "/tmp/tmpfvp"] None]
        ++ mid ++
        ERunCmd ["/tmp/tmpfvp/FVP_Morello_0.11.sh"; "--destination";
                 "/sdk/FVP_Morello"; "--i-agree-to-the-contained-eula";
                 "--no-interactive"] None :: post /\
    Forall (fun e => is_run_cmd e = false) pre /\
    Forall (fun e => is_run_cmd e = false) mid.
Proof.
  apply (proj1 (installer_selected building working_host
                  installer_tgz "/dl/FVP_Morello_0.11.tgz" fresh
                  eq_refl (or_introl eq_refl))).
  - vm_compute. reflexivity.
  - exists EmptyString. reflexivity.
Defined.

(** ** The fatal errors of the two process methods *)

Lemma prefix_append (x y : string) : String.prefix x (x +:+ y) = true.
Proof.
  induction x as [|a x IH]; simpl; [by destruct y|].
  destruct (ascii_dec a a); [exact IH|congruence].
Qed.

Lemma contains_prefix (x y : string) :
  String.prefix x y = true -> contains x y = true.
Proof. intros H. destruct y; cbn [contains]; rewrite H; reflexivity. Qed.

Lemma contains_append_l (x a y : string) :
  contains x y = true -> contains x (a +:+ y) = true.
Proof.
  intros H. induction a as [|c a IH]; [exact H|].
  change (String c a +:+ y) with (String c (a +:+ y)). cbn [contains].
  rewrite IH. apply orb_true_r.
Qed.

Lemma contains_here (x a y : string) : contains x (a +:+ x +:+ y) = true.
Proof. apply contains_append_l, contains_prefix, prefix_append. Qed.

Lemma contains_self (x : string) : contains x x = true.
Proof.
  apply contains_prefix. induction x as [|a x IH]; simpl; [reflexivity|].
  destruct (ascii_dec a a); [exact IH|congruence].
Qed.

(** An argument of [fatal] is part of the message. *)
Lemma contains_join (sep x : string) (args : list string) :
  In x args -> contains x (join sep args) = true.
Proof.
  induction args as [|p rest IH]; intros Hin; [destruct Hin|].
  destruct Hin as [->|Hin].
  - destruct rest as [|q rest]; simpl join.
    + apply contains_self.
    + apply (contains_here x EmptyString).
  - destruct rest as [|q rest]; [destruct Hin|].
    change (join sep (p :: q :: rest)) with (p +:+ sep +:+ join sep (q :: rest)).
    apply contains_append_l, contains_append_l, IH, Hin.
Qed.

Lemma reports_option_in (opt msg : string) (hint : option string) (t : list event) :
  In (EFatal msg hint) t -> contains ("--" +:+ opt) msg = true ->
  reports_option opt t = true.
Proof.
  intros Hin Hmsg. unfold reports_option. apply existsb_exists.
  exists (EFatal msg hint). split; [exact Hin|exact Hmsg].
Qed.

Section Errors.
Variable cfg : CheriConfig.
Variable host : Host.
Variable iopts : InstallOptions.
Variable lopts : LaunchOptions.
Variable deps : Dependencies.

Lemma install_process_unset (s : State) :
  installer_path iopts = None ->
  install_process cfg host iopts s =
  ([installer_unknown host], s, if pretend cfg then Ret tt else Raise SystemExit).
Proof.
  intros H. unfold install_process. rewrite H.
  unfold fatal, bind, emit, ret, raise, installer_unknown.
  by destruct (pretend cfg).
Qed.

Lemma install_process_not_file (p : Path) (s : State) :
  installer_path iopts = Some p -> is_file host p = false ->
  exists rest,
    events (install_process cfg host iopts s) = installer_missing p :: rest /\
    (pretend cfg = false ->
     rest = [] /\ outcome (install_process cfg host iopts s) = Raise SystemExit).
Proof.
  intros Hp Hfile. unfold install_process. rewrite Hp, Hfile. cbn [negb when].
  rewrite events_bind, outcome_bind.
  destruct (pretend cfg) eqn:Hpretend.
  - rewrite fatal_pretend by assumption. cbn [events outcome final fst snd].
    eexists. split; [reflexivity|]. intros H. discriminate H.
  - rewrite fatal_exits by assumption. cbn [events outcome final fst snd].
    exists []. split; [reflexivity|]. intros _. by split.
Qed.

Lemma launch_process_firmware (s : State) :
  path_exists host (firmware_path lopts) = false ->
  exists rest,
    events (launch_process cfg host iopts lopts deps s)
      = firmware_invalid host lopts :: rest /\
    (pretend cfg = false ->
     rest = [] /\
     outcome (launch_process cfg host iopts lopts deps s) = Raise SystemExit).
Proof.
  intros Hfw. unfold launch_process. rewrite Hfw. cbn [negb when].
  rewrite events_bind, outcome_bind.
  destruct (pretend cfg) eqn:Hpretend.
  - rewrite fatal_pretend by assumption. cbn [events outcome final fst snd].
    eexists. split; [reflexivity|]. intros H. discriminate H.
  - rewrite fatal_exits by assumption. cbn [events outcome final fst snd].
    exists []. split; [reflexivity|]. intros _. by split.
Qed.

(** The checks of [process] before the branch on the kind of FVP return,
    and assign nothing, when the firmware path and the disk image exist
    or in pretend mode. *)
Lemma launch_process_reaches_branch (s : State) :
  pretend cfg = true \/
  (path_exists host (firmware_path lopts) = true /\
   path_exists host (disk_image_path deps) = true) ->
  exists pre,
    events (launch_process cfg host iopts lopts deps s) =
    pre ++ events
      ((if use_architectureal_fvp lopts
        then launch_architectural cfg host lopts
               (board_model_params lopts (disk_image_path deps))
        else launch_morello cfg host iopts lopts deps
               (board_model_params lopts (disk_image_path deps))
               (disk_image_path deps)) s) /\
    outcome (launch_process cfg host iopts lopts deps s) =
    outcome
      ((if use_architectureal_fvp lopts
        then launch_architectural cfg host lopts
               (board_model_params lopts (disk_image_path deps))
        else launch_morello cfg host iopts lopts deps
               (board_model_params lopts (disk_image_path deps))
               (disk_image_path deps)) s).
Proof.
  intros Hreach. unfold launch_process.
  assert (H1 : exists w,
    when (negb (path_exists host (firmware_path lopts)))
      (fatal cfg ["Firmware path"; firmware_path lopts; " is invalid, set the";
                  "--" +:+ option_name host "firmware_path"; "config option!"]
             " " None) s = (w, s, Ret tt)).
  { destruct (path_exists host (firmware_path lopts)) eqn:E; cbn [negb when].
    - by exists [].
    - destruct Hreach as [H|[H _]]; [|discriminate H].
      rewrite fatal_pretend by assumption. by eexists. }
  destruct H1 as [w1 H1]. rewrite events_bind, outcome_bind, H1.
  cbn [events outcome final fst snd].
  assert (H2 : exists w,
    when (truthy (remote_disk_image_path lopts))
      (emit (ECopyRemoteFile (default EmptyString (remote_disk_image_path lopts))
                             (disk_image_path deps))) s = (w, s, Ret tt)).
  { destruct (truthy _); by eexists. }
  destruct H2 as [w2 H2]. rewrite events_bind, outcome_bind, H2.
  cbn [events outcome final fst snd].
  destruct (ensure_file_exists_run cfg host "disk image" (disk_image_path deps) s)
    as (w3 & H3 & _).
  { destruct Hreach as [H|[_ H]]; [by right|by left]. }
  rewrite events_bind, outcome_bind, H3. cbn [events outcome final fst snd]. cbn zeta.
  exists (w1 ++ w2 ++ w3). split; [|reflexivity]. by rewrite <- !app_assoc.
Qed.

Lemma launch_architectural_license (mp : list string) (s : State) :
  truthy (license_server s) = false ->
  In (license_unknown host) (events (launch_architectural cfg host lopts mp s)).
Proof.
  intros Hls. unfold launch_architectural.
  rewrite events_bind. cbn [gets events outcome final fst snd app].
  rewrite Hls. cbn [negb when].
  rewrite events_bind. apply in_or_app. left.
  rewrite events_bind. cbn [modify events outcome final fst snd app].
  unfold fatal. rewrite events_bind. left. reflexivity.
Qed.

Lemma launch_architectural_model (mp : list string) (s : State) :
  is_dir host (arch_model_path lopts) = false ->
  pretend cfg = true \/ truthy (license_server s) = true ->
  In (model_missing host lopts) (events (launch_architectural cfg host lopts mp s)).
Proof.
  intros Hdir Hreach. unfold launch_architectural.
  rewrite events_bind. cbn [gets events outcome final fst snd app].
  assert (H1 : exists w s',
    when (negb (truthy (license_server s)))
      (modify (set_license_server "unknown.license.server") ;;
       fatal cfg ["License server info unknown, set the";
                  "--" +:+ option_name host "license_server";
                  "config option!"] " " None) s = (w, s', Ret tt)).
  { destruct (truthy (license_server s)) eqn:E; cbn [negb when].
    - by eexists _, _.
    - destruct Hreach as [H|H]; [|discriminate H].
      unfold bind at 1, modify. rewrite fatal_pretend by assumption.
      by eexists _, _. }
  destruct H1 as (w1 & s' & H1). rewrite events_bind, H1.
  cbn [events outcome final fst snd]. apply in_or_app. right.
  rewrite Hdir. cbn [negb when].
  rewrite events_bind. apply in_or_app. left.
  unfold fatal. rewrite events_bind. left. reflexivity.
Qed.

Lemma launch_architectural_license_exits (mp : list string) (s : State) :
  truthy (license_server s) = false -> pretend cfg = false ->
  outcome (launch_architectural cfg host lopts mp s) = Raise SystemExit.
Proof.
  intros Hls Hbuild. unfold launch_architectural.
  rewrite outcome_bind. cbn [gets events outcome final fst snd].
  rewrite Hls. cbn [negb when].
  rewrite outcome_bind, outcome_bind. cbn [modify events outcome final fst snd].
  rewrite fatal_exits by assumption. reflexivity.
Qed.

Lemma launch_architectural_model_exits (mp : list string) (s : State) :
  is_dir host (arch_model_path lopts) = false ->
  truthy (license_server s) = true -> pretend cfg = false ->
  outcome (launch_architectural cfg host lopts mp s) = Raise SystemExit.
Proof.
  intros Hdir Hls Hbuild. unfold launch_architectural.
  rewrite outcome_bind. cbn [gets events outcome final fst snd].
  rewrite Hls. cbn [negb when].
  rewrite outcome_bind. cbn [ret events outcome final fst snd].
  rewrite Hdir. cbn [negb when].
  rewrite outcome_bind. rewrite fatal_exits by assumption. reflexivity.
Qed.

End Errors.

(** C3, as the specification states it, fails on the code: when the
    installer path is set and is not a file, [InstallMorelloFVP.process]
    ends with a fatal error whose message gives the path and names no
    option. *)
Lemma installer_missing_names_no_option :
  installer_path installer_sh = Some "/dl/FVP_Morello.sh" /\
  is_file bare_host "/dl/FVP_Morello.sh" = false /\
  events (install_process building bare_host installer_sh fresh)
    = [EFatal "Specified path to installer does not exist: /dl/FVP_Morello.sh" None] /\
  outcome (install_process building bare_host installer_sh fresh) = Raise SystemExit /\
  reports_option (option_name bare_host "installer_path")
    (events (install_process building bare_host installer_sh fresh)) = false /\
  reports_option EmptyString
    (events (install_process building bare_host installer_sh fresh)) = false.
Proof. vm_compute. repeat split. Qed.

(** C3, amended.  A missing requirement is a fatal error with a
    descriptive message; outside pretend mode it ends [process].
    [InstallMorelloFVP.process]: an unset installer path is the only
    event, and its message names the installer-path option; an installer
    path that is not a file is reported first, with the path in the
    message.  [LaunchFVPBase.process]: a firmware path that does not exist
    is reported first and its message names the firmware-path option; for
    the architectural FVP, when the checks are reached (in pretend mode, or
    when nothing reported before them is missing), an unset licence server
    and a model path that is not a directory are each reported with a
    message naming their option, and outside pretend mode the run then
    ends by [sys.exit]. *)
Theorem missing_requirements_are_fatal (cfg : CheriConfig) (host : Host)
    (iopts : InstallOptions) (lopts : LaunchOptions) (deps : Dependencies)
    (s : State) :
  (installer_path iopts = None ->
   events (install_process cfg host iopts s) = [installer_unknown host] /\
   reports_option (option_name host "installer_path")
     (events (install_process cfg host iopts s)) = true /\
   outcome (install_process cfg host iopts s)
   = if pretend cfg then Ret tt else Raise SystemExit) /\
  (forall p, installer_path iopts = Some p -> is_file host p = false ->
   contains p (join " " ["Specified path to installer does not exist:"; p]) = true /\
   exists rest,
     events (install_process cfg host iopts s) = installer_missing p :: rest /\
     (pretend cfg = false ->
      rest = [] /\ outcome (install_process cfg host iopts s) = Raise SystemExit)) /\
  (path_exists host (firmware_path lopts) = false ->
   reports_option (option_name host "firmware_path")
     (events (launch_process cfg host iopts lopts deps s)) = true /\
   exists rest,
     events (launch_process cfg host iopts lopts deps s)
     = firmware_invalid host lopts :: rest /\
     (pretend cfg = false ->
      rest = [] /\
      outcome (launch_process cfg host iopts lopts deps s) = Raise SystemExit)) /\
  (use_architectureal_fvp lopts = true ->
   truthy (license_server s) = false ->
   pretend cfg = true \/
   (path_exists host (firmware_path lopts) = true /\
    path_exists host (disk_image_path deps) = true) ->
   In (license_unknown host) (events (launch_process cfg host iopts lopts deps s)) /\
   reports_option (option_name host "license_server")
     (events (launch_process cfg host iopts lopts deps s)) = true /\
   (pretend cfg = false ->
    outcome (launch_process cfg host iopts lopts deps s) = Raise SystemExit)) /\
  (use_architectureal_fvp lopts = true ->
   is_dir host (arch_model_path lopts) = false ->
   pretend cfg = true \/
   (path_exists host (firmware_path lopts) = true /\
    path_exists host (disk_image_path deps) = true /\
    truthy (license_server s) = true) ->
   In (model_missing host lopts) (events (launch_process cfg host iopts lopts deps s)) /\
   reports_option (option_name host "simulator_path")
     (events (launch_process cfg host iopts lopts deps s)) = true /\
   (pretend cfg = false ->
    outcome (launch_process cfg host iopts lopts deps s) = Raise SystemExit)).
Proof.
  split; [|split; [|split; [|split]]].
  - intros Hunset. rewrite (install_process_unset cfg host iopts s Hunset).
    cbn [events outcome fst snd]. split; [reflexivity|]. split; [|reflexivity].
    unfold installer_unknown. eapply reports_option_in; [left; reflexivity|].
    apply contains_join. right. left. reflexivity.
  - intros p Hp Hfile. split.
    + apply contains_join. right. left. reflexivity.
    + by apply install_process_not_file.
  - intros Hfw.
    destruct (launch_process_firmware cfg host iopts lopts deps s Hfw)
      as (rest & Hev & Hexit).
    split; [|by exists rest].
    rewrite Hev. unfold firmware_invalid. eapply reports_option_in; [left; reflexivity|].
    apply contains_join. do 3 right. left. reflexivity.
  - intros Harch Hls Hreach.
    assert (Hin : In (license_unknown host)
                     (events (launch_process cfg host iopts lopts deps s))).
    { destruct (launch_process_reaches_branch cfg host iopts lopts deps s Hreach)
        as (pre & -> & _).
      rewrite Harch. apply in_or_app. right.
      by apply launch_architectural_license. }
    split; [exact Hin|]. split.
    + unfold license_unknown in Hin.
      eapply reports_option_in; [exact Hin|].
      apply contains_join. right. left. reflexivity.
    + intros Hbuild.
      destruct (launch_process_reaches_branch cfg host iopts lopts deps s Hreach)
        as (pre & _ & ->).
      rewrite Harch. by apply launch_architectural_license_exits.
  - intros Harch Hdir Hreach.
    assert (Hin : In (model_missing host lopts)
                     (events (launch_process cfg host iopts lopts deps s))).
    { destruct (launch_process_reaches_branch cfg host iopts lopts deps s)
        as (pre & -> & _).
      { destruct Hreach as [H|(H1 & H2 & _)]; [by left|by right]. }
      rewrite Harch. apply in_or_app. right.
      apply launch_architectural_model; [exact Hdir|].
      destruct Hreach as [H|(_ & _ & H)]; [by left|by right]. }
    split; [exact Hin|]. split.
    + unfold model_missing in Hin.
      eapply reports_option_in; [exact Hin|].
      apply contains_join. do 3 right. left. reflexivity.
    + intros Hbuild.
      destruct (launch_process_reaches_branch cfg host iopts lopts deps s)
        as (pre & _ & ->).
      { destruct Hreach as [H|(H1 & H2 & _)]; [by left|by right]. }
      rewrite Harch. apply launch_architectural_model_exits; try assumption.
      destruct Hreach as [H|(_ & _ & H)]; [congruence|exact H].
Qed.

(** In pretend mode on a host with no file at all, every check of both
    methods reports; outside it, the first one ends the run. *)
Lemma missing_requirements_are_fatal_witness :
  reports_option "installer-path"
    (events (install_process pretending bare_host installer_unset fresh)) = true /\
  (exists rest,
     events (install_process building bare_host installer_sh fresh)
     = installer_missing "/dl/FVP_Morello.sh" :: rest /\
     (pretend building = false ->
      rest = [] /\
      outcome (install_process building bare_host installer_sh fresh)
      = Raise SystemExit)) /\
  reports_option "firmware-path"
    (events (launch_process pretending bare_host installer_sh architectural images fresh))
    = true /\
  reports_option "license-server"
    (events (launch_process pretending bare_host installer_sh architectural images fresh))
    = true /\
  reports_option "simulator-path"
    (events (launch_process pretending bare_host installer_sh architectural images fresh))
    = true /\
  (In (license_unknown working_host)
      (events (launch_process building working_host installer_sh architectural
                 images fresh)) /\
   outcome (launch_process building working_host installer_sh architectural
              images fresh) = Raise SystemExit) /\
  (In (model_missing modelless_host architectural)
      (events (launch_process building modelless_host installer_sh architectural
                 images licensed)) /\
   outcome (launch_process building modelless_host installer_sh architectural
              images licensed) = Raise SystemExit).
Proof.
  destruct (missing_requirements_are_fatal building working_host installer_sh
              architectural images fresh) as (_ & _ & _ & Hls' & _).
  destruct (missing_requirements_are_fatal building modelless_host installer_sh
              architectural images licensed) as (_ & _ & _ & _ & Hdir').
  destruct (missing_requirements_are_fatal pretending bare_host installer_unset
              architectural images fresh) as (Hunset & _).
  destruct (missing_requirements_are_fatal building bare_host installer_sh
              architectural images fresh) as (_ & Hfile & _).
  destruct (missing_requirements_are_fatal pretending bare_host installer_sh
              architectural images fresh) as (_ & _ & Hfw & Hls & Hdir).
  split; [|split; [|split; [|split; [|split; [|split]]]]].
  - apply Hunset. reflexivity.
  - apply (Hfile "/dl/FVP_Morello.sh"); reflexivity.
  - apply Hfw. reflexivity.
  - apply Hls; [reflexivity|reflexivity|left; reflexivity].
  - apply Hdir; [reflexivity|reflexivity|left; reflexivity].
  - destruct Hls' as (Hin & _ & Hexit);
      [reflexivity|reflexivity|right; split; reflexivity|].
    split; [exact Hin|apply Hexit; reflexivity].
  - destruct Hdir' as (Hin & _ & Hexit);
      [reflexivity|reflexivity|right; repeat split; reflexivity|].
    split; [exact Hin|apply Hexit; reflexivity].
Defined.

(** ** LaunchFVPBase.process: the arguments of the simulator *)

Lemma passes_args_sub (l xs r : list string) (e : event) :
  passes_args (l ++ xs ++ r) e -> passes_args xs e.
Proof.
  destruct e; simpl; try done.
  intros H Hl. destruct (H Hl) as (pre & post & ->).
  exists (pre ++ l), (r ++ post). by rewrite <- !app_assoc.
Qed.

Lemma launch_with_sub (l xs r : list string) (e : event) :
  launch_with (l ++ xs ++ r) e -> launch_with xs e.
Proof.
  destruct e; simpl; try done.
  intros (Hl & pre & post & ->). split; [exact Hl|].
  exists (pre ++ l), (r ++ post). by rewrite <- !app_assoc.
Qed.

(** One step of a proof that a run that returns has done something: the
    rule for the construct at its head. *)
Ltac returns_step :=
  lazymatch goal with
  | |- returns_after _ (bind (ensure_file_exists _ _ _ _) _) =>
      apply returns_after_bind_ensure
  | |- returns_after _ (bind (run_cmd _ _ _) _) =>
      apply returns_after_bind_l, returns_after_run_cmd
  | |- returns_after _ (bind _ _) => apply returns_after_bind_r; intros ?
  | |- returns_after _ (try_finally _ _) => apply returns_after_try_finally
  | |- returns_after _ _ => progress lazy zeta
  end.

Section Launching.
Variable cfg : CheriConfig.
Variable host : Host.
Variable iopts : InstallOptions.
Variable lopts : LaunchOptions.
Variable deps : Dependencies.

Lemma execute_fvp_passes_args (X args : list string) (d f : option Path)
    (x t : bool) (p : option Z) :
  (exists a1 a2, args = a1 ++ X ++ a2) ->
  always (passes_args X) (execute_fvp cfg host iopts args d f x t p).
Proof.
  intros (a1 & a2 & Hargs). subst args.
  repeat always_step.
  all: cbn [passes_args]; try exact I.
  all: try not_a_launch.
  all: intros _.
  all: lazymatch goal with
       | |- exists pre post, ?a ++ ?b ++ ?c ++ _ ++ ?d = _ =>
           exists (a ++ b ++ c), d; rewrite <- !app_assoc; reflexivity
       end.
Qed.

Lemma fvp_revision_passes_args (X : list string) :
  always (passes_args X) (fvp_revision cfg host iopts).
Proof.
  repeat always_step. all: cbn [passes_args]; try exact I. all: not_a_launch.
Qed.

Lemma revision_in_run (s s' : State) (t : list event) (n : Z) :
  fvp_revision cfg host iopts s = (t, s', Ret n) ->
  revision_in cfg host iopts s = n.
Proof. intros H. unfold revision_in. by rewrite H. Qed.

(** *** Every launch passes the parameters *)

Lemma launch_architectural_passes (mp : list string) :
  always (passes_args (prepend_C (architectural_model_params mp
            (firmware_path lopts </> "fip.bin") (firmware_path lopts </> "bl1.bin"))))
         (launch_architectural cfg host lopts mp).
Proof.
  repeat always_step.
  all: cbn [passes_args]; try exact I.
  intros _. eexists _, []. rewrite app_nil_r. reflexivity.
Qed.

Lemma launch_morello_passes (mp : list string) (disk : Path) (s : State) :
  Forall (passes_args (prepend_C (morello_model_params mp (revision_in cfg host iopts s))))
         (events (launch_morello cfg host iopts lopts deps mp disk s)).
Proof.
  destruct (fvp_revision_run cfg host iopts s) as (t & n & Hrun & Hcache).
  rewrite (revision_in_run _ _ _ _ Hrun).
  pose proof (fvp_revision_passes_args
                (prepend_C (morello_model_params mp n)) s) as Hquery.
  rewrite Hrun in Hquery. cbn [events fst snd] in Hquery.
  unfold launch_morello.
  rewrite events_bind. apply Forall_app. split; [repeat constructor|].
  cbn [emit outcome final fst snd].
  rewrite events_bind. rewrite Hrun. cbn [events outcome final fst snd].
  apply Forall_app. split; [exact Hquery|].
  rewrite events_bind.
  rewrite (fvp_revision_cached cfg host iopts _ n Hcache).
  cbn [events outcome final fst snd app].
  apply always_at.
  repeat lazymatch goal with
  | |- always _ (execute_fvp _ _ _ _ _ _ _ _ _) => fail
  | |- _ => always_step
  end.
  all: cbn [passes_args]; try exact I.
  apply execute_fvp_passes_args.
  lazymatch goal with
  | |- exists a1 a2, ((?X ++ ?l1) ++ ?l2) ++ ?l3 = _ =>
      exists [], (l1 ++ l2 ++ l3); rewrite <- !app_assoc; reflexivity
  end.
Qed.

(** Whatever the host does, every command of [process] that launches a
    simulator carries ["-C"; p] for every [p] of the final
    [model_params], in their order. *)
Lemma launch_process_passes (s : State) :
  Forall (passes_args (prepend_C (final_model_params cfg host iopts lopts deps s)))
         (events (launch_process cfg host iopts lopts deps s)).
Proof.
  unfold launch_process.
  apply Forall_events_bind_keeps.
  { apply keeps_state_when, keeps_state_fatal. }
  { apply always_at. repeat always_step. exact I. }
  intros _ _.
  apply Forall_events_bind_keeps.
  { apply keeps_state_when, keeps_state_emit. }
  { apply always_at. repeat always_step. exact I. }
  intros _ _.
  apply Forall_events_bind_keeps.
  { apply keeps_state_ensure. }
  { apply always_at. repeat always_step. exact I. }
  intros disk Hdisk. apply ensure_file_exists_returns in Hdisk as ->.
  unfold final_model_params. cbn zeta.
  destruct (use_architectureal_fvp lopts) eqn:Harch.
  - apply always_at, launch_architectural_passes.
  - apply launch_morello_passes.
Qed.

(** *** A run that returns has launched the simulator *)

Lemma execute_fvp_launches (X a1 a2 : list string) (d f : option Path)
    (x t : bool) (p : option Z) :
  launches_simulator (a1 ++ X ++ a2) ->
  returns_after (launch_with X)
                (execute_fvp cfg host iopts (a1 ++ X ++ a2) d f x t p).
Proof.
  intros Hl. unfold execute_fvp.
  apply returns_after_bind_r. intros cmd.
  assert (Hsim : returns_after (launch_with X)
                   (run_simulator cfg host iopts cmd (a1 ++ X ++ a2))).
  { unfold run_simulator. apply returns_after_bind_r. intros plugin.
    apply returns_after_bind_l, returns_after_run_cmd.
    split.
    - unfold launches_simulator in *.
      apply in_or_app. right. apply in_or_app. right. exact Hl.
    - exists (cmd ++ plugin ++ a1), a2. by rewrite <- !app_assoc. }
  destruct (needs_socat host iopts x).
  - apply returns_after_bind_r. intros _. by apply returns_after_try_finally.
  - exact Hsim.
Qed.

Lemma launch_architectural_launches (mp : list string) :
  returns_after
    (launch_with (prepend_C (architectural_model_params mp
       (firmware_path lopts </> "fip.bin") (firmware_path lopts </> "bl1.bin"))))
    (launch_architectural cfg host lopts mp).
Proof.
  unfold launch_architectural, with_set_env.
  repeat returns_step.
  split.
  - right. right. right. left. reflexivity.
  - eexists _, []. rewrite app_nil_r. reflexivity.
Qed.

Lemma launch_morello_launches (mp : list string) (disk : Path) (s : State) :
  outcome (launch_morello cfg host iopts lopts deps mp disk s) = Ret tt ->
  Exists (launch_with (prepend_C (morello_model_params mp (revision_in cfg host iopts s))))
         (events (launch_morello cfg host iopts lopts deps mp disk s)).
Proof.
  destruct (fvp_revision_run cfg host iopts s) as (t & n & Hrun & Hcache).
  rewrite (revision_in_run _ _ _ _ Hrun).
  unfold launch_morello.
  rewrite outcome_bind, events_bind. cbn [emit events outcome final fst snd].
  rewrite outcome_bind, events_bind. rewrite Hrun. cbn [events outcome final fst snd].
  rewrite outcome_bind, events_bind.
  rewrite (fvp_revision_cached cfg host iopts _ n Hcache).
  cbn [events outcome final fst snd].
  intros H. apply Exists_app. right. apply Exists_app. right.
  apply Exists_app. right.
  revert H.
  lazymatch goal with
  | |- outcome (?m ?s') = Ret tt -> Exists ?P (events (?m ?s')) =>
      cut (returns_after P m); [intros Hr; apply Hr|]
  end.
  repeat lazymatch goal with
  | |- returns_after _ (execute_fvp _ _ _ _ _ _ _ _ _) => fail
  | |- _ => returns_step
  end.
  lazymatch goal with
  | |- returns_after _ (execute_fvp _ _ _ (((?X ++ ?l1) ++ ?l2) ++ ?l3) _ _ _ _ _) =>
      replace (((X ++ l1) ++ l2) ++ l3) with ([] ++ X ++ (l1 ++ l2 ++ l3))
        by (rewrite <- !app_assoc; reflexivity)
  end.
  apply execute_fvp_launches.
  unfold launches_simulator. apply in_or_app. right. apply in_or_app. right.
  apply in_or_app. right. apply in_or_app. right. left. reflexivity.
Qed.

(** Every run of [process] that returns has launched a simulator with
    [fvp_args] among its arguments. *)
Lemma launch_process_launches (s : State) :
  outcome (launch_process cfg host iopts lopts deps s) = Ret tt ->
  Exists (launch_with (prepend_C (final_model_params cfg host iopts lopts deps s)))
         (events (launch_process cfg host iopts lopts deps s)).
Proof.
  unfold launch_process. intros H.
  apply bind_returns_keeps in H as (u1 & _ & H & ->);
    [|apply keeps_state_when, keeps_state_fatal].
  apply Exists_app. right.
  apply bind_returns_keeps in H as (u2 & _ & H & ->);
    [|apply keeps_state_when, keeps_state_emit].
  apply Exists_app. right.
  apply bind_returns_keeps in H as (disk & Hdisk & H & ->);
    [|apply keeps_state_ensure].
  apply Exists_app. right.
  apply ensure_file_exists_returns in Hdisk as ->.
  unfold final_model_params. cbn zeta in *.
  destruct (use_architectureal_fvp lopts) eqn:Harch.
  - by eapply launch_architectural_launches.
  - by apply launch_morello_launches.
Qed.

(** *** The architectural FVP is launched when nothing is missing *)

Lemma launch_architectural_ready (mp : list string) (s : State) :
  pretend cfg = true \/
  (truthy (license_server s) = true /\
   is_dir host (arch_model_path lopts) = true /\
   path_exists host
     (arch_model_path lopts </> "models/Linux64_GCC-6.4/FVP_Base_RevC-Rainier") = true /\
   path_exists host
     (arch_model_path lopts </> "plugins/Linux64_GCC-6.4/MorelloPlugin.so") = true /\
   path_exists host (firmware_path lopts </> "bl1.bin") = true /\
   path_exists host (firmware_path lopts </> "fip.bin") = true) ->
  Exists
    (launch_with (prepend_C (architectural_model_params mp
       (firmware_path lopts </> "fip.bin") (firmware_path lopts </> "bl1.bin"))))
    (events (launch_architectural cfg host lopts mp s)).
Proof.
  intros Hready. unfold launch_architectural.
  rewrite events_bind. cbn [gets events outcome final fst snd app].
  assert (H1 : exists w s',
    when (negb (truthy (license_server s)))
      (modify (set_license_server "unknown.license.server") ;;
       fatal cfg ["License server info unknown, set the";
                  "--" +:+ option_name host "license_server";
                  "config option!"] " " None) s = (w, s', Ret tt)).
  { destruct (truthy (license_server s)) eqn:E; cbn [negb when].
    - by eexists _, _.
    - destruct Hready as [H|[H _]]; [|discriminate H].
      unfold bind at 1, modify. rewrite fatal_pretend by assumption.
      by eexists _, _. }
  destruct H1 as (w1 & s1 & H1). rewrite events_bind, H1.
  cbn [events outcome final fst snd]. apply Exists_app. right.
  assert (H2 : exists w,
    when (negb (is_dir host (arch_model_path lopts)))
      (fatal cfg ["FVP path"; arch_model_path lopts; "does not exist, set the";
                  "--" +:+ option_name host "simulator_path"; "config option!"]
             " " None) s1 = (w, s1, Ret tt)).
  { destruct (is_dir host (arch_model_path lopts)) eqn:E; cbn [negb when].
    - by eexists.
    - destruct Hready as [H|(_ & H & _)]; [|discriminate H].
      rewrite fatal_pretend by assumption. by eexists. }
  destruct H2 as (w2 & H2). rewrite events_bind, H2.
  cbn [events outcome final fst snd]. apply Exists_app. right.
  rewrite events_bind. cbn [gets events outcome final fst snd app].
  unfold with_set_env. rewrite events_bind.
  cbn [emit events outcome final fst snd]. apply Exists_app. right.
  rewrite events_try_finally. apply Exists_app. left.
  destruct (ensure_file_exists_run cfg host "Model binary"
              (arch_model_path lopts </> "models/Linux64_GCC-6.4/FVP_Base_RevC-Rainier") s1)
    as (w3 & H3 & _).
  { destruct Hready as [H|(_ & _ & H & _)]; [by right|by left]. }
  rewrite events_bind, H3. cbn [events outcome final fst snd].
  apply Exists_app. right.
  destruct (ensure_file_exists_run cfg host "Morello FVP plugin"
              (arch_model_path lopts </> "plugins/Linux64_GCC-6.4/MorelloPlugin.so") s1)
    as (w4 & H4 & _).
  { destruct Hready as [H|(_ & _ & _ & H & _)]; [by right|by left]. }
  rewrite events_bind, H4. cbn [events outcome final fst snd].
  apply Exists_app. right.
  destruct (ensure_file_exists_run cfg host "bl1.bin firmware"
              (firmware_path lopts </> "bl1.bin") s1) as (w5 & H5 & _).
  { destruct Hready as [H|(_ & _ & _ & _ & H & _)]; [by right|by left]. }
  rewrite events_bind, H5. cbn [events outcome final fst snd].
  apply Exists_app. right.
  destruct (ensure_file_exists_run cfg host "fip.bin firmware"
              (firmware_path lopts </> "fip.bin") s1) as (w6 & H6 & _).
  { destruct Hready as [H|(_ & _ & _ & _ & _ & H)]; [by right|by left]. }
  rewrite events_bind, H6. cbn [events outcome final fst snd]. cbn zeta.
  apply Exists_app. right.
  rewrite events_bind, events_run_cmd. apply Exists_app. left.
  constructor. split.
  - right. right. right. left. reflexivity.
  - exists [arch_model_path lopts </> "models/Linux64_GCC-6.4/FVP_Base_RevC-Rainier";
            "--plugin";
            arch_model_path lopts </> "plugins/Linux64_GCC-6.4/MorelloPlugin.so";
            "--print-port-number"], [].
    rewrite app_nil_r. reflexivity.
Qed.

Lemma launch_process_launches_ready (s : State) :
  use_architectureal_fvp lopts = true ->
  pretend cfg = true \/ architectural_ready host lopts deps s = true ->
  Exists (launch_with (prepend_C (final_model_params cfg host iopts lopts deps s)))
         (events (launch_process cfg host iopts lopts deps s)).
Proof.
  intros Harch Hready.
  assert (Hreach : pretend cfg = true \/
                   (path_exists host (firmware_path lopts) = true /\
                    path_exists host (disk_image_path deps) = true)).
  { destruct Hready as [H|H]; [by left|right].
    unfold architectural_ready in H. rewrite !andb_true_iff in H. tauto. }
  destruct (launch_process_reaches_branch cfg host iopts lopts deps s Hreach)
    as (pre & -> & _).
  unfold final_model_params. rewrite Harch. cbn zeta.
  apply Exists_app. right. apply launch_architectural_ready.
  destruct Hready as [H|H]; [by left|right].
  unfold architectural_ready in H. rewrite !andb_true_iff in H. tauto.
Qed.

(** *** The board parameters among the final parameters *)

Lemma final_model_params_board (s : State) :
  exists rest,
    final_model_params cfg host iopts lopts deps s =
    board_model_params lopts (disk_image_path deps) ++ rest.
Proof.
  unfold final_model_params. cbn zeta.
  destruct (use_architectureal_fvp lopts).
  - eexists. reflexivity.
  - unfold morello_model_params. destruct (_ >? _)%Z; eexists;
      rewrite <- ?app_assoc; reflexivity.
Qed.

(** Consecutive board parameters [xs] give the consecutive arguments
    [prepend_C xs] of [fvp_args]. *)
Lemma fvp_args_board (l xs r : list string) (s : State) :
  board_model_params lopts (disk_image_path deps) = l ++ xs ++ r ->
  exists l' r',
    prepend_C (final_model_params cfg host iopts lopts deps s) =
    l' ++ prepend_C xs ++ r'.
Proof.
  intros Hboard. destruct (final_model_params_board s) as [rest ->].
  rewrite Hboard, !prepend_C_app.
  exists (prepend_C l), (prepend_C r ++ prepend_C rest).
  by rewrite <- !app_assoc.
Qed.

Lemma final_model_params_no_virtio_net (s : State) :
  In (board_prefix lopts +:+ "smsc_91c111.enabled=1")
     (final_model_params cfg host iopts lopts deps s) /\
  ~ In (board_prefix lopts +:+ "virtio_net.enabled=1")
       (final_model_params cfg host iopts lopts deps s) /\
  (forall p, In p (final_model_params cfg host iopts lopts deps s) ->
     String.prefix (board_prefix lopts +:+ "virtio_net.hostbridge.") p = false).
Proof.
  split; [|split].
  - destruct (final_model_params_board s) as [rest ->].
    apply in_or_app. left. rewrite board_model_params_eq. left. reflexivity.
  - unfold final_model_params, architectural_model_params, morello_model_params.
    cbn zeta. rewrite board_model_params_eq. unfold board_prefix.
    destruct (use_architectureal_fvp lopts); try destruct (_ >? _)%Z;
      cbn; intros H; in_cases H.
  - intros p.
    unfold final_model_params, architectural_model_params, morello_model_params.
    cbn zeta. rewrite board_model_params_eq. unfold board_prefix.
    destruct (use_architectureal_fvp lopts); try destruct (_ >? _)%Z;
      cbn [map app In]; intros H;
      repeat (destruct H as [<-|H]; [reflexivity|]); destruct H.
Qed.

End Launching.

(** C1.  [fvp_args] is twice as long as [model_params]; its arguments at
    the positions [2i] and [2i+1] are ["-C"] and the [i]-th parameter, in
    the order of [model_params], and there are no others.  In every run of
    [LaunchFVPBase.process], on every host and for every configuration,
    each command that launches a simulator has among its arguments the
    list [fvp_args] computed from the final [model_params] of that run;
    every run that returns has launched a simulator with these arguments;
    and the architectural FVP is launched with them in pretend mode, and
    whenever nothing it needs is missing. *)
Theorem fvp_args_pass_every_parameter :
  (forall mp : list string, length (prepend_C mp) = 2 * length mp) /\
  (forall (mp : list string) (i : nat),
      prepend_C mp !! (2 * i) = (fun _ => "-C") <$> mp !! i /\
      prepend_C mp !! (2 * i + 1) = mp !! i) /\
  (forall cfg host iopts lopts deps s,
      Forall (passes_args (prepend_C (final_model_params cfg host iopts lopts deps s)))
             (events (launch_process cfg host iopts lopts deps s)) /\
      (outcome (launch_process cfg host iopts lopts deps s) = Ret tt ->
       Exists (launch_with (prepend_C (final_model_params cfg host iopts lopts deps s)))
              (events (launch_process cfg host iopts lopts deps s))) /\
      (use_architectureal_fvp lopts = true ->
       pretend cfg = true \/ architectural_ready host lopts deps s = true ->
       Exists (launch_with (prepend_C (final_model_params cfg host iopts lopts deps s)))
              (events (launch_process cfg host iopts lopts deps s)))).
Proof.
  split; [exact prepend_C_length|]. split; [exact prepend_C_lookup|].
  intros cfg host iopts lopts deps s. split; [|split].
  - apply launch_process_passes.
  - apply launch_process_launches.
  - apply launch_process_launches_ready.
Qed.

(** The architectural FVP on a host where nothing is missing, and the
    Morello FVP installed without docker: both runs launch the simulator
    with every parameter behind a ["-C"]. *)
Lemma fvp_args_pass_every_parameter_witness :
  length (prepend_C ["pctl.startup=0.0.0.0"; "bp.secure_memory=0"]) = 4 /\
  prepend_C ["pctl.startup=0.0.0.0"; "bp.secure_memory=0"] !! 3
    = Some "bp.secure_memory=0" /\
  Exists (launch_with
            (prepend_C (final_model_params building working_host installer_sh
                          architectural images licensed)))
    (events (launch_process building working_host installer_sh
               architectural images licensed)) /\
  Exists (launch_with
            (prepend_C (final_model_params building working_host native_install
                          morello images fresh)))
    (events (launch_process building working_host native_install
               morello images fresh)) /\
  final_model_params building working_host native_install morello images fresh =
  ["board.smsc_91c111.enabled=1";
   "board.hostbridge.userNetworking=true";
   "board.hostbridge.userNetPorts=12345=22";
   "board.hostbridge.interfaceName=ARM0";
   "board.virtio_net.transport=legacy";
   "board.virtio_rng.transport=legacy";
   "board.virtioblockdevice.image_path=/out/cheribsd.img";
   "displayController=0";
   "board.virtio_rng.enabled=1";
   "board.virtio_rng.seed=0";
   "board.virtio_rng.generator=2"].
Proof.
  destruct fvp_args_pass_every_parameter as (Hlen & Hlookup & Hrun).
  split; [|split; [|split; [|split]]].
  - exact (Hlen ["pctl.startup=0.0.0.0"; "bp.secure_memory=0"]).
  - exact (proj2 (Hlookup ["pctl.startup=0.0.0.0"; "bp.secure_memory=0"] 1)).
  - apply (proj2 (proj2 (Hrun building working_host installer_sh
                           architectural images licensed)));
      [reflexivity|right; reflexivity].
  - apply (proj1 (proj2 (Hrun building working_host native_install
                           morello images fresh))).
    reflexivity.
  - reflexivity.
Defined.

Lemma Exists_launch_sub (l xs r : list string) (t : list event) :
  Exists (launch_with (l ++ xs ++ r)) t -> Exists (launch_with xs) t.
Proof.
  intros H. induction H as [e t He|e t _ IH].
  - left. by eapply launch_with_sub.
  - by right.
Qed.

(** C6.  Board parameters are prefixed [bp.] when
    [use_architectureal_fvp] is set and [board.] otherwise: every
    parameter of lines 264 to 290 starts with that prefix.  The three
    hostbridge parameters follow the first board parameter, as
    [<prefix>hostbridge.userNetworking=true],
    [<prefix>hostbridge.userNetPorts=<ssh_port>=22] and
    [<prefix>hostbridge.interfaceName=ARM0]; in every run of [process]
    each command that launches a simulator has them among its arguments,
    each behind a ["-C"], in that order; every run that returns has
    launched a simulator with them; and the architectural FVP is launched
    with them in pretend mode, and whenever nothing it needs is missing. *)
Theorem hostbridge_params_emitted (lopts : LaunchOptions) :
  board_prefix lopts = (if use_architectureal_fvp lopts then "bp." else "board.") /\
  (forall disk_image,
      exists first rest,
        board_model_params lopts disk_image =
        first ::
        [board_prefix lopts +:+ "hostbridge.userNetworking=true";
         board_prefix lopts +:+ "hostbridge.userNetPorts=" +:+
           str_int (ssh_port lopts) +:+ "=22";
         board_prefix lopts +:+ "hostbridge.interfaceName=ARM0"] ++ rest) /\
  (forall disk_image p, In p (board_model_params lopts disk_image) ->
      String.prefix (board_prefix lopts) p = true) /\
  (forall cfg host iopts deps s,
      Forall (passes_args (hostbridge_args lopts))
             (events (launch_process cfg host iopts lopts deps s)) /\
      (outcome (launch_process cfg host iopts lopts deps s) = Ret tt ->
       Exists (launch_with (hostbridge_args lopts))
              (events (launch_process cfg host iopts lopts deps s))) /\
      (use_architectureal_fvp lopts = true ->
       pretend cfg = true \/ architectural_ready host lopts deps s = true ->
       Exists (launch_with (hostbridge_args lopts))
              (events (launch_process cfg host iopts lopts deps s)))).
Proof.
  split; [reflexivity|]. split; [|split].
  - intros disk_image. eexists _, _. rewrite board_model_params_eq. reflexivity.
  - intros disk_image p. rewrite board_model_params_eq. unfold board_prefix.
    destruct (use_architectureal_fvp lopts); cbn [map In];
      intros H; repeat (destruct H as [<-|H]; [reflexivity|]); destruct H.
  - intros cfg host iopts deps s.
    destruct (fvp_args_board cfg host iopts lopts deps
      [board_prefix lopts +:+ "smsc_91c111.enabled=1"]
      [board_prefix lopts +:+ "hostbridge.userNetworking=true";
       board_prefix lopts +:+ "hostbridge.userNetPorts=" +:+
         str_int (ssh_port lopts) +:+ "=22";
       board_prefix lopts +:+ "hostbridge.interfaceName=ARM0"]
      (map (fun p => board_prefix lopts +:+ p)
         ["virtio_net.transport=legacy";
          "virtio_rng.transport=legacy";
          "virtioblockdevice.image_path=" +:+ disk_image_path deps]) s)
      as (l' & r' & Hargs).
    { rewrite board_model_params_eq. reflexivity. }
    change (prepend_C _) with (hostbridge_args lopts) in Hargs at 2.
    pose proof (launch_process_passes cfg host iopts lopts deps s) as Hsafe.
    pose proof (launch_process_launches cfg host iopts lopts deps s) as Hret.
    pose proof (launch_process_launches_ready cfg host iopts lopts deps s) as Hready.
    rewrite Hargs in Hsafe, Hret, Hready.
    split; [|split].
    + eapply Forall_impl; [exact Hsafe|]. intros e. apply passes_args_sub.
    + intros H. eapply Exists_launch_sub. by apply Hret.
    + intros Harch H. eapply Exists_launch_sub. by apply Hready.
Qed.

(** The Morello FVP installed without docker, on a host where nothing is
    missing: the run launches the simulator with the three hostbridge
    parameters. *)
Lemma hostbridge_params_emitted_witness :
  board_prefix morello = "board." /\
  String.prefix "board." "board.hostbridge.userNetPorts=12345=22" = true /\
  Exists (launch_with ["-C"; "board.hostbridge.userNetworking=true";
                       "-C"; "board.hostbridge.userNetPorts=12345=22";
                       "-C"; "board.hostbridge.interfaceName=ARM0"])
    (events (launch_process building working_host native_install
               morello images fresh)) /\
  Exists (launch_with ["-C"; "bp.hostbridge.userNetworking=true";
                       "-C"; "bp.hostbridge.userNetPorts=12345=22";
                       "-C"; "bp.hostbridge.interfaceName=ARM0"])
    (events (launch_process pretending bare_host installer_sh
               architectural images fresh)).
Proof.
  destruct (hostbridge_params_emitted morello) as (Hprefix & _ & Hall & Hrun).
  destruct (hostbridge_params_emitted architectural) as (_ & _ & _ & Hrun').
  split; [exact Hprefix|]. split; [|split].
  - apply (Hall "/out/cheribsd.img" "board.hostbridge.userNetPorts=12345=22").
    vm_compute. right. right. left. reflexivity.
  - apply (proj1 (proj2 (Hrun building working_host native_install images fresh))).
    reflexivity.
  - apply (proj2 (proj2 (Hrun' pretending bare_host installer_sh images fresh)));
      [reflexivity|left; reflexivity].
Defined.

(** C8.  [use_virtio_net] is false, so the hostbridge parameters get no
    [virtio_net.] prefix, and in every run of [process] the final
    [model_params] holds [<prefix>smsc_91c111.enabled=1], does not hold
    [<prefix>virtio_net.enabled=1] and holds no parameter starting with
    [<prefix>virtio_net.hostbridge.]; each command that launches a
    simulator is passed that list, and has
    ["-C"; "<prefix>smsc_91c111.enabled=1"] among its arguments; every run
    that returns has launched a simulator with these arguments; and the
    architectural FVP is launched with them in pretend mode, and whenever
    nothing it needs is missing. *)
Theorem virtio_net_never_enabled :
  use_virtio_net = false /\
  hostbridge_prefix = "hostbridge." /\
  (forall cfg host iopts lopts deps s,
      In (board_prefix lopts +:+ "smsc_91c111.enabled=1")
         (final_model_params cfg host iopts lopts deps s) /\
      ~ In (board_prefix lopts +:+ "virtio_net.enabled=1")
           (final_model_params cfg host iopts lopts deps s) /\
      (forall p, In p (final_model_params cfg host iopts lopts deps s) ->
         String.prefix (board_prefix lopts +:+ "virtio_net.hostbridge.") p = false)) /\
  (forall cfg host iopts lopts deps s,
      Forall (passes_args (prepend_C (final_model_params cfg host iopts lopts deps s)))
             (events (launch_process cfg host iopts lopts deps s)) /\
      Forall (passes_args ["-C"; board_prefix lopts +:+ "smsc_91c111.enabled=1"])
             (events (launch_process cfg host iopts lopts deps s)) /\
      (outcome (launch_process cfg host iopts lopts deps s) = Ret tt ->
       Exists (launch_with ["-C"; board_prefix lopts +:+ "smsc_91c111.enabled=1"])
              (events (launch_process cfg host iopts lopts deps s))) /\
      (use_architectureal_fvp lopts = true ->
       pretend cfg = true \/ architectural_ready host lopts deps s = true ->
       Exists (launch_with ["-C"; board_prefix lopts +:+ "smsc_91c111.enabled=1"])
              (events (launch_process cfg host iopts lopts deps s)))).
Proof.
  split; [reflexivity|]. split; [reflexivity|]. split.
  - intros. apply final_model_params_no_virtio_net.
  - intros cfg host iopts lopts deps s.
    destruct (fvp_args_board cfg host iopts lopts deps []
      [board_prefix lopts +:+ "smsc_91c111.enabled=1"]
      (map (fun p => board_prefix lopts +:+ p)
         ["hostbridge.userNetworking=true";
          "hostbridge.userNetPorts=" +:+ str_int (ssh_port lopts) +:+ "=22";
          "hostbridge.interfaceName=ARM0";
          "virtio_net.transport=legacy";
          "virtio_rng.transport=legacy";
          "virtioblockdevice.image_path=" +:+ disk_image_path deps]) s)
      as (l' & r' & Hargs).
    { rewrite board_model_params_eq. reflexivity. }
    change (prepend_C [_]) with ["-C"; board_prefix lopts +:+ "smsc_91c111.enabled=1"]
      in Hargs.
    pose proof (launch_process_passes cfg host iopts lopts deps s) as Hsafe.
    pose proof (launch_process_launches cfg host iopts lopts deps s) as Hret.
    pose proof (launch_process_launches_ready cfg host iopts lopts deps s) as Hready.
    split; [exact Hsafe|].
    rewrite Hargs in Hsafe, Hret, Hready.
    split; [|split].
    + eapply Forall_impl; [exact Hsafe|]. intros e. apply passes_args_sub.
    + intros H. eapply Exists_launch_sub. by apply Hret.
    + intros Harch H. eapply Exists_launch_sub. by apply Hready.
Qed.

(** The Morello FVP installed without docker, on a host where nothing is
    missing: the final parameters enable the smsc network device and not
    virtio-net, and the run launches the simulator with them. *)
Lemma virtio_net_never_enabled_witness :
  In "board.smsc_91c111.enabled=1"
     (final_model_params building working_host native_install morello images fresh) /\
  ~ In "board.virtio_net.enabled=1"
       (final_model_params building working_host native_install morello images fresh) /\
  Exists (launch_with ["-C"; "board.smsc_91c111.enabled=1"])
    (events (launch_process building working_host native_install
               morello images fresh)) /\
  Exists (launch_with ["-C"; "bp.smsc_91c111.enabled=1"])
    (events (launch_process building working_host installer_sh
               architectural images licensed)).
Proof.
  destruct virtio_net_never_enabled as (_ & _ & Hparams & Hrun).
  destruct (Hparams building working_host native_install morello images fresh)
    as (Hin & Hout & _).
  split; [exact Hin|]. split; [exact Hout|]. split.
  - apply (proj1 (proj2 (proj2 (Hrun building working_host native_install
                                  morello images fresh)))).
    reflexivity.
  - apply (proj2 (proj2 (proj2 (Hrun building working_host installer_sh
                                  architectural images licensed))));
      [reflexivity|right; reflexivity].
Defined.

End FVPProps.

(** * Further properties *)

Module MoreProps.
Import FVP FVPSpec Examples More MoreSpec FVPProps.

(** ** LaunchFVPBase.default_ssh_port *)

(** X1.  The default ssh port is a port above the well-known ones and
    below 65536: it lies between 12345 and 22344, whatever the user id. *)
Theorem default_ssh_port_range (uid : Z) :
  (12345 <= default_ssh_port uid <= 22344)%Z /\
  (1024 <= default_ssh_port uid < 65536)%Z.
Proof.
  unfold default_ssh_port.
  pose proof (Z.mod_pos_bound (uid - 1000) 10000 ltac:(lia)). lia.
Qed.

(** X2.  Two users whose ids differ, by less than 10000, get different
    default ports. *)
Theorem default_ssh_port_distinct (uid1 uid2 : Z) :
  uid1 <> uid2 -> (Z.abs (uid1 - uid2) < 10000)%Z ->
  default_ssh_port uid1 <> default_ssh_port uid2.
Proof.
  unfold default_ssh_port. intros Hne Hclose Heq.
  assert (H : ((uid1 - 1000) mod 10000 = (uid2 - 1000) mod 10000)%Z) by lia.
  pose proof (Z.div_mod (uid1 - 1000) 10000 ltac:(lia)).
  pose proof (Z.div_mod (uid2 - 1000) 10000 ltac:(lia)).
  nia.
Qed.

Lemma default_ssh_port_distinct_witness :
  default_ssh_port 1000 <> default_ssh_port 1001.
Proof.
  apply default_ssh_port_distinct; [discriminate|reflexivity].
Defined.

(** ** The cached properties of InstallMorelloFVP *)

Section Cached.
Variable cfg : CheriConfig.
Variable host : Host.
Variable iopts : InstallOptions.

(** X3.  The revision of the FVP is determined once per instance: after
    any access to [fvp_revision], a further access returns the same
    value, runs no command, gives no warning and leaves the instance as
    it is. *)
Theorem fvp_revision_read_once (s : State) :
  fvp_revision cfg host iopts (final (fvp_revision cfg host iopts s)) =
  ([], final (fvp_revision cfg host iopts s),
   outcome (fvp_revision cfg host iopts s)).
Proof.
  destruct (fvp_revision_run cfg host iopts s) as (t & n & Hrun & Hcache).
  rewrite Hrun. cbn [final outcome fst snd].
  by apply fvp_revision_cached.
Qed.

Lemma docker_memory_size_cached (s : State) (v : Z) :
  docker_memory_size_cache s = Some v ->
  docker_memory_size host iopts s = ([], s, Ret v).
Proof. intros H. unfold docker_memory_size, cached_property. by rewrite H. Qed.

(** X4.  [docker_memory_size], on its first access.  Without the docker
    container the assertion fails and nothing is run.  When the query
    fails, its exception goes to the caller and nothing is cached, so
    the next access asks again.  When the query completes, an integer is
    returned and cached: the second field of the output times 1024, or 0,
    after a warning, when the output cannot be parsed. *)
Theorem docker_memory_size_first_access (s : State) :
  docker_memory_size_cache s = None ->
  (use_docker_container iopts = false ->
   docker_memory_size host iopts s =
   ([], s, Raise (PyException EmptyString))) /\
  (use_docker_container iopts = true ->
   forall what, cmd_result host memory_query = Failed what ->
   docker_memory_size host iopts s =
   ([ERunCmd memory_query None], s, Raise (PyException what))) /\
  (use_docker_container iopts = true ->
   forall out, cmd_result host memory_query = Completed out ->
   let said := [ERunCmd memory_query None;
                EVerbosePrint ("Docker memory total: " +:+ out)] in
   docker_memory_size host iopts s =
   match parse_memtotal host out with
   | inl mem => (said, store_docker_memory_size mem s, Ret mem)
   | inr e => (said ++ [memory_unknown e], store_docker_memory_size 0 s, Ret 0%Z)
   end).
Proof.
  intros Hcache. unfold docker_memory_size, cached_property. rewrite Hcache.
  unfold docker_memory_size_body, memory_query, parse_memtotal, memory_unknown.
  split; [|split].
  - intros ->. reflexivity.
  - intros -> what Hq.
    unfold run_cmd, bind, emit, ret, raise, assert_. rewrite Hq. reflexivity.
  - intros -> out Hq. cbn zeta.
    unfold run_cmd, verbose_print, try_except, int_, warning, modify,
      bind, emit, ret, raise, assert_.
    rewrite Hq. cbn.
    destruct (py_split host out) as [|f0 [|field rest]]; cbn; try reflexivity.
    destruct (py_int host field); reflexivity.
Qed.

(** X5.  The check of the memory of the container, once the size [mem]
    is known: below 4900 MB it is a fatal error, with a hint to change
    the docker settings, and outside pretend mode it ends [execute_fvp];
    from 4900 MB and below 7900 MB it is a warning and the run goes on;
    from 7900 MB on nothing is said.  Both messages give the size in MB. *)
Theorem check_docker_memory_thresholds (s : State) (mem : Z) :
  docker_memory_size_cache s = Some mem ->
  check_docker_memory cfg host iopts s =
  if (mem <? 4900 * 1024 * 1024)%Z then
    ([memory_fatal host mem], s, if pretend cfg then Ret tt else Raise SystemExit)
  else if (mem <? 7900 * 1024 * 1024)%Z then
    ([memory_warning host mem], s, Ret tt)
  else ([], s, Ret tt).
Proof.
  intros Hcache. unfold check_docker_memory.
  unfold bind at 1. rewrite (docker_memory_size_cached s mem Hcache).
  change (min_ram_mb * 1024 * 1024)%Z with (4900 * 1024 * 1024)%Z.
  destruct (mem <? 4900 * 1024 * 1024)%Z.
  - unfold bind at 1. rewrite (docker_memory_size_cached s mem Hcache).
    unfold fatal, bind, emit, ret, raise, memory_fatal.
    destruct (pretend cfg); reflexivity.
  - unfold bind at 1. rewrite (docker_memory_size_cached s mem Hcache).
    change (warn_ram_mb * 1024 * 1024)%Z with (7900 * 1024 * 1024)%Z.
    destruct (mem <? 7900 * 1024 * 1024)%Z; cbn [when]; [|reflexivity].
    unfold bind at 1. rewrite (docker_memory_size_cached s mem Hcache).
    reflexivity.
Qed.

End Cached.

Lemma docker_memory_size_first_access_witness :
  docker_memory_size broken_host installer_sh fresh =
  ([ERunCmd memory_query None], fresh, Raise (PyException "exit status 1")) /\
  docker_memory_size working_host installer_sh fresh =
  ([ERunCmd memory_query None; EVerbosePrint "Docker memory total: ";
    memory_unknown "list index out of range"],
   store_docker_memory_size 0 fresh, Ret 0%Z).
Proof.
  split.
  - apply (proj1 (proj2 (docker_memory_size_first_access broken_host
                           installer_sh fresh eq_refl)) eq_refl "exit status 1" eq_refl).
  - apply (proj2 (proj2 (docker_memory_size_first_access working_host
                           installer_sh fresh eq_refl)) eq_refl EmptyString eq_refl).
Defined.


Lemma check_docker_memory_thresholds_witness :
  check_docker_memory building working_host installer_sh
    (mkState None (Some (4096 * 1024 * 1024)%Z) None) =
  ([memory_fatal working_host (4096 * 1024 * 1024)],
   mkState None (Some (4096 * 1024 * 1024)%Z) None, Raise SystemExit) /\
  memory_fatal working_host (4096 * 1024 * 1024) =
  EFatal "Docker container has less than 4900MB of RAM (4096MB), this is not enough to run the FVP!"
    (Some ("Change the docker settings to allow at least 5GB (8GB recommended) of RAM for containers. This setting can be changed under "
           +:+ dquote +:+ "Preferences > Resources > Advanced" +:+ dquote +:+ ".")).
Proof.
  split; [|reflexivity].
  apply (check_docker_memory_thresholds building working_host installer_sh
           (mkState None (Some (4096 * 1024 * 1024)%Z) None) (4096 * 1024 * 1024)
           eq_refl).
Defined.

(** ** InstallMorelloFVP.process: the temporary directory and the image *)

Lemma rsplit_last (c : ascii) (a b : string) :
  rsplit c b = None -> rsplit c (a +:+ String c b) = Some (a, b).
Proof.
  intros Hb. induction a as [|x a IH]; simpl.
  - rewrite Hb. by rewrite Ascii.eqb_refl.
  - by rewrite IH.
Qed.

Lemma rsplit_app_none (c : ascii) (p q : string) :
  rsplit c q = None ->
  rsplit c (p +:+ q) =
  match rsplit c p with
  | Some (before, after) => Some (before, after +:+ q)
  | None => None
  end.
Proof.
  intros Hq. induction p as [|x p IH]; simpl.
  - exact Hq.
  - rewrite IH. destruct (rsplit c p) as [[before after]|]; [reflexivity|].
    by destruct (Ascii.eqb x c).
Qed.

(** The three shapes of [p </> q] for a component [q] that is not empty,
    not [.] and not absolute. *)
Lemma path_join_cases (p : Path) (c : ascii) (q : string) :
  String.eqb (String c q) "." = false -> Ascii.eqb c slash = false ->
  (p = "." /\ p </> String c q = String c q) \/
  (is_root p = true /\ p </> String c q = p +:+ String c q) \/
  p </> String c q = p +:+ String slash (String c q).
Proof.
  intros Hdot Hslash. unfold path_join. rewrite Hdot, Hslash.
  destruct (String.eqb p ".") eqn:Hp.
  - left. apply String.eqb_eq in Hp. by split.
  - destruct (is_root p) eqn:Hroot; [right; left; by split|right; right; reflexivity].
Qed.

Lemma fallback_installer_suffix (td : Path) :
  path_suffix (td </> "FVP_Morello.sh") = ".sh".
Proof.
  destruct (path_join_cases td "F" "VP_Morello.sh" eq_refl eq_refl)
    as [[_ ->]|[[Hroot ->]| ->]].
  - reflexivity.
  - unfold path_suffix, path_name. rewrite rsplit_app_none by reflexivity.
    unfold is_root in Hroot.
    destruct (rsplit slash td) as [[before [|? ?]]|]; try discriminate Hroot.
    reflexivity.
  - unfold path_suffix, path_name. rewrite rsplit_last by reflexivity. reflexivity.
Qed.

Section Image.
Variable cfg : CheriConfig.
Variable host : Host.
Variable iopts : InstallOptions.

Lemma install_from_no_temp_event (p td : Path) :
  always (fun e => temp_event e = false) (install_from cfg host iopts p td).
Proof. repeat always_step. all: reflexivity. Qed.

(** The installer path is set: what [process] does around the [with]
    statement. *)
Lemma install_process_events (p : Path) (s : State) :
  installer_path iopts = Some p ->
  events (install_process cfg host iopts s) =
  (if is_file host p then [] else [installer_missing p]) ++
  if is_file host p || pretend cfg
  then EMkTemp (tmpdir host)
       :: events (install_from cfg host iopts p (tmpdir host) s)
       ++ [ERmTemp (tmpdir host)]
  else [].
Proof.
  intros Hp. unfold install_process. rewrite Hp. rewrite events_bind.
  destruct (is_file host p); cbn [negb when orb].
  - cbn [ret events outcome final fst snd app].
    unfold with_temporary_directory. cbn zeta.
    rewrite events_bind. cbn [emit events outcome final fst snd app].
    by rewrite events_try_finally.
  - destruct (pretend cfg) eqn:Hpretend.
    + rewrite fatal_pretend by assumption.
      cbn [events outcome final fst snd app].
      unfold with_temporary_directory. cbn zeta.
      rewrite events_bind. cbn [emit events outcome final fst snd app].
      by rewrite events_try_finally.
    + rewrite fatal_exits by assumption. reflexivity.
Qed.

(** X6.  The temporary directory of [process] is removed however the
    extraction, the installer and the image build end: a run that
    creates it creates it once, and its removal is the last event.  When
    the installer path is unset nothing is created and nothing is run. *)
Theorem temporary_directory_is_removed (s : State) :
  (installer_path iopts = None ->
   Forall (fun e => temp_event e = false /\ is_run_cmd e = false)
          (events (install_process cfg host iopts s))) /\
  (forall td, In (EMkTemp td) (events (install_process cfg host iopts s)) ->
   exists pre body,
     events (install_process cfg host iopts s) =
     pre ++ EMkTemp (tmpdir host) :: body ++ [ERmTemp (tmpdir host)] /\
     Forall (fun e => temp_event e = false) pre /\
     Forall (fun e => temp_event e = false) body).
Proof.
  split.
  - intros Hunset. rewrite (install_process_unset cfg host iopts s Hunset).
    by repeat constructor.
  - intros td Hin.
    destruct (installer_path iopts) as [p|] eqn:Hp.
    + rewrite (install_process_events p s Hp) in *.
      assert (Hpre : Forall (fun e => temp_event e = false)
                            (if is_file host p then [] else [installer_missing p])).
      { destruct (is_file host p); by repeat constructor. }
      destruct (is_file host p || pretend cfg).
      * eexists _, _. split; [reflexivity|]. split; [exact Hpre|].
        apply install_from_no_temp_event.
      * exfalso. rewrite app_nil_r in Hin. rewrite Forall_forall in Hpre.
        apply list_elem_of_In, Hpre in Hin. discriminate Hin.
    + rewrite (install_process_unset cfg host iopts s Hp) in Hin.
      destruct Hin as [Hin|[]]. discriminate Hin.
Qed.

Lemma install_process_no_image :
  use_docker_container iopts = false ->
  always (fun e => image_event e = false) (install_process cfg host iopts).
Proof.
  intros Hdocker. unfold install_process, with_temporary_directory, install_from.
  rewrite Hdocker. cbn [when].
  repeat always_step. all: reflexivity.
Qed.

Lemma build_flags_spec :
  (In "--pull" (build_flags cfg) <-> skip_update cfg = false) /\
  (In "--no-cache" (build_flags cfg) <-> clean cfg = true).
Proof.
  unfold build_flags. destruct (skip_update cfg), (clean cfg); cbn; split; split;
    intros H; try reflexivity; try discriminate H; in_cases H; auto.
Qed.

(** X7.  Without the docker container [process] builds no image: it
    copies no installer, writes no Dockerfile and runs no [docker
    build].  With it, and when the installer is there and every command
    succeeds, the run returns and ends by writing the Dockerfile for the
    installer into the temporary directory, running [docker build] in
    that directory and removing the directory; [--pull] is passed unless
    updates are skipped and [--no-cache] when a clean build is asked
    for. *)
Theorem docker_image_is_built (s : State) :
  (use_docker_container iopts = false ->
   Forall (fun e => image_event e = false)
          (events (install_process cfg host iopts s))) /\
  (forall p, use_docker_container iopts = true ->
   installer_path iopts = Some p -> is_file host p = true ->
   (forall argv, exists out, cmd_result host argv = Completed out) ->
   outcome (install_process cfg host iopts s) = Ret tt /\
   exists pre,
     events (install_process cfg host iopts s) =
     pre ++ [EWriteFile (tmpdir host </> "Dockerfile")
               (dockerfile (path_name (installer_sh_of host p (tmpdir host))));
             docker_build_run cfg (tmpdir host);
             ERmTemp (tmpdir host)]) /\
  (In "--pull" (build_flags cfg) <-> skip_update cfg = false) /\
  (In "--no-cache" (build_flags cfg) <-> clean cfg = true).
Proof.
  split; [|split; [|apply build_flags_spec]].
  - intros Hdocker. by apply install_process_no_image.
  - intros p Hdocker Hp Hfile Hcmds.
    assert (Hrun : forall argv cwd s',
               exists out, run_cmd host argv cwd s' = ([ERunCmd argv cwd], s', Ret out)).
    { intros argv cwd s'. destruct (Hcmds argv) as [out Hout].
      exists out. by apply run_cmd_completed. }
    unfold install_process. rewrite Hp, Hfile. cbn [negb when].
    unfold with_temporary_directory, install_from, try_finally. cbn zeta.
    rewrite Hdocker.
    set (td := tmpdir host). set (sh := installer_sh_of host p td).
    destruct (Hrun ["tar"; "xf"; p; "-C"; td] None s) as [o1 H1].
    destruct (Hrun ([sh; "--destination"; install_dir cfg] ++ eula_args iopts) None s)
      as [o2 H2].
    destruct (Hrun (["docker"; "build"] ++ build_flags cfg ++ ["-t"; container_name; "."])
                (Some td) s) as [o3 H3].
    unfold warning.
    destruct (String.eqb (path_suffix p) ".tgz"),
             (negb (String.eqb (path_suffix sh) ".sh")),
             (negb (String.eqb (path_parent sh) td)).
    all: unfold when, bind, emit, ret.
    all: repeat (progress (cbn beta iota; rewrite ?H1, ?H2, ?H3)).
    all: cbn [outcome events fst snd app]; (split; [reflexivity|]).
    all: unfold docker_build_run.
    all: lazymatch goal with
         | |- exists pre, ?l = _ =>
             exists (take (length l - 3) l); cbn [length Nat.sub take app];
             reflexivity
         end.
Qed.

End Image.

Lemma docker_image_is_built_witness :
  outcome (install_process building working_host installer_tgz fresh) = Ret tt /\
  exists pre,
    events (install_process building working_host installer_tgz fresh) =
    pre ++ [EWriteFile "/tmp/tmpfvp/Dockerfile" (dockerfile "FVP_Morello_0.11.sh");
            ERunCmd ["docker"; "build"; "--pull"; "-t"; "morello-fvp"; "."]
                    (Some "/tmp/tmpfvp");
            ERmTemp "/tmp/tmpfvp"].
Proof.
  apply (proj1 (proj2 (docker_image_is_built building working_host installer_tgz fresh))
           "/dl/FVP_Morello_0.11.tgz" eq_refl eq_refl eq_refl).
  intros argv. exists EmptyString. reflexivity.
Defined.

Lemma temporary_directory_is_removed_witness :
  exists pre body,
    events (install_process building working_host installer_tgz fresh) =
    pre ++ EMkTemp "/tmp/tmpfvp" :: body ++ [ERmTemp "/tmp/tmpfvp"] /\
    Forall (fun e => temp_event e = false) pre /\
    Forall (fun e => temp_event e = false) body.
Proof.
  apply (proj2 (temporary_directory_is_removed building working_host installer_tgz
                  fresh) "/tmp/tmpfvp").
  vm_compute. left. reflexivity.
Defined.

Section Warning.
Variable cfg : CheriConfig.
Variable host : Host.
Variable iopts : InstallOptions.

Lemma install_from_no_warning (p td : Path) :
  path_suffix (installer_sh_of host p td) = ".sh" ->
  always (fun e => is_warning e = false) (install_from cfg host iopts p td).
Proof.
  intros Hsuffix. unfold install_from. cbn zeta. rewrite Hsuffix.
  change (negb (String.eqb ".sh" ".sh")) with false. cbn [when].
  repeat always_step. all: reflexivity.
Qed.

Lemma install_from_warns (p : Path) (s : State) :
  path_suffix (installer_sh_of host p (tmpdir host)) <> ".sh" ->
  (String.eqb (path_suffix p) ".tgz" = true ->
   exists out, cmd_result host ["tar"; "xf"; p; "-C"; tmpdir host] = Completed out) ->
  In (installer_warning (installer_sh_of host p (tmpdir host)))
     (events (install_from cfg host iopts p (tmpdir host) s)).
Proof.
  intros Hsuffix Htar. unfold install_from. rewrite events_bind.
  assert (Hfirst : exists w,
    when (String.eqb (path_suffix p) ".tgz")
         (run_cmd host ["tar"; "xf"; p; "-C"; tmpdir host] None ;; ret tt) s =
    (w, s, Ret tt)).
  { destruct (String.eqb (path_suffix p) ".tgz"); [|by eexists].
    destruct Htar as [out Hout]; [reflexivity|].
    unfold when, bind at 1. rewrite (run_cmd_completed host _ _ out) by assumption.
    by eexists. }
  destruct Hfirst as [w ->]. cbn [events outcome final fst snd]. cbn zeta.
  apply in_or_app. right. rewrite events_bind. apply in_or_app. left.
  apply String.eqb_neq in Hsuffix. rewrite Hsuffix. left. reflexivity.
Qed.

(** X8.  [process] warns about the installer exactly when the installer
    it is about to run does not have the suffix [.sh]: then the warning
    names that installer, and otherwise the run gives no warning at all.
    The installer it falls back to, when the archive holds no [*.sh]
    file, has the suffix, so the fallback is not warned about. *)
Theorem installer_warning_iff (p : Path) (s : State) :
  installer_path iopts = Some p ->
  (path_suffix (installer_sh_of host p (tmpdir host)) = ".sh" ->
   Forall (fun e => is_warning e = false)
          (events (install_process cfg host iopts s))) /\
  (path_suffix (installer_sh_of host p (tmpdir host)) <> ".sh" ->
   is_file host p = true \/ pretend cfg = true ->
   (path_suffix p = ".tgz" ->
    exists out, cmd_result host ["tar"; "xf"; p; "-C"; tmpdir host] = Completed out) ->
   In (installer_warning (installer_sh_of host p (tmpdir host)))
      (events (install_process cfg host iopts s))) /\
  (path_suffix p = ".tgz" -> glob_sh host (tmpdir host) = [] ->
   path_suffix (installer_sh_of host p (tmpdir host)) = ".sh").
Proof.
  intros Hp. rewrite (install_process_events cfg host iopts p s Hp).
  split; [|split].
  - intros Hsuffix. apply Forall_app. split.
    + destruct (is_file host p); by repeat constructor.
    + destruct (is_file host p || pretend cfg); [|constructor].
      constructor; [reflexivity|]. apply Forall_app. split.
      * by apply install_from_no_warning.
      * by repeat constructor.
  - intros Hsuffix Hreach Htar. apply in_or_app. right.
    assert (is_file host p || pretend cfg = true) as ->.
    { destruct Hreach as [-> | ->]; [reflexivity|apply orb_true_r]. }
    right. apply in_or_app. left. apply install_from_warns; [exact Hsuffix|].
    intros H. apply Htar. by apply String.eqb_eq.
  - intros Htgz Hglob. unfold installer_sh_of. rewrite Htgz, Hglob.
    change (String.eqb ".tgz" ".tgz") with true. apply fallback_installer_suffix.
Qed.

End Warning.

Lemma installer_warning_iff_witness :
  Forall (fun e => is_warning e = false)
         (events (install_process building working_host installer_tgz fresh)) /\
  In (installer_warning "/dl/FVP_Morello.run")
     (events (install_process building working_host
                (mkInstallOptions (Some "/dl/FVP_Morello.run") false false) fresh)) /\
  path_suffix (installer_sh_of (mac_host every_file succeeding)
                 "/dl/FVP_Morello_0.11.tgz" "/tmp/tmpfvp") = ".sh".
Proof.
  split; [|split].
  - apply (proj1 (installer_warning_iff building working_host installer_tgz
                    "/dl/FVP_Morello_0.11.tgz" fresh eq_refl)).
    vm_compute. reflexivity.
  - apply (proj1 (proj2 (installer_warning_iff building working_host
                    (mkInstallOptions (Some "/dl/FVP_Morello.run") false false)
                    "/dl/FVP_Morello.run" fresh eq_refl))).
    + vm_compute. discriminate.
    + left. reflexivity.
    + vm_compute. discriminate.
  - vm_compute. reflexivity.
Defined.

(** ** Fatal errors in and outside pretend mode *)

Create HintDb fvp_structure.
#[global] Hint Unfold warning verbose_print run_cmd read_file int_ popen
  ensure_file_exists with_temporary_directory with_set_env
  install_from install_process fvp_revision_body fvp_revision
  docker_memory_size_body docker_memory_size plugin_args check_docker_memory
  base_cmd run_simulator execute_fvp launch_architectural launch_morello
  launch_process run_tests : fvp_structure.

Lemma outcome_try_except {A : Type} (body : M A) (handler : string -> M A)
    (s : State) :
  outcome (try_except body handler s) =
  match outcome (body s) with
  | Raise (PyException what) => outcome (handler what (final (body s)))
  | other => other
  end.
Proof.
  unfold try_except, outcome, final.
  destruct (body s) as [[t1 s1] [a|[what|]]]; simpl; try reflexivity.
  by destruct (handler what s1) as [[t2 s2] r].
Qed.

Lemma events_try_except {A : Type} (body : M A) (handler : string -> M A)
    (s : State) :
  events (try_except body handler s) =
  events (body s) ++
  match outcome (body s) with
  | Raise (PyException what) => events (handler what (final (body s)))
  | _ => []
  end.
Proof.
  unfold try_except, events, outcome, final.
  destruct (body s) as [[t1 s1] [a|[what|]]]; simpl; rewrite ?app_nil_r;
    try reflexivity.
  by destruct (handler what s1) as [[t2 s2] r].
Qed.

Section NoExit.

Lemma no_exit_ret {A : Type} (a : A) : no_exit (ret a).
Proof. intros s. discriminate. Qed.

Lemma no_exit_raise {A : Type} (what : string) : no_exit (@raise A (PyException what)).
Proof. intros s. discriminate. Qed.

Lemma no_exit_gets {A : Type} (f : State -> A) : no_exit (gets f).
Proof. intros s. discriminate. Qed.

Lemma no_exit_modify (f : State -> State) : no_exit (modify f).
Proof. intros s. discriminate. Qed.

Lemma no_exit_emit (e : event) : no_exit (emit e).
Proof. intros s. discriminate. Qed.

Lemma no_exit_bind {A B : Type} (m : M A) (k : A -> M B) :
  no_exit m -> (forall a, no_exit (k a)) -> no_exit (bind m k).
Proof.
  intros Hm Hk s. rewrite outcome_bind. specialize (Hm s).
  destruct (outcome (m s)) as [a|e]; [apply Hk|].
  intros Heq. apply Hm. congruence.
Qed.

Lemma no_exit_when (c : bool) (body : M unit) : no_exit body -> no_exit (when c body).
Proof. intros H. destruct c; [exact H|apply no_exit_ret]. Qed.

Lemma no_exit_try_finally {A : Type} (body : M A) (cleanup : M unit) :
  no_exit body -> no_exit cleanup -> no_exit (try_finally body cleanup).
Proof.
  intros Hb Hc s. rewrite outcome_try_finally. specialize (Hc (final (body s))).
  destruct (outcome (cleanup (final (body s)))); [apply Hb|].
  intros Heq. apply Hc. congruence.
Qed.

Lemma no_exit_try_except {A : Type} (body : M A) (handler : string -> M A) :
  no_exit body -> (forall e, no_exit (handler e)) -> no_exit (try_except body handler).
Proof.
  intros Hb Hh s. rewrite outcome_try_except. specialize (Hb s).
  destruct (outcome (body s)) as [a|[what|]]; [discriminate|apply Hh|exact Hb].
Qed.

Lemma no_exit_cached_property (slot : State -> option Z)
    (store : Z -> State -> State) (compute : M Z) :
  no_exit compute -> no_exit (cached_property slot store compute).
Proof.
  intros Hc s. unfold cached_property. destruct (slot s); [discriminate|].
  apply no_exit_bind; [exact Hc|]. intros v.
  apply no_exit_bind; [apply no_exit_modify|]. intros _. apply no_exit_ret.
Qed.

Lemma no_exit_assert (c : bool) (what : string) : no_exit (assert_ c what).
Proof. destruct c; [apply no_exit_ret|apply no_exit_raise]. Qed.

Lemma no_exit_fatal (cfg : CheriConfig) args sep hint :
  pretend cfg = true -> no_exit (fatal cfg args sep hint).
Proof. intros H s. rewrite fatal_pretend by assumption. discriminate. Qed.

End NoExit.

Ltac no_exit_step H :=
  lazymatch goal with
  | |- no_exit (fatal _ _ _ _) => apply no_exit_fatal; exact H
  | |- no_exit (bind _ _) => apply no_exit_bind; [|intros ?]
  | |- no_exit (ret _) => apply no_exit_ret
  | |- no_exit (raise _) => apply no_exit_raise
  | |- no_exit (gets _) => apply no_exit_gets
  | |- no_exit (modify _) => apply no_exit_modify
  | |- no_exit (emit _) => apply no_exit_emit
  | |- no_exit (when _ _) => apply no_exit_when
  | |- no_exit (try_finally _ _) => apply no_exit_try_finally
  | |- no_exit (try_except _ _) => apply no_exit_try_except; [|intros ?]
  | |- no_exit (cached_property _ _ _) => apply no_exit_cached_property
  | |- no_exit (assert_ _ _) => apply no_exit_assert
  | |- no_exit (if ?c then _ else _) => destruct c
  | |- no_exit (match ?x with _ => _ end) => destruct x
  | |- no_exit _ =>
      first [progress lazy zeta | progress autounfold with fvp_structure]
  end.

(** X9.  In pretend mode no method exits the program: whatever the host
    does, [InstallMorelloFVP.process], [execute_fvp], [run_tests] and
    [LaunchFVPBase.process] return or raise an [Exception], and never end
    by [sys.exit]. *)
Theorem pretend_mode_never_exits (cfg : CheriConfig) (host : Host)
    (iopts : InstallOptions) (lopts : LaunchOptions) (deps : Dependencies) :
  pretend cfg = true ->
  no_exit (install_process cfg host iopts) /\
  (forall args d f x11 t p, no_exit (execute_fvp cfg host iopts args d f x11 t p)) /\
  no_exit (run_tests cfg host iopts) /\
  no_exit (launch_process cfg host iopts lopts deps).
Proof.
  intros Hpretend. split; [|split; [|split]].
  - repeat no_exit_step Hpretend.
  - intros. repeat no_exit_step Hpretend.
  - repeat no_exit_step Hpretend.
  - repeat no_exit_step Hpretend.
Qed.

Lemma pretend_mode_never_exits_witness :
  outcome (launch_process pretending bare_host installer_sh architectural images fresh)
  <> Raise SystemExit /\
  outcome (install_process pretending bare_host installer_sh fresh)
  <> Raise SystemExit.
Proof.
  destruct (pretend_mode_never_exits pretending bare_host installer_sh
              architectural images eq_refl) as (Hinstall & _ & _ & Hlaunch).
  split; [apply Hlaunch|apply Hinstall].
Defined.

Lemma cleanup_not_fatal (e : event) : cleanup_event e = true -> is_fatal e = false.
Proof. by destruct e. Qed.

Lemma fails_fast_quiet {A : Type} (r : list event * State * result A) :
  Forall (fun e => is_fatal e = false) (events r) ->
  outcome r <> Raise SystemExit -> fails_fast_run r.
Proof. intros. left. by split. Qed.

Section FailsFast.

Lemma fails_fast_ret {A : Type} (a : A) : fails_fast (ret a).
Proof. intros s. apply fails_fast_quiet; [constructor|discriminate]. Qed.

Lemma fails_fast_raise {A : Type} (what : string) :
  fails_fast (@raise A (PyException what)).
Proof. intros s. apply fails_fast_quiet; [constructor|discriminate]. Qed.

Lemma fails_fast_gets {A : Type} (f : State -> A) : fails_fast (gets f).
Proof. intros s. apply fails_fast_quiet; [constructor|discriminate]. Qed.

Lemma fails_fast_modify (f : State -> State) : fails_fast (modify f).
Proof. intros s. apply fails_fast_quiet; [constructor|discriminate]. Qed.

Lemma fails_fast_emit (e : event) : is_fatal e = false -> fails_fast (emit e).
Proof. intros H s. apply fails_fast_quiet; [by repeat constructor|discriminate]. Qed.

Lemma fails_fast_fatal (cfg : CheriConfig) args sep hint :
  pretend cfg = false -> fails_fast (fatal cfg args sep hint).
Proof.
  intros H s. rewrite fatal_exits by assumption. right. split; [reflexivity|].
  exists [], (join sep args), hint, []. split; [reflexivity|]. split; constructor.
Qed.

Lemma fails_fast_bind {A B : Type} (m : M A) (k : A -> M B) :
  fails_fast m -> (forall a, fails_fast (k a)) -> fails_fast (bind m k).
Proof.
  intros Hm Hk s. unfold fails_fast_run. rewrite events_bind, outcome_bind.
  destruct (Hm s) as [[Hquiet Hout]|[Hout (pre & msg & hint & post & Hev & Hpre & Hpost)]].
  - destruct (outcome (m s)) as [a|e] eqn:E.
    + destruct (Hk a (final (m s)))
        as [[Hquiet' Hout']|[Hout' (pre & msg & hint & post & Hev & Hpre & Hpost)]].
      * left. split; [by apply Forall_app|exact Hout'].
      * right. split; [exact Hout'|].
        exists (events (m s) ++ pre), msg, hint, post.
        split; [by rewrite Hev, app_assoc|]. split; [by apply Forall_app|exact Hpost].
    + left. rewrite app_nil_r. split; [exact Hquiet|].
      intros Heq. apply Hout. congruence.
  - rewrite Hout. right. split; [reflexivity|].
    exists pre, msg, hint, post. rewrite app_nil_r. by split.
Qed.

Lemma fails_fast_when (c : bool) (body : M unit) :
  fails_fast body -> fails_fast (when c body).
Proof. intros H. destruct c; [exact H|apply fails_fast_ret]. Qed.

Lemma fails_fast_try_finally {A : Type} (body : M A) (cleanup : M unit) :
  fails_fast body -> tidy cleanup -> fails_fast (try_finally body cleanup).
Proof.
  intros Hb Hc s. unfold fails_fast_run.
  rewrite events_try_finally, outcome_try_finally.
  destruct (Hc (final (body s))) as [-> Hclean].
  destruct (Hb s) as [[Hquiet Hout]|[Hout (pre & msg & hint & post & Hev & Hpre & Hpost)]].
  - left. split; [|exact Hout]. apply Forall_app. split; [exact Hquiet|].
    eapply Forall_impl; [exact Hclean|]. apply cleanup_not_fatal.
  - right. split; [exact Hout|].
    exists pre, msg, hint, (post ++ events (cleanup (final (body s)))).
    split; [rewrite Hev, <- app_assoc; reflexivity|].
    split; [exact Hpre|by apply Forall_app].
Qed.

Lemma fails_fast_try_except {A : Type} (body : M A) (handler : string -> M A) :
  fails_fast body -> (forall e, fails_fast (handler e)) ->
  fails_fast (try_except body handler).
Proof.
  intros Hb Hh s. unfold fails_fast_run.
  rewrite events_try_except, outcome_try_except.
  destruct (Hb s) as [[Hquiet Hout]|[Hout (pre & msg & hint & post & Hev & Hpre & Hpost)]].
  - destruct (outcome (body s)) as [a|[what|]] eqn:E.
    + left. rewrite app_nil_r. by split.
    + destruct (Hh what (final (body s)))
        as [[Hquiet' Hout']|[Hout' (pre & msg & hint & post & Hev & Hpre & Hpost)]].
      * left. split; [by apply Forall_app|exact Hout'].
      * right. split; [exact Hout'|].
        exists (events (body s) ++ pre), msg, hint, post.
        split; [by rewrite Hev, app_assoc|]. split; [by apply Forall_app|exact Hpost].
    + by destruct Hout.
  - rewrite Hout. right. split; [reflexivity|].
    exists pre, msg, hint, post. rewrite app_nil_r. by split.
Qed.

Lemma fails_fast_cached_property (slot : State -> option Z)
    (store : Z -> State -> State) (compute : M Z) :
  fails_fast compute -> fails_fast (cached_property slot store compute).
Proof.
  intros Hc s. unfold cached_property. destruct (slot s).
  - apply fails_fast_quiet; [constructor|discriminate].
  - apply fails_fast_bind; [exact Hc|]. intros v.
    apply fails_fast_bind; [apply fails_fast_modify|]. intros _. apply fails_fast_ret.
Qed.

Lemma fails_fast_assert (c : bool) (what : string) : fails_fast (assert_ c what).
Proof. destruct c; [apply fails_fast_ret|apply fails_fast_raise]. Qed.

Lemma tidy_emit (e : event) : cleanup_event e = true -> tidy (emit e).
Proof. intros H s. split; [reflexivity|by repeat constructor]. Qed.

Lemma tidy_terminate_kill : tidy (emit ETerminate ;; emit EKill).
Proof. intros s. split; [reflexivity|by repeat constructor]. Qed.

End FailsFast.

Ltac fails_fast_step H :=
  lazymatch goal with
  | |- fails_fast (fatal _ _ _ _) => apply fails_fast_fatal; exact H
  | |- fails_fast (bind _ _) => apply fails_fast_bind; [|intros ?]
  | |- fails_fast (ret _) => apply fails_fast_ret
  | |- fails_fast (raise _) => apply fails_fast_raise
  | |- fails_fast (gets _) => apply fails_fast_gets
  | |- fails_fast (modify _) => apply fails_fast_modify
  | |- fails_fast (emit _) => apply fails_fast_emit; reflexivity
  | |- fails_fast (when _ _) => apply fails_fast_when
  | |- fails_fast (try_finally _ (emit ETerminate ;; emit EKill)) =>
      apply fails_fast_try_finally; [|apply tidy_terminate_kill]
  | |- fails_fast (try_finally _ (emit _)) =>
      apply fails_fast_try_finally; [|apply tidy_emit; reflexivity]
  | |- fails_fast (try_except _ _) => apply fails_fast_try_except; [|intros ?]
  | |- fails_fast (cached_property _ _ _) => apply fails_fast_cached_property
  | |- fails_fast (assert_ _ _) => apply fails_fast_assert
  | |- fails_fast (if ?c then _ else _) => destruct c
  | |- fails_fast (match ?x with _ => _ end) => destruct x
  | |- fails_fast _ =>
      first [progress lazy zeta | progress autounfold with fvp_structure]
  end.

(** X10.  Outside pretend mode a fatal error ends the run at once.  Every
    run of [InstallMorelloFVP.process], [execute_fvp], [run_tests] and
    [LaunchFVPBase.process] either reports no fatal error and does not
    exit, or reports exactly one, exits, and after the error does nothing
    but clean up (remove the temporary directory, restore the environment,
    stop socat): no command is run and nothing is written after a fatal
    error. *)
Theorem fatal_errors_end_the_run (cfg : CheriConfig) (host : Host)
    (iopts : InstallOptions) (lopts : LaunchOptions) (deps : Dependencies) :
  pretend cfg = false ->
  fails_fast (install_process cfg host iopts) /\
  (forall args d f x11 t p, fails_fast (execute_fvp cfg host iopts args d f x11 t p)) /\
  fails_fast (run_tests cfg host iopts) /\
  fails_fast (launch_process cfg host iopts lopts deps).
Proof.
  intros Hbuild. split; [|split; [|split]].
  - repeat fails_fast_step Hbuild.
  - intros. repeat fails_fast_step Hbuild.
  - repeat fails_fast_step Hbuild.
  - repeat fails_fast_step Hbuild.
Qed.

Lemma fatal_errors_end_the_run_witness :
  fails_fast_run
    (launch_process building bare_host installer_sh architectural images fresh) /\
  events (launch_process building bare_host installer_sh architectural images fresh)
  = [firmware_invalid bare_host architectural] /\
  outcome (launch_process building bare_host installer_sh architectural images fresh)
  = Raise SystemExit.
Proof.
  destruct (fatal_errors_end_the_run building bare_host installer_sh
              architectural images eq_refl) as (_ & _ & _ & Hlaunch).
  split; [apply Hlaunch|]. split; reflexivity.
Defined.

(** ** LaunchFVPBase.process: the environment and the random number generator *)

Lemma split_bind_keeps {A B : Type} (m : M A) (k : A -> M B) (s : State) :
  keeps_state m ->
  events (bind m k s) = events (m s) \/
  exists a, outcome (m s) = Ret a /\
            events (bind m k s) = events (m s) ++ events (k a s).
Proof.
  intros Hkeep. rewrite events_bind, Hkeep.
  destruct (outcome (m s)) as [a|e].
  - right. exists a. split; reflexivity.
  - left. apply app_nil_r.
Qed.

Section LaunchMore.
Variable cfg : CheriConfig.
Variable host : Host.
Variable iopts : InstallOptions.
Variable lopts : LaunchOptions.
Variable deps : Dependencies.

Lemma firmware_check_preamble (s : State) :
  Forall (fun e => preamble_event e = true)
    (events (when (negb (path_exists host (firmware_path lopts)))
      (fatal cfg ["Firmware path"; firmware_path lopts; " is invalid, set the";
                  "--" +:+ option_name host "firmware_path"; "config option!"]
             " " None) s)).
Proof. apply always_at. repeat always_step. reflexivity. Qed.

Lemma remote_copy_preamble (s : State) :
  Forall (fun e => preamble_event e = true)
    (events (when (truthy (remote_disk_image_path lopts))
      (emit (ECopyRemoteFile (default EmptyString (remote_disk_image_path lopts))
                             (disk_image_path deps))) s)).
Proof. apply always_at. repeat always_step. reflexivity. Qed.

Lemma disk_image_preamble (s : State) :
  Forall (fun e => preamble_event e = true)
    (events (ensure_file_exists cfg host "disk image" (disk_image_path deps) s)).
Proof. apply always_at. repeat always_step. reflexivity. Qed.

Lemma launch_process_preamble (s : State) :
  exists pre,
    Forall (fun e => preamble_event e = true) pre /\
    (events (launch_process cfg host iopts lopts deps s) = pre \/
     events (launch_process cfg host iopts lopts deps s) =
     pre ++ events (launch_branch cfg host iopts lopts deps s)).
Proof.
  pose proof (firmware_check_preamble s) as H1.
  pose proof (remote_copy_preamble s) as H2.
  pose proof (disk_image_preamble s) as H3.
  unfold launch_process, launch_branch. cbn zeta.
  lazymatch type of H1 with Forall _ ?l1 => set (e1 := l1) in * end.
  lazymatch type of H2 with Forall _ ?l2 => set (e2 := l2) in * end.
  lazymatch type of H3 with Forall _ ?l3 => set (e3 := l3) in * end.
  lazymatch goal with
  | |- context [events (bind ?m ?k s)] =>
      destruct (split_bind_keeps m k s) as [Hev|(u1 & _ & Hev)];
        [apply keeps_state_when, keeps_state_fatal| |]
  end; rewrite Hev; clear Hev; fold e1.
  { exists e1. split; [exact H1|left; reflexivity]. }
  lazymatch goal with
  | |- context [events (bind ?m ?k s)] =>
      destruct (split_bind_keeps m k s) as [Hev|(u2 & _ & Hev)];
        [apply keeps_state_when, keeps_state_emit| |]
  end; rewrite Hev; clear Hev; fold e2.
  { exists (e1 ++ e2). split; [|left; reflexivity].
    apply Forall_app; split; [exact H1|exact H2]. }
  lazymatch goal with
  | |- context [events (bind ?m ?k s)] =>
      destruct (split_bind_keeps m k s) as [Hev|(disk & Hdisk & Hev)];
        [apply keeps_state_ensure| |]
  end; rewrite Hev; clear Hev; fold e3.
  { exists (e1 ++ e2 ++ e3). split; [|left; reflexivity].
    apply Forall_app; split; [exact H1|apply Forall_app; split; [exact H2|exact H3]]. }
  apply ensure_file_exists_returns in Hdisk. subst disk.
  exists (e1 ++ e2 ++ e3). split.
  - apply Forall_app; split; [exact H1|apply Forall_app; split; [exact H2|exact H3]].
  - right. rewrite <- !app_assoc. reflexivity.
Qed.


Lemma truthy_not_empty (o : option string) :
  truthy o = true -> default EmptyString o <> EmptyString.
Proof. destruct o as [[|c v]|]; simpl; congruence. Qed.

Lemma launch_morello_no_env_event (mp : list string) (disk : Path) :
  always (fun e => env_event e = false)
         (launch_morello cfg host iopts lopts deps mp disk).
Proof. repeat always_step. all: reflexivity. Qed.

(** The licence server after the check, when it returns. *)
Lemma license_check_value (s : State) (u : unit) :
  outcome (when (negb (truthy (license_server s)))
             (modify (set_license_server "unknown.license.server") ;;
              fatal cfg ["License server info unknown, set the";
                         "--" +:+ option_name host "license_server";
                         "config option!"] " " None) s) = Ret u ->
  default EmptyString
    (license_server
       (final (when (negb (truthy (license_server s)))
          (modify (set_license_server "unknown.license.server") ;;
           fatal cfg ["License server info unknown, set the";
                      "--" +:+ option_name host "license_server";
                      "config option!"] " " None) s))) = license_value s.
Proof.
  unfold license_value.
  destruct (truthy (license_server s)) eqn:E; cbn [negb when].
  - intros _. reflexivity.
  - unfold fatal, modify, bind, emit, ret, raise.
    destruct (pretend cfg); cbn; [reflexivity|discriminate].
Qed.

Lemma license_value_not_empty (s : State) : license_value s <> EmptyString.
Proof.
  unfold license_value. destruct (truthy (license_server s)) eqn:E.
  - by apply truthy_not_empty.
  - discriminate.
Qed.

Lemma license_check_no_env_event (s : State) :
  Forall (fun e => env_event e = false)
    (events (when (negb (truthy (license_server s)))
               (modify (set_license_server "unknown.license.server") ;;
                fatal cfg ["License server info unknown, set the";
                           "--" +:+ option_name host "license_server";
                           "config option!"] " " None) s)).
Proof. apply always_at. repeat always_step. reflexivity. Qed.

Lemma model_check_no_env_event (s : State) :
  Forall (fun e => env_event e = false)
    (events (when (negb (is_dir host (arch_model_path lopts)))
       (fatal cfg ["FVP path"; arch_model_path lopts; "does not exist, set the";
                   "--" +:+ option_name host "simulator_path"; "config option!"]
              " " None) s)).
Proof. apply always_at. repeat always_step. reflexivity. Qed.

(** The architectural branch: the licence variable is set to the
    licence server, and restored at the end. *)
Lemma launch_architectural_env (mp : list string) (s : State) :
  exists pre,
    Forall (fun e => env_event e = false) pre /\
    (events (launch_architectural cfg host lopts mp s) = pre \/
     exists body,
       events (launch_architectural cfg host lopts mp s) =
       pre ++ ESetEnv "ARMLMD_LICENSE_FILE" (license_value s) :: body
           ++ [ERestoreEnv "ARMLMD_LICENSE_FILE"] /\
       Forall (fun e => env_event e = false) body).
Proof.
  unfold launch_architectural.
  rewrite events_bind. cbn [gets events outcome final fst snd app].
  pose proof (license_check_no_env_event s) as H1.
  pose proof (license_check_value s) as Hls.
  lazymatch type of H1 with Forall _ (events (?m s)) => set (m1 := m) in * end.
  rewrite events_bind.
  destruct (outcome (m1 s)) as [u1|x1].
  2: { exists (events (m1 s)). split; [exact H1|left; apply app_nil_r]. }
  specialize (Hls u1 eq_refl). set (s1 := final (m1 s)) in *.
  pose proof (model_check_no_env_event s1) as H2.
  lazymatch type of H2 with Forall _ (events (?m s1)) => set (m2 := m) in * end.
  lazymatch goal with
  | |- context [events (bind m2 ?k s1)] =>
      destruct (split_bind_keeps m2 k s1) as [Hev|(u2 & _ & Hev)];
        [subst m2; apply keeps_state_when, keeps_state_fatal| |]
  end; rewrite Hev; clear Hev.
  { exists (events (m1 s) ++ events (m2 s1)).
    split; [apply Forall_app; split; [exact H1|exact H2]|left; reflexivity]. }
  rewrite events_bind. cbn [gets events outcome final fst snd app].
  unfold with_set_env. rewrite events_bind.
  cbn [emit events outcome final fst snd app]. rewrite events_try_finally.
  cbn [emit events outcome final fst snd app].
  exists (events (m1 s) ++ events (m2 s1)).
  split; [apply Forall_app; split; [exact H1|exact H2]|]. right.
  rewrite Hls.
  lazymatch goal with
  | |- context [ESetEnv _ _ :: events (?body s1) ++ _] =>
      exists (events (body s1))
  end.
  split; [rewrite <- app_assoc; reflexivity|].
  apply always_at. repeat always_step. all: reflexivity.
Qed.

(** The architectural branch sets the variable when its two checks
    return. *)
Lemma launch_architectural_sets_env (mp : list string) (s : State) :
  pretend cfg = true \/
  (truthy (license_server s) = true /\
   is_dir host (arch_model_path lopts) = true) ->
  In (ESetEnv "ARMLMD_LICENSE_FILE" (license_value s))
     (events (launch_architectural cfg host lopts mp s)).
Proof.
  intros Hready. unfold launch_architectural.
  rewrite events_bind. cbn [gets events outcome final fst snd app].
  pose proof (license_check_value s) as Hls.
  assert (H1 : exists u,
    outcome (when (negb (truthy (license_server s)))
      (modify (set_license_server "unknown.license.server") ;;
       fatal cfg ["License server info unknown, set the";
                  "--" +:+ option_name host "license_server";
                  "config option!"] " " None) s) = Ret u).
  { destruct (truthy (license_server s)) eqn:E; cbn [negb when].
    - by eexists.
    - destruct Hready as [H|[H _]]; [|discriminate H].
      rewrite outcome_bind. cbn [modify events outcome final fst snd].
      rewrite fatal_pretend by assumption. by eexists. }
  destruct H1 as [u1 H1]. specialize (Hls u1 H1).
  rewrite events_bind, H1. apply in_or_app. right.
  lazymatch goal with
  | |- context [final (?m s)] => set (s1 := final (m s)) in *
  end.
  assert (H2 : exists w,
    when (negb (is_dir host (arch_model_path lopts)))
      (fatal cfg ["FVP path"; arch_model_path lopts; "does not exist, set the";
                  "--" +:+ option_name host "simulator_path"; "config option!"]
             " " None) s1 = (w, s1, Ret tt)).
  { destruct (is_dir host (arch_model_path lopts)) eqn:E; cbn [negb when].
    - by eexists.
    - destruct Hready as [H|(_ & H)]; [|discriminate H].
      rewrite fatal_pretend by assumption. by eexists. }
  destruct H2 as (w2 & H2). rewrite events_bind, H2.
  cbn [events outcome final fst snd]. apply in_or_app. right.
  rewrite events_bind. cbn [gets events outcome final fst snd app].
  unfold with_set_env. rewrite events_bind.
  cbn [emit events outcome final fst snd app]. rewrite Hls. left. reflexivity.
Qed.

(** X11.  [process] sets one environment variable, the licence server
    for the architectural model, and only around the run of that model:
    in any run it is set at most once, to the configured licence server
    or, when none is configured, to the placeholder
    [unknown.license.server], and then restored as the last event of the
    run.  For the architectural FVP it is set in pretend mode, and
    whenever the firmware path, the disk image, a licence server and the
    model directory are there. *)
Theorem license_variable_is_scoped (s : State) :
  (exists pre,
    Forall (fun e => env_event e = false) pre /\
    (events (launch_process cfg host iopts lopts deps s) = pre \/
     exists body,
       use_architectureal_fvp lopts = true /\
       events (launch_process cfg host iopts lopts deps s) =
       pre ++ ESetEnv "ARMLMD_LICENSE_FILE" (license_value s) :: body
           ++ [ERestoreEnv "ARMLMD_LICENSE_FILE"] /\
       Forall (fun e => env_event e = false) body)) /\
  license_value s <> EmptyString /\
  (truthy (license_server s) = false ->
   license_value s = "unknown.license.server") /\
  (forall server, license_server s = Some server -> truthy (Some server) = true ->
   license_value s = server) /\
  (use_architectureal_fvp lopts = true ->
   pretend cfg = true \/
   (path_exists host (firmware_path lopts) = true /\
    path_exists host (disk_image_path deps) = true /\
    truthy (license_server s) = true /\
    is_dir host (arch_model_path lopts) = true) ->
   In (ESetEnv "ARMLMD_LICENSE_FILE" (license_value s))
      (events (launch_process cfg host iopts lopts deps s))).
Proof.
  split; [|split; [apply license_value_not_empty|split; [|split]]].
  - destruct (launch_process_preamble s) as (pre & Hpre & Hev).
    assert (Hpre' : Forall (fun e => env_event e = false) pre).
    { eapply Forall_impl; [exact Hpre|]. intros e He. destruct e; try reflexivity;
        discriminate He. }
    destruct Hev as [Hev|Hev].
    { exists pre. split; [exact Hpre'|left; exact Hev]. }
    rewrite Hev. unfold launch_branch.
    destruct (use_architectureal_fvp lopts).
    + destruct (launch_architectural_env
                  (board_model_params lopts (disk_image_path deps)) s)
        as (pre2 & Hpre2 & [Hev2|(body & Hev2 & Hbody)]);
        rewrite Hev2; exists (pre ++ pre2);
        (split; [apply Forall_app; split; assumption|]).
      * left. reflexivity.
      * right. exists body. split; [reflexivity|].
        split; [apply app_assoc|exact Hbody].
    + exists (pre ++ events (launch_morello cfg host iopts lopts deps
                              (board_model_params lopts (disk_image_path deps))
                              (disk_image_path deps) s)).
      split; [|left; reflexivity].
      apply Forall_app. split; [exact Hpre'|]. apply launch_morello_no_env_event.
  - unfold license_value. by intros ->.
  - unfold license_value. intros server -> ->. reflexivity.
  - intros Harch Hready.
    destruct (launch_process_reaches_branch cfg host iopts lopts deps s)
      as (pre & -> & _).
    { destruct Hready as [H|(H1 & H2 & _)]; [by left|by right]. }
    rewrite Harch. apply in_or_app. right.
    apply launch_architectural_sets_env.
    destruct Hready as [H|(_ & _ & H1 & H2)]; [by left|by right].
Qed.

End LaunchMore.

(** In pretend mode with no licence server configured the placeholder is
    set; with one configured, on a host where nothing is missing, that
    one is. *)
Lemma license_variable_is_scoped_witness :
  In (ESetEnv "ARMLMD_LICENSE_FILE" "unknown.license.server")
     (events (launch_process pretending bare_host installer_sh architectural
                images fresh)) /\
  In (ESetEnv "ARMLMD_LICENSE_FILE" "27000@license")
     (events (launch_process building working_host installer_sh architectural
                images licensed)).
Proof.
  split.
  - apply (proj2 (proj2 (proj2 (proj2
             (license_variable_is_scoped pretending bare_host installer_sh
                architectural images fresh))))); [reflexivity|left; reflexivity].
  - apply (proj2 (proj2 (proj2 (proj2
             (license_variable_is_scoped building working_host installer_sh
                architectural images licensed))))); [reflexivity|].
    right. repeat split; reflexivity.
Defined.
Section Rng.
Variable cfg : CheriConfig.
Variable host : Host.
Variable iopts : InstallOptions.
Variable lopts : LaunchOptions.
Variable deps : Dependencies.

Lemma fvp_revision_no_launch :
  always no_launch (fvp_revision cfg host iopts).
Proof.
  repeat always_step. all: cbn [no_launch]; try exact I. all: not_a_launch.
Qed.

(** The checks of [process] before the branch end by [sys.exit] or hand
    over to the branch. *)
Lemma launch_process_outcome (s : State) :
  outcome (launch_process cfg host iopts lopts deps s) = Raise SystemExit \/
  outcome (launch_process cfg host iopts lopts deps s) =
  outcome (launch_branch cfg host iopts lopts deps s).
Proof.
  unfold launch_process, launch_branch.
  rewrite outcome_bind.
  lazymatch goal with
  | |- context [final (?m s)] =>
      replace (final (m s)) with s
        by (symmetry; apply keeps_state_when, keeps_state_fatal);
      assert (H1 : outcome (m s) = Ret tt \/ outcome (m s) = Raise SystemExit)
        by (unfold when, fatal, bind, emit, ret, raise, outcome;
            destruct (negb _), (pretend cfg); cbn; tauto);
      destruct H1 as [-> | ->]; [|by left]
  end.
  rewrite outcome_bind.
  lazymatch goal with
  | |- context [final (?m s)] =>
      replace (final (m s)) with s
        by (symmetry; apply keeps_state_when, keeps_state_emit);
      assert (H2 : outcome (m s) = Ret tt)
        by (unfold when, emit, ret, outcome; by destruct (truthy _));
      rewrite H2
  end.
  rewrite outcome_bind.
  lazymatch goal with
  | |- context [final (?m s)] =>
      replace (final (m s)) with s by (symmetry; apply keeps_state_ensure);
      assert (H3 : outcome (m s) = Ret (disk_image_path deps) \/
                   outcome (m s) = Raise SystemExit)
        by (unfold ensure_file_exists, when, fatal, bind, emit, ret, raise, outcome;
            destruct (negb _), (pretend cfg); cbn; tauto);
      destruct H3 as [-> | ->]; [|by left]
  end.
  right. reflexivity.
Qed.

(** Outside pretend mode an FVP older than revision 312 is refused. *)
Lemma launch_morello_too_old (mp : list string) (disk : Path) (s : State) :
  pretend cfg = false -> (revision_in cfg host iopts s < 312)%Z ->
  outcome (launch_morello cfg host iopts lopts deps mp disk s) = Raise SystemExit /\
  Forall no_launch (events (launch_morello cfg host iopts lopts deps mp disk s)).
Proof.
  intros Hbuild.
  pose proof (fvp_revision_no_launch s) as Hquery.
  destruct (fvp_revision_run cfg host iopts s) as (t & n & Hrun & Hcache).
  rewrite (revision_in_run _ _ _ _ _ _ _ Hrun). intros Hold.
  rewrite Hrun in Hquery. cbn [events fst snd] in Hquery.
  unfold launch_morello.
  rewrite outcome_bind, events_bind. cbn [emit events outcome final fst snd].
  rewrite outcome_bind, events_bind. rewrite Hrun. cbn [events outcome final fst snd].
  rewrite outcome_bind, events_bind.
  rewrite (fvp_revision_cached cfg host iopts _ n Hcache).
  cbn [events outcome final fst snd].
  rewrite outcome_bind, events_bind.
  assert (Hlt : (n <? 312)%Z = true) by lia. rewrite Hlt. cbn [when].
  rewrite fatal_exits by exact Hbuild. cbn [events outcome final fst snd].
  split; [reflexivity|].
  apply Forall_app. split; [repeat constructor|].
  apply Forall_app. split; [exact Hquery|].
  repeat constructor.
Qed.

Lemma final_model_params_rng (s : State) :
  use_architectureal_fvp lopts = false ->
  (255 < revision_in cfg host iopts s)%Z ->
  exists l,
    prepend_C (final_model_params cfg host iopts lopts deps s) =
    l ++ virtio_rng_args ++ [].
Proof.
  intros Hmorello Hrev. unfold final_model_params. rewrite Hmorello. cbn zeta.
  unfold morello_model_params.
  assert (Hgt : (revision_in cfg host iopts s >? 255)%Z = true) by lia.
  rewrite Hgt. rewrite prepend_C_app. eexists. reflexivity.
Qed.

(** X12.  The random number generator of the Morello FVP, with [rev]
    the revision of the installed FVP.  When [rev] is above 255, every
    simulator that [process] launches for the Morello FVP is passed the
    three parameters that enable the generator, and every run that
    returns has launched a simulator with them; when [rev] is at most
    255 the final parameters do not enable it.  Outside pretend mode a
    revision below 312 is refused before anything is launched: the run
    ends by [sys.exit] and launches no simulator; so outside pretend mode
    every simulator that is launched has the generator enabled. *)
Theorem launched_morello_fvp_has_virtio_rng (s : State) :
  use_architectureal_fvp lopts = false ->
  ((255 < revision_in cfg host iopts s)%Z ->
   Forall (passes_args virtio_rng_args)
          (events (launch_process cfg host iopts lopts deps s)) /\
   (outcome (launch_process cfg host iopts lopts deps s) = Ret tt ->
    Exists (launch_with virtio_rng_args)
           (events (launch_process cfg host iopts lopts deps s)))) /\
  ((revision_in cfg host iopts s <= 255)%Z ->
   ~ In "board.virtio_rng.enabled=1"
        (final_model_params cfg host iopts lopts deps s)) /\
  (pretend cfg = false -> (revision_in cfg host iopts s < 312)%Z ->
   outcome (launch_process cfg host iopts lopts deps s) = Raise SystemExit /\
   Forall no_launch (events (launch_process cfg host iopts lopts deps s))) /\
  (pretend cfg = false ->
   Forall (passes_args virtio_rng_args)
          (events (launch_process cfg host iopts lopts deps s))).
Proof.
  intros Hmorello.
  assert (Hnew : (255 < revision_in cfg host iopts s)%Z ->
    Forall (passes_args virtio_rng_args)
           (events (launch_process cfg host iopts lopts deps s)) /\
    (outcome (launch_process cfg host iopts lopts deps s) = Ret tt ->
     Exists (launch_with virtio_rng_args)
            (events (launch_process cfg host iopts lopts deps s)))).
  { intros Hrev. destruct (final_model_params_rng s Hmorello Hrev) as [l Hargs].
    pose proof (launch_process_passes cfg host iopts lopts deps s) as Hsafe.
    pose proof (launch_process_launches cfg host iopts lopts deps s) as Hret.
    rewrite Hargs in Hsafe, Hret. split.
    - eapply Forall_impl; [exact Hsafe|]. intros e. apply passes_args_sub.
    - intros H. eapply Exists_launch_sub. by apply Hret. }
  assert (Hold : pretend cfg = false -> (revision_in cfg host iopts s < 312)%Z ->
    outcome (launch_process cfg host iopts lopts deps s) = Raise SystemExit /\
    Forall no_launch (events (launch_process cfg host iopts lopts deps s))).
  { intros Hbuild Hrev.
    destruct (launch_morello_too_old
                (board_model_params lopts (disk_image_path deps))
                (disk_image_path deps) s Hbuild Hrev) as (Hexit & Hnone).
    split.
    - destruct (launch_process_outcome s) as [H|H]; [exact H|].
      rewrite H. unfold launch_branch. rewrite Hmorello. exact Hexit.
    - destruct (launch_process_preamble cfg host iopts lopts deps s)
        as (pre & Hpre & Hev).
      assert (Hpre' : Forall no_launch pre).
      { eapply Forall_impl; [exact Hpre|]. intros e He.
        destruct e; try exact I. discriminate He. }
      destruct Hev as [Hev|Hev]; rewrite Hev; [exact Hpre'|].
      apply Forall_app. split; [exact Hpre'|].
      unfold launch_branch. rewrite Hmorello. exact Hnone. }
  split; [exact Hnew|]. split; [|split; [exact Hold|]].
  - intros Hrev. unfold final_model_params. rewrite Hmorello. cbn zeta.
    unfold morello_model_params.
    assert (Hle : (revision_in cfg host iopts s >? 255)%Z = false) by lia.
    rewrite Hle. rewrite board_model_params_eq. unfold board_prefix.
    rewrite Hmorello. cbn. intros H. in_cases H.
  - intros Hbuild.
    destruct (Z_lt_le_dec (revision_in cfg host iopts s) 312) as [Hrev|Hrev].
    + destruct (Hold Hbuild Hrev) as (_ & Hnone).
      eapply Forall_impl; [exact Hnone|]. intros e He.
      destruct e; try exact I. intros Hl. by destruct He.
    + apply Hnew. lia.
Qed.

End Rng.

(** An installed FVP of revision 300: in pretend mode it is launched
    with the generator enabled; outside pretend mode it is refused. *)
Lemma launched_morello_fvp_has_virtio_rng_witness :
  revision_in pretending (linux_host "300") native_install fresh = 300%Z /\
  Exists (launch_with virtio_rng_args)
    (events (launch_process pretending (linux_host "300") native_install
               morello images fresh)) /\
  outcome (launch_process building (linux_host "300") native_install
             morello images fresh) = Raise SystemExit /\
  Forall no_launch
    (events (launch_process building (linux_host "300") native_install
               morello images fresh)).
Proof.
  destruct (launched_morello_fvp_has_virtio_rng pretending (linux_host "300")
              native_install morello images fresh eq_refl) as (Hnew & _).
  destruct (launched_morello_fvp_has_virtio_rng building (linux_host "300")
              native_install morello images fresh eq_refl) as (_ & _ & Hold & _).
  split; [reflexivity|]. split.
  - apply Hnew; reflexivity.
  - apply Hold; reflexivity.
Defined.

(** ** InstallMorelloFVP.run_tests and the required tools *)

Section Tests.
Variable cfg : CheriConfig.
Variable host : Host.
Variable iopts : InstallOptions.

Lemma needs_socat_without_x11 : needs_socat host iopts false = false.
Proof. unfold needs_socat. by destruct (use_docker_container iopts). Qed.

Lemma always_bind_ret (P : event -> Prop) {A B : Type} (a : A) (k : A -> M B) :
  always P (k a) -> always P (bind (ret a) k).
Proof. intros H s. rewrite events_bind. apply H. Qed.

Lemma final_bind {A B : Type} (m : M A) (k : A -> M B) (s : State) :
  final (bind m k s) =
  match outcome (m s) with
  | Ret a => final (k a (final (m s)))
  | Raise e => final (m s)
  end.
Proof.
  unfold bind, events, outcome, final.
  destruct (m s) as [[t1 s1] [a|e]]; simpl; [|reflexivity].
  by destruct (k a s1) as [[t2 s2] r].
Qed.

Lemma always_bind_assoc (P : event -> Prop) {A B C : Type}
    (m : M A) (k : A -> M B) (k' : B -> M C) :
  always P (bind m (fun a => bind (k a) k')) -> always P (bind (bind m k) k').
Proof.
  intros H s. specialize (H s). revert H. rewrite !events_bind, !outcome_bind.
  rewrite final_bind.
  destruct (outcome (m s)) as [a|x]; [|by rewrite !app_nil_r].
  rewrite events_bind. by rewrite <- app_assoc.
Qed.

Lemma plain_execute_fvp (args : list string) :
  args = ["--help"] \/ args = ["--cyclelimit"; "1000"] ->
  always (test_event cfg iopts)
         (execute_fvp cfg host iopts args None None false false None).
Proof.
  intros Hargs. unfold execute_fvp. rewrite needs_socat_without_x11.
  unfold base_cmd, test_event, plain_model_cmd.
  destruct (use_docker_container iopts); cbn [app].
  all: repeat first [apply always_bind_ret | apply always_bind_assoc].
  all: unfold run_simulator.
  all: repeat always_step.
  all: split; [reflexivity|]; try exact I.
  all: split; [reflexivity|].
  all: try (left; reflexivity).
  all: right; eexists _, args; (split; [cbn [app]; reflexivity|exact Hargs]).
Qed.

(** On its plain command line [execute_fvp] is the run of the model. *)
Lemma plain_execute_fvp_eq (args : list string) (s : State) :
  execute_fvp cfg host iopts args None None false false None s =
  run_simulator cfg host iopts (plain_model_cmd cfg iopts) args s.
Proof.
  assert (Hbase : base_cmd cfg host iopts None None false false None s =
                  ([], s, Ret (plain_model_cmd cfg iopts))).
  { unfold base_cmd, plain_model_cmd, bind, ret.
    destruct (use_docker_container iopts); reflexivity. }
  unfold execute_fvp. rewrite needs_socat_without_x11.
  unfold bind at 1. rewrite Hbase.
  by destruct (run_simulator _ _ _ _ _ _) as [[t2 s2] r].
Qed.

(** A run of the model that returns: the plugin arguments were computed
    and the command was run. *)
Lemma run_simulator_returns (cmd args : list string) (s : State) :
  outcome (run_simulator cfg host iopts cmd args s) = Ret tt ->
  exists plugin,
    outcome (plugin_args cfg host iopts s) = Ret plugin /\
    events (run_simulator cfg host iopts cmd args s) =
    events (plugin_args cfg host iopts s) ++ [ERunCmd (cmd ++ plugin ++ args) None] /\
    final (run_simulator cfg host iopts cmd args s) =
    final (plugin_args cfg host iopts s).
Proof.
  unfold run_simulator. intros H.
  rewrite final_bind.
  apply bind_returns in H as (plugin & Hplugin & H & ->).
  exists plugin. rewrite Hplugin. split; [reflexivity|].
  rewrite events_bind, events_run_cmd, final_bind.
  unfold run_cmd in *. rewrite !outcome_bind in *.
  cbn [emit events outcome final fst snd] in *.
  destruct (cmd_result host _); [|discriminate H].
  split; [reflexivity|reflexivity].
Qed.

(** Once computed, the plugin arguments are computed again with the
    same result and without running a command. *)
Lemma plugin_args_again (s : State) (plugin : list string) :
  outcome (plugin_args cfg host iopts s) = Ret plugin ->
  outcome (plugin_args cfg host iopts (final (plugin_args cfg host iopts s)))
  = Ret plugin /\
  Forall (fun e => is_run_cmd e = false)
         (events (plugin_args cfg host iopts (final (plugin_args cfg host iopts s)))).
Proof.
  destruct (fvp_revision_run cfg host iopts s) as (t & n & Hrun & Hcache).
  set (s1 := match fvp_revision_cache s with
             | Some _ => s
             | None => store_fvp_revision n s
             end) in *.
  unfold plugin_args.
  lazymatch goal with
  | |- context [bind (fvp_revision cfg host iopts) ?f] => set (k := f)
  end.
  rewrite final_bind, outcome_bind. rewrite Hrun.
  cbn [events outcome final fst snd].
  assert (Hkeep : final (k n s1) = s1).
  { unfold k. destruct (n >=? 312)%Z; [reflexivity|].
    destruct (use_docker_container iopts); [reflexivity|].
    rewrite final_bind.
    pose proof (keeps_state_ensure cfg host "Morello FVP plugin"
                  (install_dir cfg </> plugin_path) s1) as Hk.
    destruct (outcome (ensure_file_exists _ _ _ _ _)); rewrite Hk; reflexivity. }
  assert (Hquiet : Forall (fun e => is_run_cmd e = false) (events (k n s1))).
  { unfold k. apply always_at. repeat always_step. reflexivity. }
  intros H. rewrite Hkeep.
  rewrite outcome_bind, events_bind.
  rewrite (fvp_revision_cached cfg host iopts s1 n Hcache).
  cbn [events outcome final fst snd app]. by split.
Qed.

(** X13.  [run_tests] runs the model with [--help] and then with
    [--cyclelimit 1000], on its plain command line: no socat is spawned,
    the memory of the container is not asked for, and nothing is mapped
    into the container.  When the first run returns, both commands are
    run, in that order and with the same plugin arguments, and no other
    command is run between them.  When the first run raises, the second
    does not happen and [run_tests] ends as the first run did. *)
Theorem run_tests_are_plain (s : State) :
  Forall (test_event cfg iopts) (events (run_tests cfg host iopts s)) /\
  (forall x,
     outcome (execute_fvp cfg host iopts ["--help"] None None false false None s)
     = Raise x ->
     events (run_tests cfg host iopts s) =
     events (execute_fvp cfg host iopts ["--help"] None None false false None s) /\
     outcome (run_tests cfg host iopts s) = Raise x) /\
  (outcome (execute_fvp cfg host iopts ["--help"] None None false false None s)
   = Ret tt ->
   exists plugin between,
     events (run_tests cfg host iopts s) =
     events (plugin_args cfg host iopts s) ++
     [ERunCmd (plain_model_cmd cfg iopts ++ plugin ++ ["--help"]) None] ++
     between ++
     [ERunCmd (plain_model_cmd cfg iopts ++ plugin ++ ["--cyclelimit"; "1000"]) None]
     /\ Forall (fun e => is_run_cmd e = false) between).
Proof.
  split; [|split].
  - apply always_at. unfold run_tests. apply always_bind; [|intros _].
    + apply plain_execute_fvp. left. reflexivity.
    + apply plain_execute_fvp. right. reflexivity.
  - intros x Hx. unfold run_tests. rewrite events_bind, outcome_bind, Hx.
    split; [apply app_nil_r|reflexivity].
  - intros Hfirst. unfold run_tests. rewrite events_bind, Hfirst.
    rewrite !plain_execute_fvp_eq in *.
    destruct (run_simulator_returns _ _ _ Hfirst) as (plugin & Hplugin & -> & ->).
    destruct (plugin_args_again s plugin Hplugin) as (Hagain & Hquiet).
    exists plugin,
      (events (plugin_args cfg host iopts (final (plugin_args cfg host iopts s)))).
    split; [|exact Hquiet].
    unfold run_simulator at 1. rewrite events_bind, Hagain.
    rewrite events_bind, events_run_cmd.
    assert (Hret : forall (o : result string) (s' : State),
      match o with
      | Ret a => events (ret (A:=unit) tt s')
      | Raise _ => []
      end = []) by (by intros [a|e] s').
    rewrite Hret. rewrite app_nil_r. by rewrite <- !app_assoc.
Qed.

Lemma rsplit_finds (c : ascii) (p q : string) :
  rsplit c q <> None -> rsplit c (p +:+ q) <> None.
Proof.
  intros Hq. induction p as [|x p IH]; [exact Hq|].
  change (String x p +:+ q) with (String x (p +:+ q)). cbn [rsplit].
  destruct (rsplit c (p +:+ q)) as [[? ?]|]; [discriminate|].
  by destruct IH.
Qed.

(** The model is a path with several components, never the bare command
    [docker]. *)
Lemma model_path_not_docker (p : Path) :
  String.eqb (p </> model_relpath) "docker" = false.
Proof.
  apply String.eqb_neq. intros Heq.
  assert (Hslash : rsplit slash (p </> model_relpath) <> None).
  { destruct (path_join_cases p "m" "odels/Linux64_GCC-6.4/FVP_Morello"
                eq_refl eq_refl) as [[_ H]|[[_ H]|H]];
      unfold model_relpath; rewrite H.
    - vm_compute. discriminate.
    - apply rsplit_finds. vm_compute. discriminate.
    - apply rsplit_finds. vm_compute. discriminate. }
  apply Hslash. rewrite Heq. reflexivity.
Qed.

Lemma execute_fvp_native (args : list string) d f x11 t p :
  use_docker_container iopts = false ->
  always (fun e => docker_or_socat e = false)
         (execute_fvp cfg host iopts args d f x11 t p).
Proof.
  intros Hnative. unfold execute_fvp, base_cmd, needs_socat, run_simulator,
    plugin_args, fvp_revision, fvp_revision_body.
  rewrite Hnative. cbn [andb]. lazy beta iota.
  repeat first [apply always_bind_ret | always_step].
  all: try reflexivity.
  all: cbn [docker_or_socat app]; apply model_path_not_docker.
Qed.

(** X14.  The tools [__init__] declares as required cover what
    [execute_fvp] runs: whenever a run executes docker or touches socat,
    the docker container is in use and both [docker] and [socat] are
    among the required tools; and whenever socat is spawned the host is a
    Mac and [Xquartz] is required as well.  Without the docker container
    nothing is required and neither docker nor socat is ever run. *)
Theorem required_tools_cover_execute_fvp (args : list string) (d f : option Path)
    (x11 t : bool) (p : option Z) (s : State) :
  (forall e, In e (events (execute_fvp cfg host iopts args d f x11 t p s)) ->
     docker_or_socat e = true ->
     In "docker" (required_system_tools host iopts).*1 /\
     In "socat" (required_system_tools host iopts).*1) /\
  (forall argv, In (EPopen argv) (events (execute_fvp cfg host iopts args d f x11 t p s)) ->
     In "Xquartz" (required_system_tools host iopts).*1) /\
  (use_docker_container iopts = false ->
   required_system_tools host iopts = [] /\
   Forall (fun e => docker_or_socat e = false)
          (events (execute_fvp cfg host iopts args d f x11 t p s))).
Proof.
  split; [|split].
  - intros e Hin He. unfold required_system_tools.
    destruct (use_docker_container iopts) eqn:Hdocker.
    + split; [left; reflexivity|right; left; reflexivity].
    + pose proof (execute_fvp_native args d f x11 t p Hdocker s) as Hall.
      rewrite Forall_forall in Hall. apply list_elem_of_In, Hall in Hin.
      rewrite Hin in He. discriminate He.
  - intros argv Hin. unfold required_system_tools.
    destruct (needs_socat host iopts x11) eqn:Hneed.
    + unfold needs_socat in Hneed.
      destruct (use_docker_container iopts); [|discriminate Hneed].
      destruct x11; [|discriminate Hneed].
      destruct (IS_MAC host); [|discriminate Hneed].
      right. right. left. reflexivity.
    + exfalso. revert Hin. apply no_socat_not_in.
      unfold execute_fvp. rewrite Hneed.
      apply always_at. apply always_bind; [|intros cmd].
      * intros s'. eapply Forall_impl; [apply base_cmd_before_spawn|].
        intros e [He _]. exact He.
      * apply run_simulator_no_socat.
  - intros Hnative. split.
    + unfold required_system_tools. by rewrite Hnative.
    + by apply execute_fvp_native.
Qed.

End Tests.

Lemma required_tools_cover_execute_fvp_witness :
  In "Xquartz" (required_system_tools broken_host installer_sh).*1 /\
  required_system_tools broken_host native_install = [].
Proof.
  destruct (required_tools_cover_execute_fvp building broken_host installer_sh
              ["--help"] None None true false None fresh) as (_ & Hx & _).
  destruct (required_tools_cover_execute_fvp building broken_host native_install
              ["--help"] None None true false None fresh) as (_ & _ & Hn).
  split.
  - apply (Hx (socat_argv broken_host)). vm_compute. left. reflexivity.
  - apply Hn. reflexivity.
Defined.

(** Where every command fails the first test ends [run_tests]; where
    every command succeeds both tests are run. *)
Lemma run_tests_are_plain_witness :
  (events (run_tests building broken_host native_install fresh) =
   events (execute_fvp building broken_host native_install ["--help"]
             None None false false None fresh) /\
   outcome (run_tests building broken_host native_install fresh)
   = Raise (PyException "exit status 1")) /\
  (exists plugin between,
     events (run_tests building working_host native_install fresh) =
     events (plugin_args building working_host native_install fresh) ++
     [ERunCmd (plain_model_cmd building native_install ++ plugin ++ ["--help"]) None] ++
     between ++
     [ERunCmd (plain_model_cmd building native_install ++ plugin
                 ++ ["--cyclelimit"; "1000"]) None]
     /\ Forall (fun e => is_run_cmd e = false) between) /\
  In (ERunCmd ["/sdk/FVP_Morello/models/Linux64_GCC-6.4/FVP_Morello";
               "--cyclelimit"; "1000"] None)
     (events (run_tests building working_host native_install fresh)).
Proof.
  split; [|split].
  - apply (proj1 (proj2 (run_tests_are_plain building broken_host native_install
                           fresh))).
    reflexivity.
  - apply (proj2 (proj2 (run_tests_are_plain building working_host native_install
                           fresh))).
    reflexivity.
  - vm_compute. repeat first [left; reflexivity|right].
Defined.
End MoreProps.

(** ** BuildNewlibBaremetal: __init__ and add_configure_vars *)

Module NewlibMoreProps.
Import Newlib NewlibInit Examples NewlibProps.

Lemma init_configure_vars_keys (sdkBinDir clangPath clangPlusPlusPath : Path) :
  NoDup (init_configure_vars sdkBinDir clangPath clangPlusPlusPath).*1.
Proof. apply (bool_decide_unpack _). vm_compute. exact I. Qed.

Section Init.
Context {Base : Type}.
Variable super_init : CrossCompileTarget -> Project Base.
Variable super_add_configure_vars : kwargs -> Project Base -> Project Base.

(** X15.  The variables [__init__] passes to [add_configure_vars] have
    distinct names, so after [__init__] the make environment holds every
    one of them with the string form of its value, whatever the
    superclass does with them: the tools for the target come from the SDK
    and the compilers for the build are the configured clang. *)
Theorem init_configure_vars_reach_make (requested : CrossCompileTarget)
    (sourceDir sdkBinDir clangPath clangPlusPlusPath : Path) :
  let env := make_env_vars (project (init super_init super_add_configure_vars
               requested sourceDir sdkBinDir clangPath clangPlusPlusPath)) in
  NoDup (init_configure_vars sdkBinDir clangPath clangPlusPlusPath).*1 /\
  (forall k v, (k, v) ∈ init_configure_vars sdkBinDir clangPath clangPlusPlusPath ->
               env !! k = Some (str v)) /\
  env !! "CC_FOR_TARGET" = Some (sdkBinDir </> "clang") /\
  env !! "AR" = env !! "AR_FOR_TARGET" /\
  env !! "CC" = Some clangPath /\
  env !! "CC_FOR_BUILD" = Some clangPath /\
  env !! "CFLAGS_FOR_TARGET"
  = Some " -target mips64-unknown-elf -integrated-as -mabi=n64 -mcpu=mips4".
Proof.
  cbn zeta. pose proof (init_configure_vars_keys sdkBinDir clangPath clangPlusPlusPath)
    as Hkeys.
  assert (Hall : forall k v,
    (k, v) ∈ init_configure_vars sdkBinDir clangPath clangPlusPlusPath ->
    make_env_vars (project (init super_init super_add_configure_vars
      requested sourceDir sdkBinDir clangPath clangPlusPlusPath)) !! k
    = Some (str v)).
  { intros k v Hin. unfold init. cbn [project]. unfold add_configure_vars.
    cbn [set_make_env make_env_vars]. by apply mirror_into_env_key. }
  split; [exact Hkeys|]. split; [exact Hall|].
  assert (Hmem : forall k v,
    In (k, v) (init_configure_vars sdkBinDir clangPath clangPlusPlusPath) ->
    (k, v) ∈ init_configure_vars sdkBinDir clangPath clangPlusPlusPath).
  { intros k v. apply list_elem_of_In. }
  repeat split.
  - apply (Hall "CC_FOR_TARGET" (VStr (sdkBinDir </> "clang"))), Hmem.
    cbn. tauto.
  - rewrite (Hall "AR" (VPath (sdkBinDir </> "ar"))) by (apply Hmem; cbn; tauto).
    rewrite (Hall "AR_FOR_TARGET" (VPath (sdkBinDir </> "ar")))
      by (apply Hmem; cbn; tauto).
    reflexivity.
  - apply (Hall "CC" (VPath clangPath)), Hmem. cbn. tauto.
  - apply (Hall "CC_FOR_BUILD" (VPath clangPath)), Hmem. cbn. tauto.
  - apply (Hall "CFLAGS_FOR_TARGET" (VStr target_cflags)), Hmem. cbn. tauto.
Qed.

(** X16.  After [__init__] the project is built for the native target,
    whatever target was asked for, and a request for CHERI is the only one
    to print a status message; and when the superclass handler of
    configure variables leaves [self.triple] alone, the configure
    arguments [configure] hands to the superclass method end with
    [--target=mips64-qemu-elf], [--disable-multilib] and [--with-newlib]. *)
Theorem init_then_configure (requested : CrossCompileTarget)
    (sourceDir sdkBinDir clangPath clangPlusPlusPath : Path) :
  (forall kw p, triple (super_add_configure_vars kw p) = triple p) ->
  let i := init super_init super_add_configure_vars
             requested sourceDir sdkBinDir clangPath clangPlusPlusPath in
  crossCompileTarget i = NATIVE /\
  (status i <> [] <-> requested = CHERI) /\
  triple (project i) = "mips64-qemu-elf" /\
  exists front,
    configureArgs (configure_own_args (project i)) =
    front ++ ["--target=mips64-qemu-elf"; "--disable-multilib"; "--with-newlib"].
Proof.
  intros Hsuper. cbn zeta.
  assert (Htriple : triple (project (init super_init super_add_configure_vars
            requested sourceDir sdkBinDir clangPath clangPlusPlusPath))
          = "mips64-qemu-elf").
  { unfold init. cbn [project]. unfold add_configure_vars.
    cbn [set_make_env triple]. rewrite Hsuper. reflexivity. }
  split; [reflexivity|]. split; [|split; [exact Htriple|]].
  - unfold init. cbn [status]. destruct requested; split; intros H;
      try reflexivity; try discriminate H; try (by destruct H).
  - exists (configureArgs (project (init super_init super_add_configure_vars
              requested sourceDir sdkBinDir clangPath clangPlusPlusPath))
            ++ configure_feature_flags).
    unfold configure_own_args. cbn [set_configureArgs configureArgs triple].
    rewrite Htriple.
    rewrite <- !app_assoc. reflexivity.
Qed.

Lemma mirror_into_env_fixed (kw : kwargs) (env1 env2 : gmap string string)
    (k : string) :
  k ∈ kw.*1 -> mirror_into_env kw env1 !! k = mirror_into_env kw env2 !! k.
Proof.
  revert env1 env2. induction kw as [|[k' v'] kw IH]; intros env1 env2 Hin.
  - by apply elem_of_nil in Hin.
  - cbn [mirror_into_env]. destruct (decide (k ∈ kw.*1)) as [Hrest|Hrest].
    + by apply IH.
    + cbn in Hin. apply elem_of_cons in Hin as [->|Hin]; [|contradiction].
      rewrite !mirror_into_env_other by assumption.
      by rewrite !lookup_insert_eq.
Qed.

(** X17.  How calls of [add_configure_vars] compose, for a superclass
    handler that leaves the make environment alone: after two calls a
    variable of the second call has the value the second call alone would
    give it, and any other variable has what the first call left; and
    repeating a call changes nothing in the make environment. *)
Theorem add_configure_vars_compose (kw1 kw2 : kwargs) (p : Project Base) :
  (forall kw q, make_env_vars (super_add_configure_vars kw q) = make_env_vars q) ->
  let add := add_configure_vars super_add_configure_vars in
  (forall k, k ∈ kw2.*1 ->
     make_env_vars (add kw2 (add kw1 p)) !! k = make_env_vars (add kw2 p) !! k) /\
  (forall k, k ∉ kw2.*1 ->
     make_env_vars (add kw2 (add kw1 p)) !! k = make_env_vars (add kw1 p) !! k) /\
  make_env_vars (add kw1 (add kw1 p)) = make_env_vars (add kw1 p).
Proof.
  intros Hsuper. cbn zeta. unfold add_configure_vars.
  repeat (progress (cbn [set_make_env make_env_vars]; rewrite ?Hsuper)).
  split; [|split].
  - intros k Hk. by apply mirror_into_env_fixed.
  - intros k Hk. by apply mirror_into_env_other.
  - apply map_eq. intros k. destruct (decide (k ∈ kw1.*1)) as [Hk|Hk].
    + by apply mirror_into_env_fixed.
    + by rewrite !mirror_into_env_other.
Qed.

End Init.

(** An SDK in [/sdk/bin], and one in the root directory. *)
Lemma init_configure_vars_reach_make_witness :
  make_env_vars
    (project (init (fun _ => sample_project) cmdline_configure_vars MIPS
                "/src/newlib" "/sdk/bin" "/usr/bin/clang" "/usr/bin/clang++"))
  !! "NM_FOR_TARGET" = Some "/sdk/bin/nm" /\
  make_env_vars
    (project (init (fun _ => sample_project) cmdline_configure_vars MIPS
                "/src/newlib" "/" "/usr/bin/clang" "/usr/bin/clang++"))
  !! "CC_FOR_TARGET" = Some "/clang".
Proof.
  split.
  - apply (proj1 (proj2 (init_configure_vars_reach_make (fun _ => sample_project)
             cmdline_configure_vars MIPS
             "/src/newlib" "/sdk/bin" "/usr/bin/clang" "/usr/bin/clang++"))
           "NM_FOR_TARGET" (VPath "/sdk/bin/nm")).
    apply (bool_decide_unpack _). vm_compute. exact I.
  - apply (proj1 (proj2 (proj2 (init_configure_vars_reach_make
             (fun _ => sample_project) cmdline_configure_vars MIPS
             "/src/newlib" "/" "/usr/bin/clang" "/usr/bin/clang++")))).
Defined.

Lemma init_then_configure_witness :
  exists front,
    configureArgs (configure_own_args
      (project (init (fun _ => sample_project) cmdline_configure_vars CHERI
                  "/src/newlib" "/sdk/bin" "/usr/bin/clang" "/usr/bin/clang++")))
    = front ++ ["--target=mips64-qemu-elf"; "--disable-multilib"; "--with-newlib"].
Proof.
  apply (init_then_configure (fun _ => sample_project) cmdline_configure_vars CHERI
           "/src/newlib" "/sdk/bin" "/usr/bin/clang" "/usr/bin/clang++").
  intros kw p. reflexivity.
Defined.

Lemma add_configure_vars_compose_witness :
  make_env_vars (add_configure_vars cmdline_configure_vars [("CC", VStr "gcc")]
                   (add_configure_vars cmdline_configure_vars sample_kwargs
                      sample_project)) !! "CC" = Some "gcc" /\
  make_env_vars (add_configure_vars cmdline_configure_vars [("CC", VStr "gcc")]
                   (add_configure_vars cmdline_configure_vars sample_kwargs
                      sample_project)) !! "newlib_cv_ldbl_eq_dbl" = Some "yes".
Proof.
  assert (Hsuper : forall kw q,
            make_env_vars (cmdline_configure_vars kw q) = make_env_vars q)
    by reflexivity.
  destruct (add_configure_vars_compose cmdline_configure_vars sample_kwargs
              [("CC", VStr "gcc")] sample_project Hsuper) as (Hin & Hout & _).
  split.
  - rewrite (Hin "CC"); [reflexivity|].
    apply (bool_decide_unpack _). vm_compute. exact I.
  - rewrite (Hout "newlib_cv_ldbl_eq_dbl"); [reflexivity|].
    apply (bool_decide_unpack _). vm_compute. exact I.
Defined.

End NewlibMoreProps.
